(** * The AKT/CSA practice platform (app.py): quiz state machine, item-bank
      loader and authorization gate

    A shallow embedding of [app.py].  Python values that reach the code from
    the JSON-lines question bank are kept untyped ([pyval]), the Streamlit
    session is an explicit record, and a script run is a computation in a
    small state-and-exception monad whose state survives an exception, as
    [st.session_state] does.  The library functions whose result depends on
    Unicode tables or on pandas' dtype inference ([str.lower], [str.strip],
    the conversion of a column) are a parameter of the script, [PyLib]. *)

From Stdlib Require Import ZArith List String Ascii Bool Lia QArith.
Import ListNotations.

Local Open Scope string_scope.
Local Open Scope Z_scope.
Local Open Scope list_scope.

Set Implicit Arguments.

(* ===================================================================== *)
(** ** Python values *)
(* ===================================================================== *)

(** What [json.loads] can produce, plus the [NaN] pandas puts in a cell a
    record has no key for.  A [dict] is insertion-ordered: an association
    list, read by its first binding of a key.  Numbers are rationals, so that
    [1 == 1.0] as in Python; infinities are not represented. *)
#[warnings="-register-all"]
Inductive pyval : Type :=
| VNone
| VNaN
| VBool (b : bool)
| VNum (q : Q)
| VStr (s : string)
| VList (l : list pyval)
| VDict (d : list (string * pyval)).

Definition pydict : Type := list (string * pyval).

Inductive exn : Type :=
| KeyError (k : string)
| TypeError (what : string)
| IndexError
| OSError (what : string)
| JSONDecodeError (line : string)
| ProviderError (what : string).

(** A computation that returns or raises. *)
Inductive res (A : Type) : Type :=
| Ok (a : A)
| Err (e : exn).
Arguments Err {A} e.

Definition res_bind {A B} (r : res A) (k : A -> res B) : res B :=
  match r with
  | Ok a => k a
  | Err e => Err e
  end.

(* --------------------------------------------------------------------- *)
(** *** Dictionaries with string keys *)

(** [d.get(k)] *)
Fixpoint dict_get (d : pydict) (k : string) : option pyval :=
  match d with
  | [] => None
  | (k', v) :: d' => if (k' =? k)%string then Some v else dict_get d' k
  end.

(** [k in d] *)
Definition dict_contains (d : pydict) (k : string) : bool :=
  match dict_get d k with
  | Some _ => true
  | None => false
  end.

(** [d[k]] *)
Definition dict_getitem (d : pydict) (k : string) : res pyval :=
  match dict_get d k with
  | Some v => Ok v
  | None => Err (KeyError k)
  end.

(** [d[k] = v]: an existing key keeps its place, a new key goes last. *)
Fixpoint dict_set (d : pydict) (k : string) (v : pyval) : pydict :=
  match d with
  | [] => [(k, v)]
  | (k', v') :: d' =>
      if (k' =? k)%string then (k', v) :: d' else (k', v') :: dict_set d' k v
  end.

(** [list(d.keys())] *)
Definition dict_keys (d : pydict) : list string := map fst d.

(** [{k: val(k) for k in keys if cond(k)}], where the test and the value may
    raise: the comprehension evaluates them key by key, left to right. *)
Fixpoint dict_comp (keys : list string) (cond : string -> res bool)
    (val : string -> res pyval) (acc : pydict) : res pydict :=
  match keys with
  | [] => Ok acc
  | k :: keys' =>
      res_bind (cond k) (fun b =>
        if b
        then res_bind (val k) (fun v => dict_comp keys' cond val (dict_set acc k v))
        else dict_comp keys' cond val acc)
  end.

(* --------------------------------------------------------------------- *)
(** *** Operators on untyped values *)

(** [isinstance(v, dict)] *)
Definition is_dict (v : pyval) : bool :=
  match v with
  | VDict _ => true
  | _ => false
  end.

Definition is_str (k : string) (v : pyval) : bool :=
  match v with
  | VStr s => (s =? k)%string
  | _ => false
  end.

(** [k in v] for a string [k]: key test on a dict, membership on a list,
    substring test on a string, [TypeError] on anything else. *)
Definition py_contains (v : pyval) (k : string) : res bool :=
  match v with
  | VDict d => Ok (dict_contains d k)
  | VList l => Ok (existsb (is_str k) l)
  | VStr s => Ok (match index 0 k s with Some _ => true | None => false end)
  | _ => Err (TypeError "argument is not iterable")
  end.

(** [v[k]] for a string [k]. *)
Definition py_getitem (v : pyval) (k : string) : res pyval :=
  match v with
  | VDict d => dict_getitem d k
  | VList _ | VStr _ => Err (TypeError "indices must be integers")
  | _ => Err (TypeError "object is not subscriptable")
  end.

(** Truth value of [v] in an [if]. *)
Definition py_truthy (v : pyval) : bool :=
  match v with
  | VNone => false
  | VNaN => true
  | VBool b => b
  | VNum q => negb (Qeq_bool q 0)
  | VStr s => negb (s =? "")%string
  | VList l => match l with [] => false | _ => true end
  | VDict d => match d with [] => false | _ => true end
  end.

(** [for x in v]: the elements a loop visits, or [TypeError]. *)
Definition py_iter (v : pyval) : res (list pyval) :=
  match v with
  | VList l => Ok l
  | VDict d => Ok (map (fun kv => VStr (fst kv)) d)
  | VStr s => Ok (map (fun c => VStr (String c "")) (list_ascii_of_string s))
  | _ => Err (TypeError "object is not iterable")
  end.

(** Missing values in the sense of [dropna]. *)
Definition is_null (v : pyval) : bool :=
  match v with
  | VNone | VNaN => true
  | _ => false
  end.

(** Hashable values: what can be a key of [responses]. *)
Definition hashable (v : pyval) : bool :=
  match v with
  | VList _ | VDict _ => false
  | _ => true
  end.

Definition num_of_bool (b : bool) : Q := if b then 1%Q else 0%Q.

(** Equality of two hashable values as dictionary keys.  [True == 1 == 1.0];
    a NaN key is found again because the lookup compares identities first. *)
Definition key_eqb (a b : pyval) : bool :=
  match a, b with
  | VNone, VNone => true
  | VNaN, VNaN => true
  | VBool x, VBool y => Bool.eqb x y
  | VBool x, VNum q | VNum q, VBool x => Qeq_bool (num_of_bool x) q
  | VNum p, VNum q => Qeq_bool p q
  | VStr s, VStr t => (s =? t)%string
  | _, _ => false
  end.

(* ===================================================================== *)
(** ** Strings: [strip], [lower], [split] *)
(* ===================================================================== *)

(** A [str] is modelled by the bytes of its UTF-8 encoding.  [str.lower],
    [str.strip] and the conversion pandas applies to the values of a column
    depend on Unicode tables and on pandas' dtype inference: the script is
    read over any implementation of them, a [PyLib], and the facts about
    them that a proof needs are stated as laws ([StrLaws], [FrameLaws]). *)
Class PyLib : Type := {
  (** [s.lower()] *)
  lower : string -> string;
  (** [s.strip()] *)
  strip : string -> string;
  (** The cells pandas stores for one column of [pd.DataFrame(recs)], given
      the value each record has for the key ([None] where it has none). *)
  column_cells : list (option pyval) -> list pyval
}.

(** Strings of ASCII characters only; on these [str.lower] and [str.strip]
    are the byte-wise functions below. *)
Definition is_ascii_char (c : ascii) : bool := (nat_of_ascii c <? 128)%nat.

Fixpoint is_ascii (s : string) : bool :=
  match s with
  | EmptyString => true
  | String c s' => is_ascii_char c && is_ascii s'
  end.

(** [c.isspace()] for an ASCII character: tab to carriage return, the four
    separators 28-31 and the space. *)
Definition is_space (c : ascii) : bool :=
  let n := nat_of_ascii c in
  ((9 <=? n) && (n <=? 13) || (28 <=? n) && (n <=? 32))%nat.

Fixpoint lstrip (s : string) : string :=
  match s with
  | EmptyString => EmptyString
  | String c s' => if is_space c then lstrip s' else s
  end.

Fixpoint rstrip (s : string) : string :=
  match s with
  | EmptyString => EmptyString
  | String c s' =>
      match rstrip s' with
      | EmptyString => if is_space c then EmptyString else String c EmptyString
      | r => String c r
      end
  end.

(** [s.strip()] for an ASCII string. *)
Definition ascii_strip (s : string) : string := rstrip (lstrip s).

(** [c.lower()] for an ASCII character: the letters A-Z move to a-z. *)
Definition lower_char (c : ascii) : ascii :=
  let n := nat_of_ascii c in
  if ((65 <=? n) && (n <=? 90))%nat then ascii_of_nat (n + 32) else c.

(** [s.lower()] for an ASCII string. *)
Fixpoint ascii_lower (s : string) : string :=
  match s with
  | EmptyString => EmptyString
  | String c s' => String (lower_char c) (ascii_lower s')
  end.

(** [s.split(sep)] for a one-character separator: always at least one
    field, empty fields kept. *)
Fixpoint split (sep : ascii) (s : string) : list string :=
  match s with
  | EmptyString => [EmptyString]
  | String c s' =>
      if (c =? sep)%char then EmptyString :: split sep s'
      else match split sep s' with
           | [] => [String c EmptyString]
           | f :: fs => String c f :: fs
           end
  end.

(** [x in l] for a list of strings. *)
Definition str_in (x : string) (l : list string) : bool :=
  existsb (fun y => (y =? x)%string) l.

(* ===================================================================== *)
(** ** Data frames *)
(* ===================================================================== *)

(** A [pandas.DataFrame] of records: the column labels and, per row, the
    cell of every column. *)
Record DataFrame : Type := mkFrame {
  columns : list string;
  rows : list pydict
}.

Fixpoint add_keys (cols keys : list string) : list string :=
  match keys with
  | [] => cols
  | k :: keys' =>
      add_keys (if str_in k cols then cols else cols ++ [k]) keys'
  end.

(** [pd.DataFrame(recs)]: the columns are the keys of the records in order
    of first appearance, and there is one row per record; the cells of a
    column are what pandas makes of the values the records have for that
    key ([column_cells]: a missing value becomes [NaN], a column of
    integers with a missing value becomes one of floats, and so on). *)
Definition pd_DataFrame {P : PyLib} (recs : list pydict) : DataFrame :=
  let cols := fold_left (fun cols r => add_keys cols (dict_keys r)) recs [] in
  mkFrame cols
    (map (fun i =>
            map (fun c =>
                   (c, nth i (column_cells (map (fun r => dict_get r c) recs))
                         VNaN)) cols)
       (seq 0 (List.length recs))).

(** [pd.DataFrame(columns=cols)] *)
Definition pd_empty_frame (cols : list string) : DataFrame := mkFrame cols [].

(** [df.empty] *)
Definition df_empty (df : DataFrame) : bool :=
  match columns df, rows df with
  | [], _ | _, [] => true
  | _, _ => false
  end.

(** [len(df)] *)
Definition df_len (df : DataFrame) : Z := Z.of_nat (List.length (rows df)).

(** [row.get(col, default)] on a row of the frame. *)
Definition row_get (row : pydict) (col : string) (default : pyval) : pyval :=
  match dict_get row col with
  | Some v => v
  | None => default
  end.

(** [df[col]]: the cells of a column, [KeyError] without the column. *)
Definition df_col (df : DataFrame) (col : string) : res (list pyval) :=
  if str_in col (columns df)
  then Ok (map (fun r => row_get r col VNaN) (rows df))
  else Err (KeyError col).

(** [df[df[col] == value]] for a string [value]. *)
Definition df_where (df : DataFrame) (col : string) (value : string)
  : res DataFrame :=
  if str_in col (columns df)
  then Ok (mkFrame (columns df)
             (filter (fun r => is_str value (row_get r col VNaN)) (rows df)))
  else Err (KeyError col).

(** [df.iloc[idx]]: a negative index counts from the end. *)
Definition df_iloc (df : DataFrame) (idx : Z) : res pydict :=
  let n := df_len df in
  let i := if idx <? 0 then idx + n else idx in
  if (0 <=? i) && (i <? n)
  then match nth_error (rows df) (Z.to_nat i) with
       | Some r => Ok r
       | None => Err IndexError
       end
  else Err IndexError.

Fixpoint res_map {A B} (f : A -> res B) (l : list A) : res (list B) :=
  match l with
  | [] => Ok []
  | a :: l' =>
      res_bind (f a) (fun b => res_bind (res_map f l') (fun bs => Ok (b :: bs)))
  end.

(** [df[col] = df[col].apply(f)] *)
Definition df_apply (df : DataFrame) (col : string) (f : pyval -> res pyval)
  : res DataFrame :=
  res_bind
    (res_map (fun r => res_bind (f (row_get r col VNaN))
                         (fun v => Ok (dict_set r col v))) (rows df))
    (fun rs => Ok (mkFrame (columns df) rs)).

(** [sorted(cells.dropna().unique())]: [unique] hashes the cells, [sorted]
    compares them; strings compare with strings and numbers with numbers. *)
Definition py_le (a b : pyval) : res bool :=
  match a, b with
  | VStr s, VStr t => Ok (String.leb s t)
  | VBool x, VBool y => Ok (Qle_bool (num_of_bool x) (num_of_bool y))
  | VBool x, VNum q => Ok (Qle_bool (num_of_bool x) q)
  | VNum q, VBool x => Ok (Qle_bool q (num_of_bool x))
  | VNum p, VNum q => Ok (Qle_bool p q)
  | _, _ => Err (TypeError "'<' not supported between these instances")
  end.

Fixpoint insert_sorted (x : pyval) (l : list pyval) : res (list pyval) :=
  match l with
  | [] => Ok [x]
  | y :: l' =>
      res_bind (py_le x y) (fun b =>
        if b then Ok (x :: y :: l')
        else res_bind (insert_sorted x l') (fun r => Ok (y :: r)))
  end.

Fixpoint py_sorted (l : list pyval) : res (list pyval) :=
  match l with
  | [] => Ok []
  | x :: l' => res_bind (py_sorted l') (insert_sorted x)
  end.

Fixpoint unique (seen l : list pyval) : res (list pyval) :=
  match l with
  | [] => Ok seen
  | x :: l' =>
      if hashable x
      then unique (if existsb (key_eqb x) seen then seen else seen ++ [x]) l'
      else Err (TypeError "unhashable type")
  end.

Definition sorted_unique (cells : list pyval) : res (list pyval) :=
  res_bind (unique [] (filter (fun v => negb (is_null v)) cells)) py_sorted.

(* ===================================================================== *)
(** ** Session state and script runs *)
(* ===================================================================== *)

(** The dict [sign_in] builds from the provider's reply. *)
Record user : Type := mkUser {
  user_email : option string;
  user_id : string
}.

(** The four keys of [st.session_state]; [responses] maps a [case_id] to the
    chosen letter, in insertion order. *)
Record session : Type := mkSession {
  auth_user : option user;
  quiz_index : Z;
  quiz_score : Z;
  responses : list (pyval * option string)
}.

(** An f-string: literal text and interpolated values. *)
Inductive frag : Type :=
| Lit (s : string)
| Fmt (v : pyval)
| FInt (z : Z)
| FStr (s : option string)
| FExn (e : exn).

(** What a run puts on the page. *)
Inductive ui : Type :=
| Header (t : list frag)
| Subheader (t : list frag)
| Write (t : list frag)
| Markdown (t : list frag)
| Caption (t : list frag)
| Warning (t : list frag)
| Error (t : list frag)
| Success (t : list frag)
| Info (t : list frag)
| Divider
| Radio (options : list string) (labels : pydict) (index : nat).

Record world : Type := mkWorld {
  state : session;
  page : list ui
}.

(** How a stretch of the script ends: it falls through with a value, raises,
    or calls [st.rerun()]. *)
Inductive flow (A : Type) : Type :=
| Done (a : A)
| Raised (e : exn)
| Rerun.
Arguments Raised {A} e.
Arguments Rerun {A}.

Definition script (A : Type) : Type := world -> flow A * world.

Definition ret {A} (a : A) : script A := fun w => (Done a, w).

Definition bind {A B} (c : script A) (k : A -> script B) : script B :=
  fun w =>
    match c w with
    | (Done a, w') => k a w'
    | (Raised e, w') => (Raised e, w')
    | (Rerun, w') => (Rerun, w')
    end.

Notation "x <- c ;; k" := (bind c (fun x => k))
  (at level 61, c at next level, right associativity).
Notation "c ;; k" := (bind c (fun _ => k))
  (at level 61, right associativity).

Definition raise {A} (e : exn) : script A := fun w => (Raised e, w).

Definition st_rerun : script unit := fun w => (Rerun, w).

Definition lift {A} (r : res A) : script A :=
  match r with
  | Ok a => ret a
  | Err e => raise e
  end.

(** [try: c  except Exception as e: h(e)] *)
Definition try_except {A} (c : script A) (h : exn -> script A) : script A :=
  fun w =>
    match c w with
    | (Raised e, w') => h e w'
    | r => r
    end.

Definition show (u : ui) : script unit :=
  fun w => (Done tt, mkWorld (state w) (page w ++ [u])).

Definition get_state : script session := fun w => (Done (state w), w).

Definition put_state (s : session) : script unit :=
  fun w => (Done tt, mkWorld s (page w)).

Definition set_auth_user (u : option user) : script unit :=
  s <- get_state ;;
  put_state (mkSession u (quiz_index s) (quiz_score s) (responses s)).

Definition set_quiz_index (i : Z) : script unit :=
  s <- get_state ;;
  put_state (mkSession (auth_user s) i (quiz_score s) (responses s)).

Definition set_quiz_score (n : Z) : script unit :=
  s <- get_state ;;
  put_state (mkSession (auth_user s) (quiz_index s) n (responses s)).

Definition set_responses (r : list (pyval * option string)) : script unit :=
  s <- get_state ;;
  put_state (mkSession (auth_user s) (quiz_index s) (quiz_score s) r).

(** [responses.get(case_id)]: the stored letter, [None] without the key. *)
Fixpoint resp_lookup (r : list (pyval * option string)) (k : pyval)
  : option string :=
  match r with
  | [] => None
  | (k', v) :: r' => if key_eqb k' k then v else resp_lookup r' k
  end.

Definition resp_get (r : list (pyval * option string)) (k : pyval)
  : res (option string) :=
  if hashable k then Ok (resp_lookup r k)
  else Err (TypeError "unhashable type").

(** [responses[case_id] = choice] *)
Fixpoint resp_store (r : list (pyval * option string)) (k : pyval)
    (v : option string) : list (pyval * option string) :=
  match r with
  | [] => [(k, v)]
  | (k', v') :: r' =>
      if key_eqb k' k then (k', v) :: r' else (k', v') :: resp_store r' k v
  end.

Definition resp_set (r : list (pyval * option string)) (k : pyval)
    (v : option string) : res (list (pyval * option string)) :=
  if hashable k then Ok (resp_store r k v)
  else Err (TypeError "unhashable type").

(** [choice == v] for the letter (or [None]) the radio returned. *)
Definition choice_eq (choice : option string) (v : pyval) : bool :=
  match choice, v with
  | Some k, VStr s => (k =? s)%string
  | None, VNone => true
  | _, _ => false
  end.

(* ===================================================================== *)
(** ** The application *)
(* ===================================================================== *)

(** What the file system holds at a path. *)
Inductive file_state : Type :=
| Absent                          (* [Path.exists()] is false *)
| Unreadable (what : string)      (* exists, but [open] raises *)
| Lines (ls : list string).       (* exists and reads as these lines *)

(** The widgets of one run of [mcq_player]: the two select boxes, the value
    [st.radio] returns and the button that was clicked, if any. *)
Inductive button : Type := Submit | Previous | Next.

Record widgets : Type := mkWidgets {
  dom_choice : string;
  sub_choice : string;
  choice : option string;
  clicked : option button
}.

Definition is_clicked (b : button) (w : widgets) : bool :=
  match clicked w, b with
  | Some Submit, Submit | Some Previous, Previous | Some Next, Next => true
  | _, _ => false
  end.

Record auth_widgets : Type := mkAuthWidgets {
  signin_email : string;
  signin_pw : string;
  do_signin : bool;
  signup_email : string;
  signup_pw : string;
  do_signup : bool
}.

Definition ITEMS_PATH : string := "data/items.jsonl".

Definition ITEM_COLUMNS : list string :=
  ["case_id"; "domain"; "sub_specialty"; "topic"; "question"; "options";
   "correct_answer"; "explanation"; "guideline_reference"].

Definition keys : list string := ["A"; "B"; "C"; "D"; "E"].

(** [order_opts(d)], the helper inside [load_items]. *)
Definition order_opts (d : pydict) : res pydict :=
  dict_comp keys (fun k => Ok (dict_contains d k)) (dict_getitem d) [].

(** [lambda d: order_opts(d) if isinstance(d, dict) else d] *)
Definition normalize_options (v : pyval) : res pyval :=
  match v with
  | VDict d => res_bind (order_opts d) (fun d' => Ok (VDict d'))
  | _ => Ok v
  end.

Definition init_session (s : option session) : session :=
  match s with
  | Some s => s                      (* [setdefault] keeps what is there *)
  | None => mkSession None 0 0 []
  end.

Definition is_logged_in (s : session) : bool :=
  match auth_user s with
  | Some _ => true
  | None => false
  end.

(** [user.get("email") or ""] *)
Definition email_of (u : user) : string :=
  match user_email u with
  | Some e => e
  | None => ""
  end.

(** [(user.get("email") or "").lower() if user else None] *)
Definition current_user_email {P : PyLib} (s : session) : option string :=
  match auth_user s with
  | Some u => Some (lower (email_of u))
  | None => None
  end.

Section App.

(** The environment of the script: the library, the file system, the JSON
    parser (one object per line, or an exception), the [ADMIN_EMAILS] secret
    and the identity provider. *)
Context {P : PyLib}.
Variable fs : string -> file_state.
Variable json_loads : string -> res pydict.
Variable secret_ADMIN_EMAILS : string.
Variable sign_in_with_password : string -> string -> res user.
Variable provider_sign_up : string -> string -> res unit.
Variable provider_sign_out : res unit.

Definition ADMIN_EMAILS : list string :=
  map (fun e => lower (strip e))
    (filter (fun e => negb (strip e =? "")%string)
       (split "," secret_ADMIN_EMAILS)).

Definition is_admin (s : session) : bool :=
  match current_user_email s with
  | Some email => str_in email ADMIN_EMAILS
  | None => false                   (* [None in ADMIN_EMAILS] *)
  end.

Definition load_items (jsonl_path : string) : script DataFrame :=
  match fs jsonl_path with
  | Absent =>
      show (Warning [Lit "Question bank not found at `";
                     Fmt (VStr jsonl_path);
                     Lit "`. Using empty dataset."]) ;;
      ret (pd_empty_frame ITEM_COLUMNS)
  | Unreadable what => raise (OSError what)
  | Lines ls =>
      rows <- lift (res_map json_loads
                      (filter (fun line => negb (strip line =? "")%string) ls)) ;;
      let df := pd_DataFrame rows in
      if str_in "options" (columns df)
      then lift (df_apply df "options" normalize_options)
      else ret df
  end.

Definition sign_out : script unit :=
  try_except (lift provider_sign_out) (fun _ => ret tt) ;;
  set_auth_user None ;;
  set_quiz_index 0 ;;
  set_quiz_score 0 ;;
  set_responses [].

Definition sign_in (email password : string) : script (option user) :=
  try_except
    (res <- lift (sign_in_with_password email password) ;;
     ret (Some (mkUser (user_email res) (user_id res))))
    (fun e =>
       show (Error [Lit "Sign-in failed: "; FExn e]) ;;
       ret None).

Definition sign_up (email password : string) : script bool :=
  try_except
    (lift (provider_sign_up email password) ;; ret true)
    (fun e =>
       show (Error [Lit "Sign-up failed: "; FExn e]) ;;
       ret false).

(** [auth_block()], given what was typed and pressed in its two forms.  The
    forms carry fixed keys and Streamlit accepts a key once per run: this is
    a call whose forms are accepted, as those of the first call of a run
    are. *)
Definition auth_block (w : auth_widgets) : script unit :=
  show (Subheader [Lit "Sign In"]) ;;
  (if do_signin w then
     u <- sign_in (signin_email w) (signin_pw w) ;;
     match u with
     | Some usr =>
         set_auth_user (Some usr) ;;
         show (Success [Lit "Signed in."]) ;;
         st_rerun
     | None => ret tt
     end
   else ret tt) ;;
  show Divider ;;
  show (Subheader [Lit "Create a new account"]) ;;
  (if do_signup w then
     ok <- sign_up (signup_email w) (signup_pw w) ;;
     if ok then show (Success [Lit "Account created. Please sign in above."])
     else ret tt
   else ret tt).

Definition profile_box (sign_out_clicked : bool) : script unit :=
  s <- get_state ;;
  show (Caption [Lit "Signed in as **"; FStr (current_user_email s); Lit "**"]) ;;
  if sign_out_clicked then sign_out ;; st_rerun else ret tt.

End App.

(* --------------------------------------------------------------------- *)
(** *** The quiz player *)

(** The filtered view: a copy of the bank, narrowed by each criterion that is
    not ["All"]. *)
Definition filter_view (df : DataFrame) (dom_choice sub_choice : string)
  : res DataFrame :=
  let filtered := df in
  res_bind (if negb (dom_choice =? "All")%string
            then df_where filtered "domain" dom_choice
            else Ok filtered) (fun filtered =>
  if negb (sub_choice =? "All")%string
  then df_where filtered "sub_specialty" sub_choice
  else Ok filtered).

(** The feedback under the buttons; it reads the session and the row and
    writes to the page only. *)
Definition feedback (row : pydict) (case_id : pyval) : script unit :=
  s <- get_state ;;
  stored <- lift (resp_get (responses s) case_id) ;;
  match stored with
  | Some chosen =>
      if (chosen =? "")%string then ret tt else
      let correct := row_get row "correct_answer" VNone in
      (if choice_eq (Some chosen) correct
       then show (Success [Lit "Correct: "; Fmt correct])
       else show (Error [Lit "Incorrect. Your answer: "; FStr (Some chosen);
                         Lit ". Correct: "; Fmt correct])) ;;
      (match row_get row "explanation" (VDict []) with
       | VDict expl =>
           show (Markdown [Lit "**Rationale**"]) ;;
           show (Write [Fmt (row_get expl "rationale" (VStr ""))]) ;;
           let wrongs := row_get expl "why_others_incorrect" (VList []) in
           if py_truthy wrongs then
             show (Markdown [Lit "**Why others are incorrect**"]) ;;
             ws <- lift (py_iter wrongs) ;;
             fold_right (fun w k => show (Write [Lit "- "; Fmt w]) ;; k)
               (ret tt) ws
           else ret tt
       | _ => ret tt
       end) ;;
      let refs := row_get row "guideline_reference" (VList []) in
      if py_truthy refs then
        show (Markdown [Lit "**Guideline references:**"]) ;;
        rs <- lift (py_iter refs) ;;
        fold_right (fun r k => show (Write [Lit "- "; Fmt r]) ;; k) (ret tt) rs
      else ret tt
  | None => ret tt
  end.

(** Position of [k] in [l], as [list.index]. *)
Fixpoint list_index (k : string) (l : list string) : nat :=
  match l with
  | [] => O
  | x :: l' => if (x =? k)%string then O else S (list_index k l')
  end.

(** The part of [mcq_player] from [row = filtered.iloc[idx]] on: the
    question, the radio, the three buttons, the feedback and the score.
    ([labels] makes the same tests and reads as [key_to_label], just
    before it.) *)
Definition show_item (filtered : DataFrame) (idx : Z) (w : widgets)
  : script unit :=
  row <- lift (df_iloc filtered idx) ;;
  let case_id := row_get row "case_id" VNone in
  show (Subheader [Lit "Question "; FInt (idx + 1); Lit " / ";
                   FInt (df_len filtered); Lit "  -  `"; Fmt case_id;
                   Lit "`"]) ;;
  show (Write [Lit "**Topic:** "; Fmt (row_get row "topic" (VStr ""))]) ;;
  show (Write [Fmt (row_get row "question" (VStr ""))]) ;;
  let options := row_get row "options" (VDict []) in
  (* Keep stable order A-E *)
  key_to_label <- lift (dict_comp keys (py_contains options)
                          (py_getitem options) []) ;;
  s <- get_state ;;
  prev_choice <- lift (resp_get (responses s) case_id) ;;
  show (Radio (dict_keys key_to_label) key_to_label
          (match prev_choice with
           | Some p => if dict_contains key_to_label p
                       then list_index p (dict_keys key_to_label)
                       else O
           | None => O
           end)) ;;
  (if is_clicked Submit w then
     s <- get_state ;;
     r <- lift (resp_set (responses s) case_id (choice w)) ;;
     set_responses r ;;
     (if choice_eq (choice w) (row_get row "correct_answer" VNone)
      then s <- get_state ;; set_quiz_score (quiz_score s + 1)
      else ret tt) ;;
     show (Success [Lit "Answer submitted. See explanation below."])
   else ret tt) ;;
  (if is_clicked Previous w then
     set_quiz_index (Z.max 0 (idx - 1)) ;; st_rerun
   else ret tt) ;;
  (if is_clicked Next w then
     set_quiz_index (Z.min (df_len filtered - 1) (idx + 1)) ;; st_rerun
   else ret tt) ;;
  (* Feedback *)
  feedback row case_id ;;
  (* Score *)
  s <- get_state ;;
  show (Info [Lit "Score: "; FInt (quiz_score s); Lit " / ";
              FInt (Z.of_nat (List.length (responses s)))]).

Definition mcq_player (df : DataFrame) (w : widgets) : script unit :=
  show (Header [Lit "AKT MCQ Practice"]) ;;
  if df_empty df then
    show (Warning [Lit "No items found. Add lines to `data/items.jsonl`."])
  else
    (* Filters *)
    _ <- lift (res_bind (df_col df "domain") sorted_unique) ;;
    _ <- lift (res_bind (df_col df "sub_specialty") sorted_unique) ;;
    filtered <- lift (filter_view df (dom_choice w) (sub_choice w)) ;;
    (* Quiz navigation *)
    s <- get_state ;;
    idx <- (if quiz_index s >=? df_len filtered
            then set_quiz_index 0 ;; ret 0
            else ret (quiz_index s)) ;;
    show (Write [Lit "Items available: **"; FInt (df_len filtered); Lit "**"]) ;;
    if df_len filtered =? 0 then ret tt
    else show_item filtered idx w.

(** The signed-in branch of the Practice tab in [main]. *)
Definition practice {P : PyLib} (fs : string -> file_state)
    (json_loads : string -> res pydict) (provider_sign_out : res unit)
    (sign_out_clicked : bool) (w : widgets) : script unit :=
  df <- load_items fs json_loads ITEMS_PATH ;;
  profile_box provider_sign_out sign_out_clicked ;;
  mcq_player df w.

(** The session after one run, whatever way the run ended. *)
Definition session_after {A} (c : script A) (s : session) : session :=
  state (snd (c (mkWorld s []))).

Definition outcome {A} (c : script A) (s : session) : flow A :=
  fst (c (mkWorld s [])).

Definition page_after {A} (c : script A) (s : session) : list ui :=
  page (snd (c (mkWorld s []))).

(* ===================================================================== *)
(** ** Runs in sequence, reachable sessions, well-formed banks *)
(* ===================================================================== *)

Definition fresh : session := init_session None.

(** One click: the run it triggers and, when that run ends in [st.rerun()],
    the run that follows with the same widget values and no button clicked. *)
Definition interact (df : DataFrame) (w : widgets) (s : session) : session :=
  match mcq_player df w (mkWorld s []) with
  | (Rerun, w') =>
      session_after
        (mcq_player df (mkWidgets (dom_choice w) (sub_choice w) (choice w) None))
        (state w')
  | (_, w') => state w'
  end.

Definition interactions (df : DataFrame) (ws : list widgets) (s : session)
  : session :=
  fold_left (fun s w => interact df w s) ws s.

(** The sessions a user can be in: a fresh one, and what runs of the player
    (on whatever bank the loader returned for that run), a successful sign-in
    and a sign-out make of one. *)
Inductive reachable : session -> Prop :=
| reach_fresh : reachable fresh
| reach_run df w s :
    reachable s -> reachable (session_after (mcq_player df w) s)
| reach_sign_in u s :
    reachable s ->
    reachable (mkSession (Some u) (quiz_index s) (quiz_score s) (responses s))
| reach_sign_out r s :
    reachable s -> reachable (session_after (sign_out r) s).

(** A bank whose items have the shape the player expects: taxonomy cells are
    strings or missing, [case_id] is hashable and [options] is a dict. *)
Definition taxonomy_ok (v : pyval) : bool :=
  match v with
  | VNone | VNaN | VStr _ => true
  | _ => false
  end.

Definition item_ok (row : pydict) : bool :=
  taxonomy_ok (row_get row "domain" VNaN)
  && taxonomy_ok (row_get row "sub_specialty" VNaN)
  && hashable (row_get row "case_id" VNone)
  && is_dict (row_get row "options" (VDict [])).

Definition bank_ok (df : DataFrame) : bool :=
  str_in "domain" (columns df)
  && str_in "sub_specialty" (columns df)
  && forallb item_ok (rows df).

(** The filtered view as the specification words it: the items of the bank,
    in bank order, whose [domain] and [sub_specialty] each equal the selected
    string, the selection ["All"] constraining nothing. *)
Definition selects (selection : string) (cell : pyval) : bool :=
  (selection =? "All")%string || is_str selection cell.

Definition view_by_spec (bank : list pydict) (domain sub_specialty : string)
  : list pydict :=
  filter (fun r => selects domain (row_get r "domain" VNaN)
                   && selects sub_specialty (row_get r "sub_specialty" VNaN))
    bank.

(** The cursor the player works with once it has looked at the view. *)
Definition clamp_cursor (n cursor : Z) : Z :=
  if cursor >=? n then 0 else cursor.

(** The session once the player has looked at a view of [n] items: a cursor
    at or past [n] has been put back to 0. *)
Definition enter_view (n : Z) (s : session) : session :=
  if quiz_index s >=? n
  then mkSession (auth_user s) 0 (quiz_score s) (responses s)
  else s.

(** The effect of a run on the session when the item at the cursor is read
    and shown: a function of the click alone. *)
Definition after_click (n idx : Z) (row : pydict) (w : widgets) (s : session)
  : session :=
  match clicked w with
  | Some Submit =>
      mkSession (auth_user s) (quiz_index s)
        (if choice_eq (choice w) (row_get row "correct_answer" VNone)
         then quiz_score s + 1 else quiz_score s)
        (resp_store (responses s) (row_get row "case_id" VNone) (choice w))
  | Some Previous =>
      mkSession (auth_user s) (Z.max 0 (idx - 1)) (quiz_score s) (responses s)
  | Some Next =>
      mkSession (auth_user s) (Z.min (n - 1) (idx + 1)) (quiz_score s)
        (responses s)
  | None => s
  end.

(** The bindings of [d] for the keys [ks], in the order of [ks]. *)
Definition pick (d : pydict) (ks : list string) : pydict :=
  flat_map (fun k => match dict_get d k with
                     | Some v => [(k, v)]
                     | None => []
                     end) ks.

(** What [normalize_options] returns, as a total function. *)
Definition normalized (v : pyval) : pyval :=
  match v with
  | VDict d => VDict (pick d keys)
  | _ => v
  end.

(** The frame [load_items] builds from the parsed records. *)
Definition loaded_frame {P : PyLib} (recs : list pydict) : DataFrame :=
  let df := pd_DataFrame recs in
  if str_in "options" (columns df)
  then mkFrame (columns df)
         (map (fun r => dict_set r "options"
                          (normalized (row_get r "options" VNaN))) (rows df))
  else df.

(** [if line.strip()] *)
Definition nonblank {P : PyLib} (line : string) : bool :=
  negb (strip line =? "")%string.

(** A script that writes to the page only. *)
Definition keeps_state {A} (c : script A) : Prop :=
  forall w, state (snd (c w)) = state w.

(** A script under which a property of the session persists, however the
    script ends. *)
Definition preserves (I : session -> Prop) {A} (c : script A) : Prop :=
  forall w, I (state w) -> I (state (snd (c w))).

(** A script that only adds to the page. *)
Definition extends_page {A} (c : script A) : Prop :=
  forall w, exists l, page (snd (c w)) = page w ++ l.

(** The first lines of the player's page over a view of [n] items. *)
Definition page_head (n : Z) : list ui :=
  [Header [Lit "AKT MCQ Practice"];
   Write [Lit "Items available: **"; FInt n; Lit "**"]].

(** The line that announces the item at position [idx] of [n]. *)
Definition question_line (n idx : Z) (row : pydict) : ui :=
  Subheader [Lit "Question "; FInt (idx + 1); Lit " / "; FInt n;
             Lit "  -  `"; Fmt (row_get row "case_id" VNone); Lit "`"].

(** "The dataset location resolves to readable structured data": the file
    opens and each of its non-blank lines parses. *)
Definition readable {P : PyLib} (fs : string -> file_state)
    (json_loads : string -> res pydict) (path : string) : Prop :=
  exists ls recs,
    fs path = Lines ls /\
    res_map json_loads
      (filter (fun line => negb (strip line =? "")%string) ls) = Ok recs.

(** What [str.lower] and [str.strip] are known to do: lower-casing twice
    is lower-casing once and empties no string, and on ASCII strings both
    are the byte-wise functions. *)
Record StrLaws (P : PyLib) : Prop := {
  lower_idempotent : forall s, lower (lower s) = lower s;
  lower_nonempty : forall s, lower s = "" -> s = "";
  lower_on_ascii : forall s, is_ascii s = true -> lower s = ascii_lower s;
  strip_on_ascii : forall s, is_ascii s = true -> strip s = ascii_strip s
}.

(** What the column conversion of pandas is known to do: it gives one cell
    per record, and a dict stays the dict it was. *)
Record FrameLaws (P : PyLib) : Prop := {
  column_cells_length :
    forall l, List.length (column_cells l) = List.length l;
  column_cells_dict :
    forall l i d,
      nth_error l i = Some (Some (VDict d)) ->
      nth_error (column_cells l) i = Some (VDict d)
}.

(* ===================================================================== *)
(** ** Example data *)
(* ===================================================================== *)

(** The library on the example data: the strings are ASCII, and the columns
    hold strings and dicts, which pandas stores as they are, with [NaN] for
    a missing value. *)
Definition plain_cells (l : list (option pyval)) : list pyval :=
  map (fun o => match o with Some v => v | None => VNaN end) l.

Definition ascii_py : PyLib :=
  {| lower := ascii_lower; strip := ascii_strip; column_cells := plain_cells |}.

Definition item (case_id domain sub_specialty : string) (options : pydict)
    (correct_answer : string) : pydict :=
  [("case_id", VStr case_id); ("domain", VStr domain);
   ("sub_specialty", VStr sub_specialty); ("topic", VStr "t");
   ("question", VStr "q"); ("options", VDict options);
   ("correct_answer", VStr correct_answer)].

(** A bank file of five lines (one of them blank) and a parser for it. *)
Definition demo_fs (path : string) : file_state :=
  if (path =? ITEMS_PATH)%string
  then Lines ["item 1"; "item 2"; "   "; "item 3"; "item 4"; "item 5"]
  else Absent.

Definition demo_loads (line : string) : res pydict :=
  if (line =? "item 1")%string then
    Ok (item "C1" "Cardio" "HF" [("A", VStr "a"); ("B", VStr "b")] "A")
  else if (line =? "item 2")%string then
    Ok (item "C2" "Cardio" "AF"
          [("B", VStr "b"); ("A", VStr "a"); ("D", VStr "d")] "B")
  else if (line =? "item 3")%string then
    Ok (item "C3" "Resp" "COPD" [("A", VStr "a"); ("C", VStr "c")] "C")
  else if (line =? "item 4")%string then
    Ok (item "C4" "Resp" "Asthma" [("E", VStr "e"); ("A", VStr "a")] "E")
  else if (line =? "item 5")%string then
    Ok (item "C5" "Resp" "COPD" [("A", VStr "a"); ("B", VStr "b")] "B")
  else Err (JSONDecodeError line).

(** The frame [load_items] returns for that file. *)
Definition demo_bank : DataFrame :=
  match @load_items ascii_py demo_fs demo_loads ITEMS_PATH
          (mkWorld fresh []) with
  | (Done df, _) => df
  | _ => pd_empty_frame ITEM_COLUMNS
  end.

(** A bank path that exists but cannot be opened, and one whose only line
    is not a JSON object. *)
Definition unreadable_fs (path : string) : file_state :=
  Unreadable "Is a directory".

Definition garbled_fs (path : string) : file_state := Lines ["not json"].

(** A provider that rejects every password. *)
Definition rejecting_provider (email password : string) : res user :=
  Err (ProviderError "Invalid login credentials").

(* ===================================================================== *)
(** ** The administrative calls, and notions used to state further facts *)
(* ===================================================================== *)

(** What [auth.admin.list_users()] hands back: a dict, or an object whose
    [users] attribute may be missing. *)
Inductive sdk_page : Type :=
| PageDict (d : pydict)
| PageObject (users : option pyval).

(** The two calls of the service-role client the script uses. *)
Record admin_client : Type := mkAdminClient {
  list_users : res sdk_page;
  delete_user : string -> res unit
}.

(** [get_client_admin()]: no client without a service-role key (missing or
    empty). *)
Definition get_client_admin (SUPABASE_SERVICE_ROLE_KEY : option string)
    (create_client : string -> admin_client) : option admin_client :=
  match SUPABASE_SERVICE_ROLE_KEY with
  | None => None
  | Some key => if (key =? "")%string then None else Some (create_client key)
  end.

Definition admin_list_users (supabase_admin : option admin_client)
  : script pyval :=
  match supabase_admin with
  | None =>
      show (Error [Lit "Admin functions require SUPABASE_SERVICE_ROLE_KEY in secrets."]) ;;
      ret (VList [])
  | Some client =>
      try_except
        (page <- lift (list_users client) ;;
         ret (match page with
              | PageDict d => row_get d "users" (VList [])
              | PageObject (Some users) => users
              | PageObject None => VList []
              end))
        (fun e =>
           show (Error [Lit "List users failed: "; FExn e]) ;;
           ret (VList []))
  end.

Definition admin_delete_user (supabase_admin : option admin_client)
    (user_id : string) : script bool :=
  match supabase_admin with
  | None =>
      show (Error [Lit "Admin functions require SUPABASE_SERVICE_ROLE_KEY in secrets."]) ;;
      ret false
  | Some client =>
      try_except
        (lift (delete_user client user_id) ;; ret true)
        (fun e =>
           show (Error [Lit "Delete user failed: "; FExn e]) ;;
           ret false)
  end.

(** [",".join(fields)] *)
Fixpoint join (sep : ascii) (fields : list string) : string :=
  match fields with
  | [] => EmptyString
  | [f] => f
  | f :: fs => (f ++ String sep (join sep fs))%string
  end.

(** [sep not in s] *)
Fixpoint free_of (sep : ascii) (s : string) : bool :=
  match s with
  | EmptyString => true
  | String c s' => negb (c =? sep)%char && free_of sep s'
  end.

(** The response record holds a key equal to [k]. *)
Definition answered (r : list (pyval * option string)) (k : pyval) : bool :=
  existsb (fun e => key_eqb (fst e) k) r.

(** No entry of the response record has a key equal to that of a later
    entry. *)
Fixpoint distinct_keys (r : list (pyval * option string)) : Prop :=
  match r with
  | [] => True
  | (k, _) :: r' =>
      existsb (fun e => key_eqb k (fst e)) r' = false /\ distinct_keys r'
  end.

(** The clicks on Submit among the widget states of a series of runs. *)
Definition submits (ws : list widgets) : Z :=
  Z.of_nat (List.length (filter (is_clicked Submit) ws)).

(** The part of [bank_ok] the filters need: the two taxonomy columns exist
    and hold strings or missing values. *)
Definition filters_ok (df : DataFrame) : bool :=
  str_in "domain" (columns df)
  && str_in "sub_specialty" (columns df)
  && forallb (fun r => taxonomy_ok (row_get r "domain" VNaN)
                       && taxonomy_ok (row_get r "sub_specialty" VNaN))
       (rows df).

(** What the player has shown of an item when it gets to the radio. *)
Definition item_lines (n idx : Z) (row : pydict) : list ui :=
  [question_line n idx row;
   Write [Lit "**Topic:** "; Fmt (row_get row "topic" (VStr ""))];
   Write [Fmt (row_get row "question" (VStr ""))]].

(** A value the feedback can loop over, or skips because it is falsy. *)
Definition loopable (v : pyval) : bool :=
  negb (py_truthy v)
  || match py_iter v with Ok _ => true | Err _ => false end.

(** An item whose explanation and references the feedback can render. *)
Definition feedback_ok (row : pydict) : bool :=
  match row_get row "explanation" (VDict []) with
  | VDict expl => loopable (row_get expl "why_others_incorrect" (VList []))
  | _ => true
  end
  && loopable (row_get row "guideline_reference" (VList [])).

(** The last line of a run that gets to the end of the player. *)
Definition score_line (s : session) : ui :=
  Info [Lit "Score: "; FInt (quiz_score s); Lit " / ";
        FInt (Z.of_nat (List.length (responses s)))].

(** A script that always falls through with a value. *)
Definition returns {A} (c : script A) : Prop :=
  forall w, exists a, fst (c w) = Done a.

(** The index the radio is given: the place of the stored answer among the
    option letters, 0 when there is none or it is not among them. *)
Definition radio_index (options : list string) (stored : option string)
  : nat :=
  match stored with
  | Some p => if str_in p options then list_index p options else O
  | None => O
  end.

(** A bank file of blank lines only. *)
Definition blank_fs (path : string) : file_state :=
  Lines [""; "   "].

(** A bank whose second record has no [options] key: its cell is [NaN]. *)
Definition patchy_bank : DataFrame :=
  @pd_DataFrame ascii_py
    [item "P1" "Cardio" "HF" [("A", VStr "a"); ("B", VStr "b")] "A";
     [("case_id", VStr "P2"); ("domain", VStr "Cardio");
      ("sub_specialty", VStr "AF"); ("correct_answer", VStr "A")]].

(** A provider that accepts every password. *)
Definition accepting_provider (email password : string) : res user :=
  Ok (mkUser (Some email) "uid-1").

(* ===================================================================== *)
(** ** The byte-wise string functions and the example library *)
(* ===================================================================== *)

(** The white space of ASCII is the ten characters Python names, and the
    letters that [lower_char] moves are the twenty-six capitals. *)
Lemma is_space_bytes (c : ascii) :
  is_space c = true
  <-> In (nat_of_ascii c) [9; 10; 11; 12; 13; 28; 29; 30; 31; 32]%nat.
Proof.
  destruct c as [[] [] [] [] [] [] [] []]; vm_compute;
    intuition discriminate.
Qed.

Lemma ascii_lower_alphabet :
  ascii_lower "ABCDEFGHIJKLMNOPQRSTUVWXYZ" = "abcdefghijklmnopqrstuvwxyz" /\
  ascii_lower "abcdefghijklmnopqrstuvwxyz" = "abcdefghijklmnopqrstuvwxyz" /\
  ascii_lower "0123456789 @[`{.,-_+" = "0123456789 @[`{.,-_+".
Proof. repeat split. Qed.

Lemma lower_char_idem (c : ascii) : lower_char (lower_char c) = lower_char c.
Proof. destruct c as [[] [] [] [] [] [] [] []]; reflexivity. Qed.

Lemma ascii_lower_idem (x : string) :
  ascii_lower (ascii_lower x) = ascii_lower x.
Proof.
  induction x as [|c x IH]; simpl; [reflexivity|].
  now rewrite lower_char_idem, IH.
Qed.

Lemma ascii_str_laws : StrLaws ascii_py.
Proof.
  split; simpl.
  - apply ascii_lower_idem.
  - intros [|c x]; simpl; [reflexivity|discriminate].
  - reflexivity.
  - reflexivity.
Qed.

Lemma ascii_frame_laws : FrameLaws ascii_py.
Proof.
  split; simpl; unfold plain_cells.
  - intros l. apply length_map.
  - intros l i d H. now rewrite nth_error_map, H.
Qed.

(* ===================================================================== *)
(** ** Dictionaries and option normalization *)
(* ===================================================================== *)

Section DictFacts.

Implicit Types (d acc : pydict) (k : string) (v : pyval).

Lemma dict_get_set_same d k v : dict_get (dict_set d k v) k = Some v.
Proof.
    induction d as [|[k' v'] d IH]; simpl.
    - now rewrite String.eqb_refl.
    - destruct (k' =? k)%string eqn:E; simpl; rewrite E; auto.
Qed.

Lemma dict_get_set_other d k k' v :
    k <> k' -> dict_get (dict_set d k v) k' = dict_get d k'.
Proof.
    intros Hne. induction d as [|[k0 v0] d IH]; simpl.
    - destruct (String.eqb_spec k k'); congruence.
    - destruct (String.eqb_spec k0 k) as [->|]; simpl.
      + destruct (String.eqb_spec k k'); congruence.
      + now rewrite IH.
Qed.

Lemma dict_get_app d1 d2 k :
    dict_get (d1 ++ d2) k =
    match dict_get d1 k with
    | Some v => Some v
    | None => dict_get d2 k
    end.
Proof.
    induction d1 as [|[k' v'] d1 IH]; simpl; auto.
    destruct (k' =? k)%string; auto.
Qed.

Lemma dict_set_fresh d k v :
    dict_contains d k = false -> dict_set d k v = d ++ [(k, v)].
Proof.
    unfold dict_contains.
    induction d as [|[k' v'] d IH]; simpl; auto.
    destruct (k' =? k)%string; [discriminate|].
    intros H. now rewrite IH.
Qed.

Lemma dict_contains_keys d k :
    dict_contains d k = true <-> In k (dict_keys d).
Proof.
    unfold dict_contains.
    induction d as [|[k' v'] d IH]; simpl.
    - split; [discriminate | tauto].
    - destruct (String.eqb_spec k' k) as [->|Hne].
      + split; auto.
      + rewrite IH. split; [auto | intros [?|?]; congruence].
Qed.

Lemma dict_get_map_cells (f : string -> pyval) cols k :
    dict_get (map (fun c => (c, f c)) cols) k =
    if str_in k cols then Some (f k) else None.
Proof.
    induction cols as [|c cols IH]; simpl; auto.
    destruct (String.eqb_spec c k) as [->|]; simpl; auto.
Qed.

  (** The comprehension of [order_opts] never raises: it appends, to what has
      been collected, the bindings of the keys it is still to visit. *)
Lemma dict_comp_pick d ks :
    NoDup ks ->
    forall acc,
      (forall k, In k ks -> dict_contains acc k = false) ->
      dict_comp ks (fun k => Ok (dict_contains d k)) (dict_getitem d) acc
      = Ok (acc ++ pick d ks).
Proof.
    induction 1 as [|k ks Hk Hnd IH]; intros acc Hacc; simpl.
    - now rewrite app_nil_r.
    - unfold dict_contains at 1, dict_getitem, pick; simpl.
      destruct (dict_get d k) as [v|] eqn:E; simpl.
      + rewrite dict_set_fresh by (apply Hacc; now left).
        rewrite IH.
        * now rewrite <- app_assoc.
        * intros k' Hk'. unfold dict_contains.
          rewrite dict_get_app. simpl.
          specialize (Hacc k' (or_intror Hk')). unfold dict_contains in Hacc.
          destruct (dict_get acc k'); [discriminate|].
          destruct (String.eqb_spec k k'); [subst; contradiction | reflexivity].
      + apply IH. intros k' Hk'. apply Hacc. now right.
Qed.

Lemma keys_NoDup : NoDup keys.
Proof.
    unfold keys. repeat constructor; simpl; intuition discriminate.
Qed.

Lemma order_opts_pick d : order_opts d = Ok (pick d keys).
Proof.
    unfold order_opts. now rewrite dict_comp_pick by (auto using keys_NoDup).
Qed.

Lemma normalize_options_total v : normalize_options v = Ok (normalized v).
Proof.
    destruct v; simpl; auto. now rewrite order_opts_pick.
Qed.

Lemma pick_keys d ks : dict_keys (pick d ks) = filter (dict_contains d) ks.
Proof.
    unfold dict_keys, pick, dict_contains.
    induction ks as [|k ks IH]; simpl; auto.
    rewrite map_app, IH. destruct (dict_get d k); reflexivity.
Qed.

Lemma pick_get d ks k :
    dict_get (pick d ks) k = if str_in k ks then dict_get d k else None.
Proof.
    unfold pick.
    induction ks as [|k0 ks IH]; simpl; auto.
    rewrite dict_get_app, IH.
    destruct (String.eqb_spec k0 k) as [->|Hne]; simpl.
    - destruct (dict_get d k) eqn:E; simpl.
      + now rewrite String.eqb_refl.
      + now destruct (str_in k ks).
    - destruct (dict_get d k0); simpl; auto.
      destruct (String.eqb_spec k0 k); [contradiction | reflexivity].
Qed.

Lemma str_in_In x l : str_in x l = true <-> In x l.
Proof.
    unfold str_in. rewrite existsb_exists. split.
    - intros [y [Hy E]]. apply String.eqb_eq in E. now subst.
    - intros H. exists x. split; auto. apply String.eqb_refl.
Qed.

End DictFacts.

(* ===================================================================== *)
(** ** The loader *)
(* ===================================================================== *)

Section LoaderFacts.

Context {P : PyLib}.
Variable fs : string -> file_state.
Variable json_loads : string -> res pydict.

Lemma res_map_total {A B} (f : A -> res B) (g : A -> B) (l : list A) :
  (forall a, f a = Ok (g a)) -> res_map f l = Ok (map g l).
Proof.
  intros Hf. induction l as [|a l IH]; simpl; auto.
  now rewrite Hf, IH.
Qed.

Lemma str_in_app c l1 l2 : str_in c (l1 ++ l2) = str_in c l1 || str_in c l2.
Proof. unfold str_in. apply existsb_app. Qed.

Lemma add_keys_mono ks : forall cols c,
  str_in c cols = true -> str_in c (add_keys cols ks) = true.
Proof.
  induction ks as [|k ks IH]; simpl; intros cols c H; auto.
  apply IH. destruct (str_in k cols); auto.
  rewrite str_in_app, H. reflexivity.
Qed.

Lemma add_keys_adds ks : forall cols c,
  In c ks -> str_in c (add_keys cols ks) = true.
Proof.
  induction ks as [|k ks IH]; simpl; intros cols c H; [contradiction|].
  destruct H as [->|H]; [|now apply IH].
  apply add_keys_mono.
  destruct (str_in c cols) eqn:E; auto.
  rewrite str_in_app, E. simpl. now rewrite String.eqb_refl.
Qed.

Lemma frame_columns_has recs : forall cols rec c,
  In rec recs -> In c (dict_keys rec) ->
  str_in c (fold_left (fun cols r => add_keys cols (dict_keys r)) recs cols)
  = true.
Proof.
  induction recs as [|r recs IH]; simpl; intros cols rec c Hin Hc.
  - contradiction.
  - destruct Hin as [->|Hin]; [|eauto].
    clear IH. generalize (add_keys_adds (dict_keys rec) cols c Hc).
    generalize (add_keys cols (dict_keys rec)). clear.
    induction recs as [|r recs IH]; simpl; auto.
    intros l Hl. apply IH. now apply add_keys_mono.
Qed.

Lemma load_items_lines path ls recs w :
  fs path = Lines ls ->
  res_map json_loads (filter nonblank ls) = Ok recs ->
  load_items fs json_loads path w = (Done (loaded_frame recs), w).
Proof.
  intros Hfs Hrecs. unfold load_items, loaded_frame. rewrite Hfs.
  unfold bind, lift, ret, raise, nonblank in *. rewrite Hrecs.
  cbv beta iota zeta.
  destruct (str_in "options" (columns (pd_DataFrame recs))); [|reflexivity].
  unfold df_apply.
  rewrite (res_map_total _
             (fun r => dict_set r "options"
                         (normalized (row_get r "options" VNaN)))).
  - reflexivity.
  - intros r. now rewrite normalize_options_total.
Qed.

Lemma load_items_absent path w :
  fs path = Absent ->
  load_items fs json_loads path w =
  (Done (pd_empty_frame ITEM_COLUMNS),
   mkWorld (state w)
     (page w ++ [Warning [Lit "Question bank not found at `";
                          Fmt (VStr path);
                          Lit "`. Using empty dataset."]])).
Proof.
  intros Hfs. unfold load_items. now rewrite Hfs.
Qed.

(** Row [i] of the frame holds, for every column, cell [i] of the column. *)
Lemma pd_DataFrame_row recs i :
  (i < List.length recs)%nat ->
  nth_error (rows (pd_DataFrame recs)) i
  = Some (map (fun c =>
                 (c, nth i (column_cells (map (fun r => dict_get r c) recs))
                       VNaN))
            (columns (pd_DataFrame recs))).
Proof.
  intros Hi. simpl rows. simpl columns.
  rewrite nth_error_map.
  rewrite (@nth_error_nth' _ (seq 0 (List.length recs)) i O)
    by now rewrite length_seq.
  now rewrite seq_nth.
Qed.

Lemma pd_DataFrame_length recs :
  List.length (rows (pd_DataFrame recs)) = List.length recs.
Proof. simpl. now rewrite length_map, length_seq. Qed.

(** The [options] cell of the [i]-th loaded row is the normalized [options]
    dict of the [i]-th record. *)
Lemma loaded_frame_options (L : FrameLaws P) recs i rec d :
  nth_error recs i = Some rec ->
  dict_get rec "options" = Some (VDict d) ->
  exists row,
    nth_error (rows (loaded_frame recs)) i = Some row /\
    dict_get row "options" = Some (normalized (VDict d)).
Proof.
  intros Hi Hv. unfold loaded_frame.
  assert (Hcol : str_in "options" (columns (pd_DataFrame recs)) = true).
  { simpl. apply frame_columns_has with (rec := rec).
    - eapply nth_error_In; eauto.
    - apply dict_contains_keys. unfold dict_contains. now rewrite Hv. }
  assert (Hlt : (i < List.length recs)%nat).
  { apply nth_error_Some. congruence. }
  rewrite Hcol. cbn [rows].
  erewrite map_nth_error by (apply pd_DataFrame_row; exact Hlt).
  eexists; split; [reflexivity|].
  rewrite dict_get_set_same. f_equal. f_equal.
  unfold row_get. rewrite dict_get_map_cells, Hcol.
  apply nth_error_nth. apply (@column_cells_dict P L).
  rewrite nth_error_map, Hi. simpl. now rewrite Hv.
Qed.

End LoaderFacts.

(** C2.  Every loaded record whose [options] is a mapping gets, in the
    loaded bank, an [options] mapping whose keys come in the fixed order
    A, B, C, D, E with the absent letters skipped, whatever the order of the
    keys in the record; raw keys B, A, D come out as A, B, D. *)
Theorem load_items_orders_options {P : PyLib} (L : FrameLaws P)
    (fs : string -> file_state) (json_loads : string -> res pydict)
    (path : string) (ls : list string) (recs : list pydict) :
  fs path = Lines ls ->
  res_map json_loads (filter nonblank ls) = Ok recs ->
  exists df,
    (forall w, load_items fs json_loads path w = (Done df, w)) /\
    (forall i rec raw,
        nth_error recs i = Some rec ->
        dict_get rec "options" = Some (VDict raw) ->
        exists row d,
          nth_error (rows df) i = Some row /\
          dict_get row "options" = Some (VDict d) /\
          order_opts raw = Ok d /\
          dict_keys d = filter (dict_contains raw) keys) /\
    (forall vb va vd,
        order_opts [("B", vb); ("A", va); ("D", vd)]
        = Ok [("A", va); ("B", vb); ("D", vd)]).
Proof.
  intros Hfs Hrecs. exists (loaded_frame recs). split; [|split].
  - intros w. now apply load_items_lines with (ls := ls).
  - intros i rec raw Hi Hraw.
    destruct (loaded_frame_options L recs i Hi Hraw) as [row [Hrow Hget]].
    exists row, (pick raw keys). repeat split; auto.
    + apply order_opts_pick.
    + apply pick_keys.
  - intros. reflexivity.
Qed.

Lemma load_items_orders_options_witness :
  exists df,
    (forall w, load_items (P := ascii_py) demo_fs demo_loads ITEMS_PATH w
               = (Done df, w)) /\
    exists row,
      nth_error (rows df) 1 = Some row /\
      row_get row "options" VNaN
      = VDict [("A", VStr "a"); ("B", VStr "b"); ("D", VStr "d")].
Proof.
  destruct (@load_items_orders_options ascii_py ascii_frame_laws
              demo_fs demo_loads ITEMS_PATH
              ["item 1"; "item 2"; "   "; "item 3"; "item 4"; "item 5"]
              (map (fun l => match demo_loads l with Ok r => r | Err _ => [] end)
                 ["item 1"; "item 2"; "item 3"; "item 4"; "item 5"])
              eq_refl eq_refl) as [df [Hload _]].
  exists df. split; [exact Hload|].
  specialize (Hload (mkWorld fresh [])).
  vm_compute in Hload. inversion Hload; subst.
  eexists. split; reflexivity.
Defined.

(** C10.  Normalization neither alters option text nor invents keys: the
    normalized mapping of a dict [d] has exactly the keys of [d] among
    A, B, C, D, E, each with the value it has in [d], so every other key is
    dropped; a value that is not a dict is passed through unchanged. *)
Theorem order_opts_keeps_values :
  (forall d : pydict,
      exists d',
        order_opts d = Ok d' /\
        normalize_options (VDict d) = Ok (VDict d') /\
        (forall k, In k (dict_keys d') <-> In k (dict_keys d) /\ In k keys) /\
        (forall k, In k keys -> dict_get d' k = dict_get d k) /\
        (forall k, ~ In k keys -> dict_get d' k = None)) /\
  (forall v : pyval, is_dict v = false -> normalize_options v = Ok v).
Proof.
  split.
  - intros d. exists (pick d keys).
    split; [apply order_opts_pick|].
    split; [apply (normalize_options_total (VDict d))|].
    split; [|split].
    + intros k. rewrite pick_keys, filter_In, dict_contains_keys. tauto.
    + intros k Hk. rewrite pick_get.
      apply str_in_In in Hk. now rewrite Hk.
    + intros k Hk. rewrite pick_get.
      destruct (str_in k keys) eqn:E; auto.
      apply str_in_In in E. contradiction.
  - intros v Hv. destruct v; simpl in *; auto; discriminate.
Qed.

(* ===================================================================== *)
(** ** What a script leaves of the session *)
(* ===================================================================== *)

Create HintDb frame.

Section Frames.

Context {A B : Type}.

Lemma keeps_ret (a : A) : keeps_state (ret a).
Proof. intros w. reflexivity. Qed.

Lemma keeps_raise (e : exn) : keeps_state (@raise A e).
Proof. intros w. reflexivity. Qed.

Lemma keeps_lift (r : res A) : keeps_state (lift r).
Proof. destruct r; intros w; reflexivity. Qed.

Lemma keeps_bind (c : script A) (k : A -> script B) :
  keeps_state c -> (forall a, keeps_state (k a)) -> keeps_state (bind c k).
Proof.
  intros Hc Hk w. unfold bind. specialize (Hc w).
  destruct (c w) as [[a|e|] w']; simpl in *; auto.
  now rewrite Hk.
Qed.

Lemma keeps_preserves (I : session -> Prop) (c : script A) :
  keeps_state c -> preserves I c.
Proof. intros Hc w Hw. now rewrite Hc. Qed.

Lemma preserves_bind (I : session -> Prop) (c : script A) (k : A -> script B) :
  preserves I c -> (forall a, preserves I (k a)) -> preserves I (bind c k).
Proof.
  intros Hc Hk w Hw. unfold bind. specialize (Hc w Hw).
  destruct (c w) as [[a|e|] w']; simpl in *; auto.
  now apply Hk.
Qed.

End Frames.

Lemma keeps_show (u : ui) : keeps_state (show u).
Proof. intros w. reflexivity. Qed.

Lemma keeps_get_state : keeps_state get_state.
Proof. intros w. reflexivity. Qed.

Lemma keeps_rerun : keeps_state st_rerun.
Proof. intros w. reflexivity. Qed.

Lemma keeps_shows {X} (f : X -> ui) (l : list X) :
  keeps_state (fold_right (fun x k => show (f x) ;; k) (ret tt) l).
Proof.
  induction l as [|x l IH]; simpl.
  - apply keeps_ret.
  - apply keeps_bind; auto using keeps_show.
Qed.

#[local] Hint Resolve keeps_ret keeps_raise keeps_lift keeps_show
  keeps_get_state keeps_rerun keeps_shows : frame.

(** Splits a script along its binds and branches. *)
Ltac frame :=
  repeat first
    [ progress auto with frame
    | apply keeps_bind; [|intro]
    | match goal with
      | |- keeps_state (if ?b then _ else _) => destruct b
      | |- keeps_state (match ?x with _ => _ end) => destruct x
      end ].

Lemma keeps_feedback (row : pydict) (case_id : pyval) :
  keeps_state (feedback row case_id).
Proof. unfold feedback. frame. Qed.

Lemma preserves_set_quiz_index (I : session -> Prop) (i : Z) :
  (forall s, I s -> I (mkSession (auth_user s) i (quiz_score s) (responses s))) ->
  preserves I (set_quiz_index i).
Proof. intros H w Hw. simpl. auto. Qed.

Lemma preserves_set_quiz_score (I : session -> Prop) (n : Z) :
  (forall s, I s -> I (mkSession (auth_user s) (quiz_index s) n (responses s))) ->
  preserves I (set_quiz_score n).
Proof. intros H w Hw. simpl. auto. Qed.

Lemma preserves_set_responses (I : session -> Prop) r :
  (forall s, I s -> I (mkSession (auth_user s) (quiz_index s) (quiz_score s) r)) ->
  preserves I (set_responses r).
Proof. intros H w Hw. simpl. auto. Qed.

Lemma preserves_set_auth_user (I : session -> Prop) u :
  (forall s, I s -> I (mkSession u (quiz_index s) (quiz_score s) (responses s))) ->
  preserves I (set_auth_user u).
Proof. intros H w Hw. simpl. auto. Qed.

(** The same splitting for an invariant: what is left are the writes. *)
Ltac invariant :=
  repeat first
    [ apply keeps_preserves; solve [auto with frame | apply keeps_feedback]
    | match goal with
      | |- preserves _ (set_quiz_index _) => apply preserves_set_quiz_index
      | |- preserves _ (set_quiz_score _) => apply preserves_set_quiz_score
      | |- preserves _ (set_responses _) => apply preserves_set_responses
      | |- preserves _ (set_auth_user _) => apply preserves_set_auth_user
      | |- preserves _ (if ?b then _ else _) => destruct b
      | |- preserves _ (match ?x with _ => _ end) => destruct x
      end
    | apply preserves_bind; [|intro] ].

(* ===================================================================== *)
(** ** The player: invariants that need no assumption on the bank *)
(* ===================================================================== *)

(** A run of the player is a run of [show_item] on the view, entered with
    the cursor put back in range, or it never gets to an item. *)
Lemma mcq_player_cases (df : DataFrame) (w : widgets) (s : session)
    (pg : list ui) :
  (exists f pg', mcq_player df w (mkWorld s pg) = (f, mkWorld s pg')) \/
  exists view pg',
    filter_view df (dom_choice w) (sub_choice w) = Ok view /\
    df_empty df = false /\
    (df_len view = 0 /\
     mcq_player df w (mkWorld s pg) = (Done tt, mkWorld (enter_view 0 s) pg')
     \/
     df_len view <> 0 /\
     mcq_player df w (mkWorld s pg) =
     show_item view (clamp_cursor (df_len view) (quiz_index s)) w
       (mkWorld (enter_view (df_len view) s) pg')).
Proof.
  unfold mcq_player.
  cbv [bind show ret lift raise get_state set_quiz_index put_state].
  destruct (df_empty df) eqn:Hemp; [left; eauto|].
  destruct (res_bind (df_col df "domain") sorted_unique); [|left; eauto].
  destruct (res_bind (df_col df "sub_specialty") sorted_unique);
    [|left; eauto].
  destruct (filter_view df (dom_choice w) (sub_choice w)) as [view|] eqn:Hv;
    [|left; eauto].
  right. exists view. unfold enter_view, clamp_cursor.
  cbv [state page].
  destruct (quiz_index s >=? df_len view) eqn:Hge;
    (eexists; split; [reflexivity|]; split; [reflexivity|]);
    (destruct (df_len view =? 0) eqn:Hz;
     [ left; apply Z.eqb_eq in Hz; split; [assumption|];
       rewrite Hz in Hge; rewrite Hge; reflexivity
     | right; apply Z.eqb_neq in Hz; split; [assumption|reflexivity] ]).
Qed.

Lemma df_len_nonneg (df : DataFrame) : 0 <= df_len df.
Proof. unfold df_len. lia. Qed.

Lemma show_item_cursor_nonneg (view : DataFrame) (idx : Z) (w : widgets) :
  0 <= idx -> 1 <= df_len view ->
  preserves (fun s => 0 <= quiz_index s) (show_item view idx w).
Proof.
  intros Hidx Hlen. unfold show_item.
  invariant; simpl; intros; lia.
Qed.

Lemma mcq_player_cursor_nonneg (df : DataFrame) (w : widgets) :
  preserves (fun s => 0 <= quiz_index s) (mcq_player df w).
Proof.
  intros [s pg] Hs. simpl in Hs.
  destruct (mcq_player_cases df w s pg)
    as [[f [pg' ->]]|[view [pg' [_ [_ [[_ ->]|[Hlen ->]]]]]]]; auto.
  - unfold enter_view. destruct (quiz_index s >=? 0); simpl; lia.
  - pose proof (df_len_nonneg view).
    apply show_item_cursor_nonneg.
    + unfold clamp_cursor. destruct (quiz_index s >=? df_len view); lia.
    + lia.
    + simpl. unfold enter_view.
      destruct (quiz_index s >=? df_len view); simpl; lia.
Qed.

Lemma sign_out_state (r : res unit) (s : session) :
  session_after (sign_out r) s = mkSession None 0 0 [].
Proof. unfold session_after, sign_out. destruct r; reflexivity. Qed.

(** In every session a user can be in, the cursor is not negative. *)
Lemma reachable_cursor_nonneg (s : session) :
  reachable s -> 0 <= quiz_index s.
Proof.
  induction 1 as [|df w s _ IH|u s _ IH|r s _ IH]; simpl; try lia.
  - apply (mcq_player_cursor_nonneg df w (mkWorld s [])). exact IH.
  - rewrite sign_out_state. simpl. lia.
Qed.

(** Whatever the bank, a run in which Submit is not the button clicked
    leaves the responses, the score and the signed-in user alone. *)
Lemma show_item_navigation_frame (view : DataFrame) (idx : Z) (w : widgets)
    (s0 : session) :
  is_clicked Submit w = false ->
  preserves (fun s => auth_user s = auth_user s0 /\
                      quiz_score s = quiz_score s0 /\
                      responses s = responses s0)
    (show_item view idx w).
Proof.
  intros Hc. unfold show_item. rewrite Hc.
  invariant; simpl; auto.
Qed.

Lemma mcq_player_navigation_frame (df : DataFrame) (w : widgets)
    (s : session) (pg : list ui) :
  is_clicked Submit w = false ->
  let s' := state (snd (mcq_player df w (mkWorld s pg))) in
  auth_user s' = auth_user s /\
  quiz_score s' = quiz_score s /\
  responses s' = responses s.
Proof.
  intros Hc.
  destruct (mcq_player_cases df w s pg)
    as [[f [pg' E]]|[view [pg' [_ [_ [[_ E]|[Hlen E]]]]]]]; simpl; rewrite E;
    auto.
  - simpl. unfold enter_view. destruct (quiz_index s >=? 0); simpl; auto.
  - apply (show_item_navigation_frame view _ w s Hc).
    simpl. unfold enter_view.
    destruct (quiz_index s >=? df_len view); simpl; auto.
Qed.

(* ===================================================================== *)
(** ** The player on a well-formed bank *)
(* ===================================================================== *)

Section WellFormedBank.

Let is_string (v : pyval) : Prop := exists s, v = VStr s.

Lemma insert_sorted_strings (x : pyval) (l : list pyval) :
  is_string x -> Forall is_string l ->
  exists r, insert_sorted x l = Ok r /\ Forall is_string r.
Proof.
  intros [s ->] Hl. induction Hl as [|y l [t ->] Hl IH]; simpl.
  - eexists; split; [reflexivity|]. repeat constructor. now exists s.
  - destruct (String.leb s t).
    + eexists; split; [reflexivity|].
      repeat constructor; auto; eexists; reflexivity.
    + destruct IH as [r [-> Hr]]. simpl.
      eexists; split; [reflexivity|]. constructor; auto. now exists t.
Qed.

Lemma py_sorted_strings (l : list pyval) :
  Forall is_string l -> exists r, py_sorted l = Ok r /\ Forall is_string r.
Proof.
  induction 1 as [|x l Hx Hl [r [IH Hr]]]; simpl.
  - eexists; split; [reflexivity|constructor].
  - rewrite IH. simpl. now apply insert_sorted_strings.
Qed.

Lemma unique_strings (l : list pyval) : forall seen,
  Forall is_string seen -> Forall is_string l ->
  exists r, unique seen l = Ok r /\ Forall is_string r.
Proof.
  induction l as [|x l IH]; simpl; intros seen Hseen Hl.
  - eauto.
  - inversion Hl as [|? ? [s ->] Hl']; subst. simpl.
    apply IH; auto.
    destruct (existsb (key_eqb (VStr s)) seen); auto.
    apply Forall_app. split; auto. repeat constructor. now exists s.
Qed.

Lemma sorted_unique_ok (cells : list pyval) :
  forallb taxonomy_ok cells = true -> exists l, sorted_unique cells = Ok l.
Proof.
  intros H. unfold sorted_unique.
  destruct (unique_strings (l := filter (fun v => negb (is_null v)) cells)
              (seen := []))
    as [r [-> Hr]].
  - constructor.
  - apply Forall_forall. intros v Hv. apply filter_In in Hv as [Hin Hnn].
    rewrite forallb_forall in H. specialize (H v Hin).
    destruct v; simpl in *; try discriminate. now exists s.
  - simpl. destruct (py_sorted_strings Hr) as [r' [-> _]]. eauto.
Qed.

Lemma column_ok (df : DataFrame) (col : string) :
  str_in col (columns df) = true ->
  forallb (fun r => taxonomy_ok (row_get r col VNaN)) (rows df) = true ->
  exists l, res_bind (df_col df col) sorted_unique = Ok l.
Proof.
  intros Hcol Hcells. unfold df_col. rewrite Hcol. simpl.
  apply sorted_unique_ok. rewrite forallb_forall in *.
  intros v Hv. apply in_map_iff in Hv as [r [<- Hr]]. auto.
Qed.

End WellFormedBank.

Lemma filter_filter_and {X} (f g : X -> bool) (l : list X) :
  filter g (filter f l) = filter (fun x => f x && g x) l.
Proof.
  induction l as [|x l IH]; simpl; auto.
  destruct (f x); simpl; [destruct (g x)|]; now rewrite IH.
Qed.

Lemma filter_all {X} (l : list X) : filter (fun _ => true) l = l.
Proof. induction l as [|x l IH]; simpl; congruence. Qed.

(** The view the code computes is the view of the specification. *)
Lemma filter_view_spec (df : DataFrame) (dom sub : string) :
  str_in "domain" (columns df) = true ->
  str_in "sub_specialty" (columns df) = true ->
  filter_view df dom sub
  = Ok (mkFrame (columns df) (view_by_spec (rows df) dom sub)).
Proof.
  intros Hd Hs. unfold filter_view, view_by_spec, selects, df_where.
  destruct (dom =? "All")%string; destruct (sub =? "All")%string; simpl;
    rewrite ?Hd, ?Hs; simpl; rewrite ?Hs.
  - rewrite filter_all. now destruct df.
  - reflexivity.
  - do 2 f_equal. apply filter_ext. intros r. now rewrite andb_true_r.
  - do 2 f_equal. apply filter_filter_and.
Qed.

Lemma key_to_label_dict (d : pydict) :
  dict_comp keys (py_contains (VDict d)) (py_getitem (VDict d)) []
  = Ok (pick d keys).
Proof. exact (order_opts_pick d). Qed.

Lemma df_iloc_nth (df : DataFrame) (idx : Z) :
  0 <= idx < df_len df ->
  exists row, nth_error (rows df) (Z.to_nat idx) = Some row /\
              df_iloc df idx = Ok row.
Proof.
  intros H. unfold df_iloc.
  destruct (Z.ltb_spec idx 0); [lia|].
  destruct (Z.leb_spec 0 idx); [|lia].
  destruct (Z.ltb_spec idx (df_len df)); [|lia]. simpl.
  destruct (nth_error (rows df) (Z.to_nat idx)) as [row|] eqn:E; eauto.
  apply nth_error_None in E. unfold df_len in H. lia.
Qed.

(** One run of [show_item] on an item of the expected shape: the session it
    leaves is [after_click], and Previous and Next end in a rerun. *)
Lemma show_item_run (view : DataFrame) (idx : Z) (w : widgets) (row : pydict)
    (s : session) (pg : list ui) :
  df_iloc view idx = Ok row ->
  item_ok row = true ->
  state (snd (show_item view idx w (mkWorld s pg)))
  = after_click (df_len view) idx row w s /\
  (is_clicked Previous w || is_clicked Next w = true ->
   fst (show_item view idx w (mkWorld s pg)) = Rerun).
Proof.
  intros Hrow Hok. unfold item_ok in Hok.
  apply andb_true_iff in Hok as [Hok Hdict].
  apply andb_true_iff in Hok as [_ Hhash].
  destruct (row_get row "options" (VDict [])) as [| | | | | |d] eqn:Hopt;
    try discriminate.
  destruct w as [dom sub ch [[| |]|]];
    unfold show_item, resp_get, resp_set, after_click;
    cbv [bind show ret lift raise get_state set_quiz_index set_quiz_score
         set_responses put_state st_rerun];
    rewrite Hrow; cbv beta iota zeta; rewrite Hopt, key_to_label_dict, Hhash;
    cbn [state page fst snd is_clicked clicked choice];
    try (destruct (choice_eq ch (row_get row "correct_answer" VNone));
         cbn [state page fst snd]);
    try (split; [reflexivity | intros; reflexivity]);
    match goal with
    | |- context [feedback ?r ?c ?W] =>
        pose proof (keeps_feedback r c W) as HF;
        destruct (feedback r c W) as [[[]|e|] W']
    end; cbn [state page fst snd] in *; rewrite HF;
    (split; [reflexivity | intros; discriminate]).
Qed.

Lemma bank_ok_parts (df : DataFrame) :
  bank_ok df = true ->
  str_in "domain" (columns df) = true /\
  str_in "sub_specialty" (columns df) = true /\
  (forall r, In r (rows df) -> item_ok r = true).
Proof.
  unfold bank_ok. intros H.
  apply andb_true_iff in H as [H Hrows].
  apply andb_true_iff in H as [Hd Hs].
  rewrite forallb_forall in Hrows. auto.
Qed.

Lemma bank_ok_columns (df : DataFrame) :
  bank_ok df = true ->
  (exists l, res_bind (df_col df "domain") sorted_unique = Ok l) /\
  (exists l, res_bind (df_col df "sub_specialty") sorted_unique = Ok l).
Proof.
  intros H. destruct (bank_ok_parts df H) as [Hd [Hs Hrows]].
  split; apply column_ok; auto; apply forallb_forall; intros r Hr;
    specialize (Hrows r Hr); unfold item_ok in Hrows;
    repeat (apply andb_true_iff in Hrows as [Hrows ?]); auto.
Qed.

Lemma view_by_spec_incl (bank : list pydict) (dom sub : string) (r : pydict) :
  In r (view_by_spec bank dom sub) -> In r bank.
Proof. unfold view_by_spec. intros H. now apply filter_In in H. Qed.

(** One run of the player on a well-formed, non-empty bank, from a session
    whose cursor is not negative. *)
Lemma mcq_player_run (df : DataFrame) (w : widgets) (s : session)
    (pg : list ui) :
  bank_ok df = true ->
  rows df <> [] ->
  0 <= quiz_index s ->
  let view := view_by_spec (rows df) (dom_choice w) (sub_choice w) in
  let n := Z.of_nat (List.length view) in
  let idx := clamp_cursor n (quiz_index s) in
  let r := mcq_player df w (mkWorld s pg) in
  state (snd r) =
    match nth_error view (Z.to_nat idx) with
    | Some row => after_click n idx row w (enter_view n s)
    | None => enter_view n s
    end /\
  (view <> [] ->
   is_clicked Previous w || is_clicked Next w = true -> fst r = Rerun).
Proof.
  intros Hok Hrows Hs view n idx r.
  destruct (bank_ok_parts df Hok) as [Hd [Hsub Hitems]].
  destruct (bank_ok_columns df Hok) as [[l1 H1] [l2 H2]].
  assert (Hemp : df_empty df = false).
  { unfold df_empty. destruct (columns df); [discriminate|].
    destruct (rows df); congruence. }
  subst r. unfold mcq_player.
  cbv [bind show ret lift raise get_state set_quiz_index put_state].
  rewrite Hemp, H1, H2, filter_view_spec by assumption.
  fold view. change (df_len (mkFrame (columns df) view)) with n.
  cbn [state page fst snd].
  assert (Hidx : idx = if quiz_index s >=? n then 0 else quiz_index s)
    by reflexivity.
  assert (Hent : enter_view n s =
                 if quiz_index s >=? n
                 then mkSession (auth_user s) 0 (quiz_score s) (responses s)
                 else s) by reflexivity.
  destruct (Z.eqb_spec n 0) as [Hn|Hn].
  - assert (Hv : view = []) by (destruct view; [reflexivity|discriminate]).
    rewrite Hv. split; [|congruence].
    destruct (Z.to_nat idx); simpl nth_error; rewrite Hent;
      destruct (quiz_index s >=? n); reflexivity.
  - assert (Hrange : 0 <= idx < df_len (mkFrame (columns df) view)).
    { change (df_len (mkFrame (columns df) view)) with n.
      rewrite Hidx. destruct (Z.geb_spec (quiz_index s) n); lia. }
    destruct (df_iloc_nth (mkFrame (columns df) view) Hrange)
      as [row [Hnth Hrow]].
    simpl rows in Hnth. rewrite Hnth.
    assert (Hitem : item_ok row = true).
    { apply Hitems. apply view_by_spec_incl with (dom := dom_choice w)
                                                 (sub := sub_choice w).
      eapply nth_error_In; eauto. }
    rewrite Hent. rewrite Hidx in Hrow. rewrite Hidx. revert Hrow.
    change n with (df_len (mkFrame (columns df) view)).
    destruct (quiz_index s >=? df_len (mkFrame (columns df) view));
      intros Hrow; cbn [state page fst snd];
      match goal with
      | |- context [show_item ?v ?i ?w ?W] =>
          destruct (@show_item_run v i w row (state W) (page W) Hrow Hitem)
            as [E1 E2]
      end; cbn [state page] in *; rewrite E1; split; auto.
Qed.

(* --------------------------------------------------------------------- *)
(** *** What the run shows *)

Section Pages.

Context {A B : Type}.

Lemma extends_ret (a : A) : extends_page (ret a).
Proof. intros w. exists []. simpl. now rewrite app_nil_r. Qed.

Lemma extends_raise (e : exn) : extends_page (@raise A e).
Proof. intros w. exists []. simpl. now rewrite app_nil_r. Qed.

Lemma extends_lift (r : res A) : extends_page (lift r).
Proof. destruct r; [apply extends_ret | apply extends_raise]. Qed.

Lemma extends_bind (c : script A) (k : A -> script B) :
  extends_page c -> (forall a, extends_page (k a)) -> extends_page (bind c k).
Proof.
  intros Hc Hk w. unfold bind. destruct (Hc w) as [l1 E1].
  destruct (c w) as [[a|e|] w']; simpl in *; eauto.
  destruct (Hk a w') as [l2 E2]. exists (l1 ++ l2).
  now rewrite E2, E1, app_assoc.
Qed.

End Pages.

Lemma extends_show (u : ui) : extends_page (show u).
Proof. intros w. now exists [u]. Qed.

Lemma extends_get_state : extends_page get_state.
Proof. intros w. exists []. simpl. now rewrite app_nil_r. Qed.

Lemma extends_put_state (s : session) : extends_page (put_state s).
Proof. intros w. exists []. simpl. now rewrite app_nil_r. Qed.

Lemma extends_rerun : extends_page st_rerun.
Proof. intros w. exists []. simpl. now rewrite app_nil_r. Qed.

Lemma extends_shows {X} (f : X -> ui) (l : list X) :
  extends_page (fold_right (fun x k => show (f x) ;; k) (ret tt) l).
Proof.
  induction l as [|x l IH]; simpl.
  - apply extends_ret.
  - apply extends_bind; auto using extends_show.
Qed.

#[local] Hint Resolve extends_ret extends_raise extends_lift extends_show
  extends_get_state extends_put_state extends_rerun extends_shows : frame.

Ltac pages :=
  repeat first
    [ progress auto with frame
    | apply extends_bind; [|intro]
    | match goal with
      | |- extends_page (if ?b then _ else _) => destruct b
      | |- extends_page (match ?x with _ => _ end) => destruct x
      end ].

Lemma extends_after_show {A} (u : ui) (k : script A) :
  extends_page k ->
  forall w, exists rest, page (snd ((show u ;; k) w)) = page w ++ u :: rest.
Proof.
  intros Hk w. unfold bind, show. cbv beta iota.
  destruct (Hk (mkWorld (state w) (page w ++ [u]))) as [l E].
  exists l. rewrite E. simpl. now rewrite <- app_assoc.
Qed.

(** The page of a run of [show_item] starts with the question line of the
    row it read. *)
Lemma show_item_page (view : DataFrame) (idx : Z) (w : widgets) (row : pydict)
    (s : session) (pg : list ui) :
  df_iloc view idx = Ok row ->
  exists rest,
    page (snd (show_item view idx w (mkWorld s pg)))
    = pg ++ question_line (df_len view) idx row :: rest.
Proof.
  intros Hrow. unfold show_item, question_line. rewrite Hrow.
  unfold bind at 1. unfold lift, ret. cbv beta iota zeta.
  match goal with
  | |- context [bind (show ?u) (fun _ => ?k) _] =>
      assert (Hk : extends_page k);
      [| exact (@extends_after_show _ u k Hk (mkWorld s pg)) ]
  end.
  unfold feedback, set_quiz_index, set_quiz_score, set_responses. pages.
Qed.

(** On a well-formed, non-empty bank the player always gets to the view:
    it shows the item count, puts the cursor back in range, and reads the
    item there if there is one. *)
Lemma mcq_player_enters (df : DataFrame) (w : widgets) (s : session)
    (pg : list ui) :
  bank_ok df = true ->
  rows df <> [] ->
  let view := view_by_spec (rows df) (dom_choice w) (sub_choice w) in
  let n := Z.of_nat (List.length view) in
  mcq_player df w (mkWorld s pg) =
  if n =? 0
  then (Done tt, mkWorld (enter_view n s) (pg ++ page_head n))
  else show_item (mkFrame (columns df) view)
         (clamp_cursor n (quiz_index s)) w
         (mkWorld (enter_view n s) (pg ++ page_head n)).
Proof.
  intros Hok Hrows view n.
  destruct (bank_ok_parts df Hok) as [Hd [Hsub Hitems]].
  destruct (bank_ok_columns df Hok) as [[l1 H1] [l2 H2]].
  assert (Hemp : df_empty df = false).
  { unfold df_empty. destruct (columns df); [discriminate|].
    destruct (rows df); congruence. }
  unfold mcq_player.
  cbv [bind show ret lift raise get_state set_quiz_index put_state].
  rewrite Hemp, H1, H2, filter_view_spec by assumption.
  fold view. change (df_len (mkFrame (columns df) view)) with n.
  cbn [state page fst snd].
  unfold enter_view, clamp_cursor, page_head.
  destruct (quiz_index s >=? n); destruct (n =? 0);
    cbn [state page fst snd]; rewrite <- app_assoc; reflexivity.
Qed.

Lemma mcq_player_page (df : DataFrame) (w : widgets) (s : session)
    (pg : list ui) :
  bank_ok df = true ->
  rows df <> [] ->
  0 <= quiz_index s ->
  let view := view_by_spec (rows df) (dom_choice w) (sub_choice w) in
  let n := Z.of_nat (List.length view) in
  let idx := clamp_cursor n (quiz_index s) in
  exists rest,
    page (snd (mcq_player df w (mkWorld s pg))) = pg ++ page_head n ++ rest /\
    match nth_error view (Z.to_nat idx) with
    | Some row => exists rest', rest = question_line n idx row :: rest'
    | None => rest = []
    end.
Proof.
  intros Hok Hrows Hs view n idx.
  rewrite mcq_player_enters by assumption. fold view. fold n.
  destruct (Z.eqb_spec n 0) as [Hn|Hn].
  - exists []. split; [cbn [page snd]; now rewrite app_nil_r|].
    assert (Hv : view = []) by (destruct view; [reflexivity|discriminate]).
    rewrite Hv. now destruct (Z.to_nat idx).
  - assert (Hrange : 0 <= idx < df_len (mkFrame (columns df) view)).
    { change (df_len (mkFrame (columns df) view)) with n.
      unfold idx, clamp_cursor.
      destruct (Z.geb_spec (quiz_index s) n); lia. }
    destruct (df_iloc_nth (mkFrame (columns df) view) Hrange)
      as [row [Hnth Hrow]].
    simpl rows in Hnth. rewrite Hnth.
    destruct (@show_item_page _ _ w _ (enter_view n s) (pg ++ page_head n)
                Hrow)
      as [rest Hrest].
    exists (question_line n idx row :: rest). split; [|eauto].
    fold idx. rewrite Hrest. now rewrite <- app_assoc.
Qed.

(** A click on a well-formed bank, from a cursor inside the view: the
    session it leaves, rerun included. *)
Lemma interact_run (df : DataFrame) (w : widgets) (s : session) :
  bank_ok df = true ->
  let view := view_by_spec (rows df) (dom_choice w) (sub_choice w) in
  let n := Z.of_nat (List.length view) in
  0 <= quiz_index s < n ->
  exists row,
    nth_error view (Z.to_nat (quiz_index s)) = Some row /\
    session_after (mcq_player df w) s = after_click n (quiz_index s) row w s /\
    interact df w s = after_click n (quiz_index s) row w s.
Proof.
  intros Hok view n Hc.
  assert (Hrows : rows df <> []).
  { intros E. subst n view. unfold view_by_spec in Hc. rewrite E in Hc.
    simpl in Hc. lia. }
  assert (Hclamp : forall q, 0 <= q < n -> clamp_cursor n q = q).
  { intros q Hq. unfold clamp_cursor. destruct (Z.geb_spec q n); lia. }
  assert (Henter : forall t, 0 <= quiz_index t < n -> enter_view n t = t).
  { intros t Ht. unfold enter_view.
    destruct (Z.geb_spec (quiz_index t) n); [lia|reflexivity]. }
  destruct (nth_error view (Z.to_nat (quiz_index s))) as [row|] eqn:Hrow.
  2:{ apply nth_error_None in Hrow. lia. }
  exists row. split; [reflexivity|].
  assert (Hs0 : 0 <= quiz_index s) by lia.
  destruct (@mcq_player_run df w s [] Hok Hrows Hs0) as [E1 E2].
  fold view in E1, E2. fold n in E1.
  rewrite Hclamp, Hrow, Henter in E1 by assumption.
  split; [exact E1|].
  unfold interact.
  destruct (mcq_player df w (mkWorld s [])) as [[[]|e|] w1] eqn:Hrun;
    simpl in E1; try exact E1.
  (* the run that follows a rerun changes nothing *)
  set (w0 := mkWidgets (dom_choice w) (sub_choice w) (choice w) None).
  assert (Hs1 : 0 <= quiz_index (state w1) < n).
  { rewrite E1. unfold after_click.
    destruct (clicked w) as [[| |]|]; simpl; lia. }
  assert (Hs1' : 0 <= quiz_index (state w1)) by lia.
  destruct (@mcq_player_run df w0 (state w1) [] Hok Hrows Hs1') as [F1 _].
  simpl dom_choice in F1. simpl sub_choice in F1.
  fold view in F1. fold n in F1.
  rewrite Hclamp, Henter in F1 by assumption.
  unfold session_after. rewrite F1.
  destruct (nth_error view (Z.to_nat (quiz_index (state w1))));
    rewrite <- E1; reflexivity.
Qed.

Lemma interactions_cons (df : DataFrame) (w : widgets) (ws : list widgets)
    (s : session) :
  interactions df (w :: ws) s = interactions df ws (interact df w s).
Proof. reflexivity. Qed.

Lemma interact_reachable (df : DataFrame) (w : widgets) (s : session) :
  reachable s -> reachable (interact df w s).
Proof.
  intros Hs. unfold interact.
  pose proof (reach_run df w Hs) as H1. unfold session_after in H1.
  destruct (mcq_player df w (mkWorld s [])) as [[[]|e|] w1]; simpl in H1;
    auto.
  now apply reach_run.
Qed.

Lemma interactions_reachable (df : DataFrame) (ws : list widgets) :
  forall s, reachable s -> reachable (interactions df ws s).
Proof.
  induction ws as [|w ws IH]; intros s Hs; [exact Hs|].
  rewrite interactions_cons. apply IH. now apply interact_reachable.
Qed.

(* ===================================================================== *)
(** ** Navigation *)
(* ===================================================================== *)

Section Navigation.

Variable df : DataFrame.
Variables dom sub : string.
Hypothesis Hok : bank_ok df = true.

Let view := view_by_spec (rows df) dom sub.
Let N := Z.of_nat (List.length view).

Lemma click_next (ch : option string) (s : session) :
  0 <= quiz_index s < N ->
  let w := mkWidgets dom sub ch (Some Next) in
  session_after (mcq_player df w) s = interact df w s /\
  interact df w s =
  mkSession (auth_user s) (Z.min (N - 1) (quiz_index s + 1)) (quiz_score s)
    (responses s).
Proof.
  intros Hc w.
  destruct (@interact_run df w s Hok Hc) as [row [_ [E1 E2]]].
  rewrite E1, E2. split; reflexivity.
Qed.

Lemma click_previous (ch : option string) (s : session) :
  0 <= quiz_index s < N ->
  let w := mkWidgets dom sub ch (Some Previous) in
  session_after (mcq_player df w) s = interact df w s /\
  interact df w s =
  mkSession (auth_user s) (Z.max 0 (quiz_index s - 1)) (quiz_score s)
    (responses s).
Proof.
  intros Hc w.
  destruct (@interact_run df w s Hok Hc) as [row [_ [E1 E2]]].
  rewrite E1, E2. split; reflexivity.
Qed.

Lemma repeat_next (ch : option string) (k : nat) : forall s,
  0 <= quiz_index s < N ->
  quiz_index (interactions df (repeat (mkWidgets dom sub ch (Some Next)) k) s)
  = Z.min (N - 1) (quiz_index s + Z.of_nat k).
Proof.
  induction k as [|k IH]; intros s Hc.
  - simpl. lia.
  - cbn [repeat]. rewrite interactions_cons.
    destruct (click_next ch s Hc) as [_ E]. rewrite E.
    rewrite IH by (simpl; lia). simpl. lia.
Qed.

Lemma repeat_previous (ch : option string) (k : nat) : forall s,
  0 <= quiz_index s < N ->
  quiz_index
    (interactions df (repeat (mkWidgets dom sub ch (Some Previous)) k) s)
  = Z.max 0 (quiz_index s - Z.of_nat k).
Proof.
  induction k as [|k IH]; intros s Hc.
  - simpl. lia.
  - cbn [repeat]. rewrite interactions_cons.
    destruct (click_previous ch s Hc) as [_ E]. rewrite E.
    rewrite IH by (simpl; lia). simpl. lia.
Qed.

End Navigation.

(** C3.  On a non-empty view of length [N], from a cursor in [0, N): a click
    on Next sets the cursor to [min (N - 1) (cursor + 1)] and a click on
    Previous to [max 0 (cursor - 1)]; so [k] clicks on Next lead to
    [min (N - 1) (cursor + k)], which is [N - 1] once the end is reached, and
    [k] clicks on Previous to [max 0 (cursor - k)], which is 0 once the start
    is reached. *)
Theorem next_previous_clamp (df : DataFrame) (dom sub : string)
    (ch : option string) (s : session) :
  bank_ok df = true ->
  let N := Z.of_nat (List.length (view_by_spec (rows df) dom sub)) in
  let next := mkWidgets dom sub ch (Some Next) in
  let previous := mkWidgets dom sub ch (Some Previous) in
  0 <= quiz_index s < N ->
  quiz_index (session_after (mcq_player df next) s)
    = Z.min (N - 1) (quiz_index s + 1) /\
  quiz_index (session_after (mcq_player df previous) s)
    = Z.max 0 (quiz_index s - 1) /\
  (forall k, quiz_index (interactions df (repeat next k) s)
             = Z.min (N - 1) (quiz_index s + Z.of_nat k)) /\
  (forall k, quiz_index (interactions df (repeat previous k) s)
             = Z.max 0 (quiz_index s - Z.of_nat k)) /\
  (forall k, N <= Z.of_nat k ->
             quiz_index (interactions df (repeat next k) s) = N - 1 /\
             quiz_index (interactions df (repeat previous k) s) = 0).
Proof.
  intros Hok N next previous Hc. subst next previous.
  destruct (@click_next df dom sub Hok ch s Hc) as [E1 E2].
  destruct (@click_previous df dom sub Hok ch s Hc) as [F1 F2].
  cbv zeta in E1, E2, F1, F2.
  split; [rewrite E1, E2; reflexivity|].
  split; [rewrite F1, F2; reflexivity|].
  split; [intros k; now apply repeat_next|].
  split; [intros k; now apply repeat_previous|].
  intros k Hk.
  rewrite repeat_next, repeat_previous by assumption.
  fold N. lia.
Qed.

Lemma next_previous_clamp_witness :
  let next := mkWidgets "Cardio" "All" None (Some Next) in
  let previous := mkWidgets "Cardio" "All" None (Some Previous) in
  quiz_index (interactions demo_bank (repeat next 5) fresh) = 1 /\
  quiz_index (interactions demo_bank (repeat previous 5) fresh) = 0.
Proof.
  assert (Hc : 0 <= quiz_index fresh
               < Z.of_nat (List.length
                             (view_by_spec (rows demo_bank) "Cardio" "All")))
    by (vm_compute; split; [discriminate | reflexivity]).
  destruct (@next_previous_clamp demo_bank "Cardio" "All" None fresh
              eq_refl Hc) as [_ [_ [_ [_ H]]]].
  apply (H 5%nat). vm_compute. discriminate.
Defined.

(** C9.  On a non-empty view, from a cursor strictly before the last index,
    Next and then Previous bring the cursor back to the same item, and the
    response record and the score are as before; on any bank, a run in which
    Submit is not clicked leaves the response record and the score alone. *)
Theorem next_then_previous_returns (df : DataFrame) (dom sub : string)
    (ch ch' : option string) (s : session) :
  bank_ok df = true ->
  let view := view_by_spec (rows df) dom sub in
  0 <= quiz_index s < Z.of_nat (List.length view) - 1 ->
  let s1 := interact df (mkWidgets dom sub ch (Some Next)) s in
  let s2 := interact df (mkWidgets dom sub ch' (Some Previous)) s1 in
  quiz_index s1 = quiz_index s + 1 /\
  s2 = s /\
  nth_error view (Z.to_nat (quiz_index s2))
    = nth_error view (Z.to_nat (quiz_index s)) /\
  responses s2 = responses s /\
  quiz_score s2 = quiz_score s /\
  (forall (df' : DataFrame) (w : widgets) (s' : session),
      is_clicked Submit w = false ->
      responses (session_after (mcq_player df' w) s') = responses s' /\
      quiz_score (session_after (mcq_player df' w) s') = quiz_score s').
Proof.
  intros Hok view Hc s1 s2.
  assert (Hc0 : 0 <= quiz_index s < Z.of_nat (List.length view)) by lia.
  destruct (@click_next df dom sub Hok ch s Hc0) as [_ E1].
  cbv zeta in E1. fold view in E1. fold s1 in E1.
  assert (Hc1 : 0 <= quiz_index s1 < Z.of_nat (List.length view))
    by (rewrite E1; simpl; lia).
  destruct (@click_previous df dom sub Hok ch' s1 Hc1) as [_ E2].
  cbv zeta in E2. fold view in E2. fold s2 in E2.
  assert (Hs2 : s2 = s).
  { rewrite E2, E1. simpl. destruct s as [u i n r]. simpl in *.
    f_equal. lia. }
  split; [rewrite E1; simpl; lia|].
  split; [exact Hs2|]. rewrite Hs2.
  repeat split; auto.
  - apply (mcq_player_navigation_frame df' w s' []). assumption.
  - apply (mcq_player_navigation_frame df' w s' []). assumption.
Qed.

Lemma next_then_previous_returns_witness :
  interact demo_bank (mkWidgets "Resp" "All" (Some "A") (Some Previous))
    (interact demo_bank (mkWidgets "Resp" "All" (Some "C") (Some Next)) fresh)
  = fresh.
Proof.
  assert (Hc : 0 <= quiz_index fresh
               < Z.of_nat (List.length
                             (view_by_spec (rows demo_bank) "Resp" "All")) - 1)
    by (vm_compute; split; [discriminate | reflexivity]).
  exact (proj1 (proj2 (@next_then_previous_returns demo_bank "Resp" "All"
                         (Some "C") (Some "A") fresh eq_refl Hc))).
Defined.

(* ===================================================================== *)
(** ** Filters *)
(* ===================================================================== *)

Lemma after_click_cursor (n idx : Z) (row : pydict) (w : widgets)
    (s : session) :
  0 <= idx < n -> quiz_index s = idx ->
  0 <= quiz_index (after_click n idx row w s) < n.
Proof.
  intros Hi Hs. unfold after_click.
  destruct (clicked w) as [[| |]|]; simpl; lia.
Qed.

(** C4.  After a change of filter on a non-empty bank, in any session a user
    can be in: the cursor the run works with is 0 when the stored cursor is
    at or past the length of the new view (the empty view included); the
    item the run reads and announces is the one at that cursor, which lies
    in the view; and the cursor the run leaves lies in the view, whenever
    the view is not empty. *)
Theorem filter_change_cursor_in_range (df : DataFrame) (w : widgets)
    (s : session) :
  bank_ok df = true ->
  rows df <> [] ->
  reachable s ->
  let view := view_by_spec (rows df) (dom_choice w) (sub_choice w) in
  let N := Z.of_nat (List.length view) in
  let idx := clamp_cursor N (quiz_index s) in
  let s' := session_after (mcq_player df w) s in
  (N <= quiz_index s -> idx = 0) /\
  (quiz_index s < N -> idx = quiz_index s) /\
  (view <> [] -> 0 <= idx < N) /\
  (exists rest,
      page_after (mcq_player df w) s = page_head N ++ rest /\
      match nth_error view (Z.to_nat idx) with
      | Some row => exists rest', rest = question_line N idx row :: rest'
      | None => view = [] /\ rest = []
      end) /\
  (clicked w = None -> quiz_index s' = idx) /\
  (view <> [] -> 0 <= quiz_index s' < N).
Proof.
  intros Hok Hrows Hreach view N idx s'.
  pose proof (reachable_cursor_nonneg Hreach) as Hs.
  assert (Hge : N <= quiz_index s -> idx = 0).
  { intros H. unfold idx, clamp_cursor.
    destruct (Z.geb_spec (quiz_index s) N); [reflexivity | lia]. }
  assert (Hlt : quiz_index s < N -> idx = quiz_index s).
  { intros H. unfold idx, clamp_cursor.
    destruct (Z.geb_spec (quiz_index s) N); [lia | reflexivity]. }
  assert (Hin : view <> [] -> 0 <= idx < N).
  { intros Hv. assert (0 < N) by (subst N; destruct view; simpl; [congruence | lia]).
    destruct (Z.lt_ge_cases (quiz_index s) N) as [H1|H1].
    - rewrite Hlt; lia.
    - rewrite Hge; lia. }
  assert (Hqi : quiz_index (enter_view N s) = idx).
  { unfold enter_view, idx, clamp_cursor.
    destruct (quiz_index s >=? N); reflexivity. }
  destruct (@mcq_player_run df w s [] Hok Hrows Hs) as [E _].
  fold view in E. fold N in E. fold idx in E.
  split; [exact Hge|]. split; [exact Hlt|]. split; [exact Hin|].
  split; [|split].
  - destruct (@mcq_player_page df w s [] Hok Hrows Hs) as [rest [Hp Hr]].
    fold view in Hr, Hp. fold N in Hr, Hp. fold idx in Hr.
    exists rest. split; [exact Hp|].
    destruct (nth_error view (Z.to_nat idx)) eqn:Hn; [exact Hr|].
    split; [|exact Hr].
    destruct view as [|r v]; [reflexivity|].
    apply nth_error_None in Hn.
    assert (0 <= idx < N) by (apply Hin; discriminate). lia.
  - intros Hnone. unfold s', session_after. rewrite E.
    destruct (nth_error view (Z.to_nat idx)); [|exact Hqi].
    unfold after_click. rewrite Hnone. exact Hqi.
  - intros Hv. unfold s', session_after. rewrite E.
    specialize (Hin Hv).
    destruct (nth_error view (Z.to_nat idx)).
    + now apply after_click_cursor.
    + rewrite Hqi. exact Hin.
Qed.

Lemma filter_change_cursor_in_range_witness :
  let next := mkWidgets "All" "All" None (Some Next) in
  let s := interactions demo_bank [next; next; next] fresh in
  let w := mkWidgets "Cardio" "All" None None in
  quiz_index s = 3 /\
  Z.of_nat (List.length (view_by_spec (rows demo_bank) "Cardio" "All")) = 2 /\
  quiz_index (session_after (mcq_player demo_bank w) s) = 0.
Proof.
  intros next s w.
  assert (Hreach : reachable s)
    by (apply interactions_reachable; apply reach_fresh).
  assert (Hrows : rows demo_bank <> []) by (vm_compute; discriminate).
  destruct (@filter_change_cursor_in_range demo_bank w s eq_refl Hrows Hreach)
    as [H0 [_ [_ [_ [Hnone _]]]]].
  split; [reflexivity|]. split; [reflexivity|].
  rewrite (Hnone eq_refl). apply H0. vm_compute. discriminate.
Defined.

(** C5.  The filtered view is a function of the bank and of the pair
    (domain, sub_specialty) alone: the code's view is the bank's items, in
    bank order, that match each selection by string equality (["All"]
    matching everything); and whatever clicks and filters came before, a run
    with the pair shows the item count of that view and the item of that
    view at the cursor. *)
Theorem filtered_view_depends_on_bank_and_pair (df : DataFrame)
    (dom sub : string) :
  bank_ok df = true ->
  rows df <> [] ->
  let view := view_by_spec (rows df) dom sub in
  let N := Z.of_nat (List.length view) in
  filter_view df dom sub = Ok (mkFrame (columns df) view) /\
  (forall r, In r view <->
             In r (rows df) /\
             (dom = "All" \/ row_get r "domain" VNaN = VStr dom) /\
             (sub = "All" \/ row_get r "sub_specialty" VNaN = VStr sub)) /\
  (forall (history : list widgets) (ch : option string)
          (click : option button),
      let s := interactions df history fresh in
      exists rest,
        page_after (mcq_player df (mkWidgets dom sub ch click)) s
        = page_head N ++ rest /\
        match nth_error view (Z.to_nat (clamp_cursor N (quiz_index s))) with
        | Some row =>
            exists rest',
              rest = question_line N (clamp_cursor N (quiz_index s)) row
                     :: rest'
        | None => rest = []
        end).
Proof.
  intros Hok Hrows view N.
  destruct (bank_ok_parts df Hok) as [Hd [Hs _]].
  split; [now apply filter_view_spec|]. split.
  - intros r. unfold view, view_by_spec. rewrite filter_In.
    unfold selects. rewrite andb_true_iff, !orb_true_iff, !String.eqb_eq.
    assert (Hstr : forall k v, is_str k v = true <-> v = VStr k).
    { intros k v. destruct v; simpl; try (split; [discriminate|congruence]).
      rewrite String.eqb_eq. split; congruence. }
    rewrite !Hstr. tauto.
  - intros history ch click s.
    assert (Hq : 0 <= quiz_index s).
    { apply reachable_cursor_nonneg. apply interactions_reachable.
      apply reach_fresh. }
    exact (@mcq_player_page df (mkWidgets dom sub ch click) s [] Hok Hrows Hq).
Qed.

Lemma filtered_view_depends_on_bank_and_pair_witness :
  filter_view demo_bank "Resp" "COPD"
  = Ok (mkFrame (columns demo_bank)
          (view_by_spec (rows demo_bank) "Resp" "COPD")) /\
  List.length (view_by_spec (rows demo_bank) "Resp" "COPD") = 2%nat.
Proof.
  assert (Hrows : rows demo_bank <> []) by (vm_compute; discriminate).
  split.
  - exact (proj1 (@filtered_view_depends_on_bank_and_pair demo_bank "Resp"
                    "COPD" eq_refl Hrows)).
  - reflexivity.
Defined.

(* ===================================================================== *)
(** ** Scoring *)
(* ===================================================================== *)

(** On a well-formed bank, every Submit of the correct letter adds one to
    the score, whatever the response record already holds for the item. *)
Lemma submit_correct_adds_one (df : DataFrame) (dom sub : string)
    (ch : option string) (s : session) :
  bank_ok df = true ->
  let view := view_by_spec (rows df) dom sub in
  0 <= quiz_index s < Z.of_nat (List.length view) ->
  exists row,
    nth_error view (Z.to_nat (quiz_index s)) = Some row /\
    (choice_eq ch (row_get row "correct_answer" VNone) = true ->
     quiz_score (interact df (mkWidgets dom sub ch (Some Submit)) s)
     = quiz_score s + 1).
Proof.
  intros Hok view Hc.
  destruct (@interact_run df (mkWidgets dom sub ch (Some Submit)) s Hok Hc)
    as [row [Hrow [_ E]]].
  exists row. split; [exact Hrow|].
  intros Hchoice. rewrite E. unfold after_click. simpl.
  now rewrite Hchoice.
Qed.

(** C1 (the code departs from it).  Submitting the correct answer "A" for
    the item "C1" twice leaves a score of 2 with a single recorded
    response. *)
Theorem submit_correct_twice_scores_two :
  quiz_score
    (interactions demo_bank
       [mkWidgets "All" "All" (Some "A") (Some Submit);
        mkWidgets "All" "All" (Some "A") (Some Submit)] fresh) = 2 /\
  responses
    (interactions demo_bank
       [mkWidgets "All" "All" (Some "A") (Some Submit);
        mkWidgets "All" "All" (Some "A") (Some Submit)] fresh)
  = [(VStr "C1", Some "A")] /\
  In (Info [Lit "Score: "; FInt 2; Lit " / "; FInt 1])
    (page_after
       (mcq_player demo_bank (mkWidgets "All" "All" (Some "A") (Some Submit)))
       (interact demo_bank (mkWidgets "All" "All" (Some "A") (Some Submit))
          fresh)).
Proof.
  split; [reflexivity|]. split; [reflexivity|].
  vm_compute. intuition.
Qed.

(* ===================================================================== *)
(** ** A bank that is not there *)
(* ===================================================================== *)

(** C6 as stated fails: a location that exists but does not open, or whose
    content does not parse, is not readable data, and the loader raises. *)
Lemma load_items_raises_when_unreadable :
  ~ readable (P := ascii_py) unreadable_fs demo_loads ITEMS_PATH /\
  load_items (P := ascii_py) unreadable_fs demo_loads ITEMS_PATH
    (mkWorld fresh [])
  = (Raised (OSError "Is a directory"), mkWorld fresh []) /\
  ~ readable (P := ascii_py) garbled_fs demo_loads ITEMS_PATH /\
  load_items (P := ascii_py) garbled_fs demo_loads ITEMS_PATH
    (mkWorld fresh [])
  = (Raised (JSONDecodeError "not json"), mkWorld fresh []).
Proof.
  split; [|split; [reflexivity|split; [|reflexivity]]].
  - intros [ls [recs [H _]]]. discriminate H.
  - intros [ls [recs [H1 H2]]]. inversion H1; subst. discriminate H2.
Qed.

(** C6, amended.  If the dataset location does not exist, the loader
    returns the empty bank with the nine columns and shows one warning, the
    session untouched; and the player, on that bank, shows its own warning
    and returns, the session untouched. *)
Theorem load_items_absent_gives_empty_bank {P : PyLib}
    (fs : string -> file_state) (json_loads : string -> res pydict)
    (path : string) (s : session) (pg : list ui) :
  fs path = Absent ->
  load_items fs json_loads path (mkWorld s pg)
  = (Done (pd_empty_frame ITEM_COLUMNS),
     mkWorld s (pg ++ [Warning [Lit "Question bank not found at `";
                               Fmt (VStr path);
                               Lit "`. Using empty dataset."]])) /\
  columns (pd_empty_frame ITEM_COLUMNS) = ITEM_COLUMNS /\
  rows (pd_empty_frame ITEM_COLUMNS) = [] /\
  List.length ITEM_COLUMNS = 9%nat /\
  (forall (w : widgets) (s' : session) (pg' : list ui),
      mcq_player (pd_empty_frame ITEM_COLUMNS) w (mkWorld s' pg')
      = (Done tt,
         mkWorld s'
           ((pg' ++ [Header [Lit "AKT MCQ Practice"]]) ++
            [Warning
               [Lit "No items found. Add lines to `data/items.jsonl`."]]))).
Proof.
  intros Hfs. split.
  - now rewrite load_items_absent.
  - repeat split.
Qed.

Lemma load_items_absent_gives_empty_bank_witness :
  load_items (P := ascii_py) (fun _ => Absent) demo_loads ITEMS_PATH
    (mkWorld fresh [])
  = (Done (pd_empty_frame ITEM_COLUMNS),
     mkWorld fresh [Warning [Lit "Question bank not found at `";
                             Fmt (VStr ITEMS_PATH);
                             Lit "`. Using empty dataset."]]).
Proof.
  exact (proj1 (@load_items_absent_gives_empty_bank ascii_py
                  (fun _ => Absent)
                  demo_loads ITEMS_PATH fresh [] eq_refl)).
Defined.

(* ===================================================================== *)
(** ** The authorization gate *)
(* ===================================================================== *)

Lemma ADMIN_EMAILS_lowered {P : PyLib} (L : StrLaws P) (secret a : string) :
  In a (ADMIN_EMAILS secret) -> lower a = a.
Proof.
  unfold ADMIN_EMAILS. intros H.
  apply in_map_iff in H as [e [<- _]]. apply (@lower_idempotent P L).
Qed.

Lemma split_ascii (sep : ascii) (s : string) :
  is_ascii s = true -> Forall (fun f => is_ascii f = true) (split sep s).
Proof.
  induction s as [|c s IH]; simpl; intros H.
  - repeat constructor.
  - apply andb_true_iff in H as [Hc Hs]. specialize (IH Hs).
    destruct (c =? sep)%char.
    + constructor; [reflexivity | exact IH].
    + destruct (split sep s) as [|f fs]; inversion IH; subst;
        constructor; simpl; rewrite ?Hc; auto.
Qed.

Lemma lstrip_ascii (s : string) :
  is_ascii s = true -> is_ascii (lstrip s) = true.
Proof.
  induction s as [|c s IH]; simpl; intros H; [reflexivity|].
  destruct (is_space c); [|exact H].
  apply andb_true_iff in H as [_ Hs]. auto.
Qed.

Lemma rstrip_ascii (s : string) :
  is_ascii s = true -> is_ascii (rstrip s) = true.
Proof.
  induction s as [|c s IH]; simpl; intros H; [reflexivity|].
  apply andb_true_iff in H as [Hc Hs]. specialize (IH Hs).
  destruct (rstrip s) as [|c' r'].
  - destruct (is_space c); simpl; [reflexivity|]. now rewrite Hc.
  - change (is_ascii_char c && is_ascii (String c' r') = true).
    now rewrite Hc, IH.
Qed.

Lemma ascii_strip_ascii (s : string) :
  is_ascii s = true -> is_ascii (ascii_strip s) = true.
Proof. intros H. now apply rstrip_ascii, lstrip_ascii. Qed.

(** On an ASCII secret the administrator list is the one the byte-wise
    functions give. *)
Lemma ADMIN_EMAILS_ascii {P : PyLib} (L : StrLaws P) (secret : string) :
  is_ascii secret = true ->
  ADMIN_EMAILS secret = ADMIN_EMAILS (P := ascii_py) secret.
Proof.
  intros H.
  change (ADMIN_EMAILS (P := ascii_py) secret)
    with (map (fun e => ascii_lower (ascii_strip e))
            (filter (fun e => negb (ascii_strip e =? "")%string)
               (split "," secret))).
  unfold ADMIN_EMAILS.
  pose proof (@split_ascii "," secret H) as Hf.
  induction Hf as [|f fs Hfa Hfs IH]; [reflexivity|].
  cbn [filter map]. rewrite (@strip_on_ascii P L f Hfa).
  destruct (negb (ascii_strip f =? "")%string); [|exact IH].
  cbn [map]. rewrite IH. f_equal.
  rewrite (@strip_on_ascii P L f Hfa).
  apply (@lower_on_ascii P L), ascii_strip_ascii, Hfa.
Qed.

Lemma is_admin_ascii {P : PyLib} (L : StrLaws P) (secret : string)
    (u : user) (i n : Z) (r : list (pyval * option string)) :
  is_ascii secret = true ->
  is_ascii (email_of u) = true ->
  is_admin secret (mkSession (Some u) i n r)
  = is_admin (P := ascii_py) secret (mkSession (Some u) i n r).
Proof.
  intros Hs Hu. unfold is_admin, current_user_email. cbn [auth_user].
  now rewrite (@ADMIN_EMAILS_ascii P L secret Hs), (@lower_on_ascii P L _ Hu).
Qed.

(** C7.  For an authenticated identity, [is_admin] holds exactly when the
    lower-cased email is one of the configured administrator emails, which
    are themselves stored lower-cased; so two emails with the same
    lower-casing get the same answer, ["Admin@X.com"] and ["ADMIN@X.COM"]
    are administrators under the configuration ["admin@x.com"], an email
    that is not configured is not, and without an identity nobody is.
    [lower] and [strip] are any functions with the laws of [str.lower] and
    [str.strip]. *)
Theorem is_admin_iff_lowercased_email_configured {P : PyLib} (L : StrLaws P)
    (secret : string) (u : user) (i n : Z)
    (r : list (pyval * option string)) :
  (is_admin secret (mkSession (Some u) i n r) = true
   <-> In (lower (email_of u)) (ADMIN_EMAILS secret)) /\
  (is_admin secret (mkSession (Some u) i n r) = false
   <-> ~ In (lower (email_of u)) (ADMIN_EMAILS secret)) /\
  (forall a, In a (ADMIN_EMAILS secret) -> lower a = a) /\
  (forall u', lower (email_of u') = lower (email_of u) ->
              is_admin secret (mkSession (Some u') i n r)
              = is_admin secret (mkSession (Some u) i n r)) /\
  is_admin secret (mkSession None i n r) = false /\
  ADMIN_EMAILS "admin@x.com" = ["admin@x.com"] /\
  is_admin "admin@x.com"
    (mkSession (Some (mkUser (Some "Admin@X.com") (user_id u))) i n r) = true /\
  is_admin "admin@x.com"
    (mkSession (Some (mkUser (Some "ADMIN@X.COM") (user_id u))) i n r) = true /\
  is_admin "admin@x.com"
    (mkSession (Some (mkUser (Some "admin@y.com") (user_id u))) i n r) = false.
Proof.
  assert (Hiff : is_admin secret (mkSession (Some u) i n r) = true
                 <-> In (lower (email_of u)) (ADMIN_EMAILS secret)).
  { unfold is_admin, current_user_email. simpl. apply str_in_In. }
  split; [exact Hiff|]. split.
  - rewrite <- Hiff.
    destruct (is_admin secret (mkSession (Some u) i n r));
      split; congruence.
  - split; [intros a; apply (ADMIN_EMAILS_lowered L)|].
    split.
    + intros u' Hu. unfold is_admin, current_user_email. simpl.
      now rewrite Hu.
    + split; [reflexivity|]. split.
      * now rewrite (@ADMIN_EMAILS_ascii P L "admin@x.com" eq_refl).
      * repeat split;
          rewrite (@is_admin_ascii P L "admin@x.com") by reflexivity;
          reflexivity.
Qed.

Lemma is_admin_iff_lowercased_email_configured_witness :
  is_admin (P := ascii_py) "boss@y.org, admin@x.com"
    (mkSession (Some (mkUser (Some "Admin@X.com") "uid-1")) 0 0 []) = true.
Proof.
  exact (proj2 (proj1 (@is_admin_iff_lowercased_email_configured ascii_py
                         ascii_str_laws "boss@y.org, admin@x.com"
                         (mkUser (Some "Admin@X.com") "uid-1") 0 0 []))
           (or_intror (or_introl eq_refl))).
Defined.

(* ===================================================================== *)
(** ** Sign-in *)
(* ===================================================================== *)

(** C8.  When the provider rejects the sign-in, [sign_in] returns [None] and
    shows an error message; the sign-in form of [auth_block] then leaves
    every component of the session as it was, shows that message, and ends
    without a rerun. *)
Theorem failed_sign_in_leaves_session
    (sign_in_with_password : string -> string -> res user)
    (provider_sign_up : string -> string -> res unit)
    (w : auth_widgets) (e : exn) (s : session) (pg : list ui) :
  sign_in_with_password (signin_email w) (signin_pw w) = Err e ->
  sign_in sign_in_with_password (signin_email w) (signin_pw w) (mkWorld s pg)
  = (Done None,
     mkWorld s (pg ++ [Error [Lit "Sign-in failed: "; FExn e]])) /\
  (do_signin w = true ->
   let r := auth_block sign_in_with_password provider_sign_up w
              (mkWorld s pg) in
   fst r = Done tt /\
   state (snd r) = s /\
   In (Error [Lit "Sign-in failed: "; FExn e]) (page (snd r))).
Proof.
  intros Hfail.
  assert (Hsign : forall pg0,
            sign_in sign_in_with_password (signin_email w) (signin_pw w)
              (mkWorld s pg0)
            = (Done None,
               mkWorld s (pg0 ++ [Error [Lit "Sign-in failed: "; FExn e]]))).
  { intros pg0. unfold sign_in, try_except, bind, lift. now rewrite Hfail. }
  split; [apply Hsign|].
  intros Hdo r. subst r. unfold auth_block. rewrite Hdo.
  cbv [bind show ret]. cbn [state page]. rewrite Hsign.
  unfold sign_up, try_except.
  cbv [bind show ret lift raise].
  destruct (do_signup w); [destruct (provider_sign_up _ _)|];
    cbn [state page fst snd]; repeat split;
    rewrite ?in_app_iff; simpl; tauto.
Qed.

Lemma failed_sign_in_leaves_session_witness :
  let w := mkAuthWidgets "trainee@x.com" "wrong" true "" "" false in
  session_after (auth_block rejecting_provider (fun _ _ => Ok tt) w) fresh
  = fresh.
Proof.
  intros w.
  destruct (@failed_sign_in_leaves_session rejecting_provider
              (fun _ _ => Ok tt) w
              (ProviderError "Invalid login credentials") fresh []
              eq_refl) as [_ H].
  exact (proj1 (proj2 (H eq_refl))).
Defined.

(* ===================================================================== *)
(** ** More on the loader *)
(* ===================================================================== *)

Lemma pick_ext (d1 d2 : pydict) (ks : list string) :
  (forall k, In k ks -> dict_get d1 k = dict_get d2 k) ->
  pick d1 ks = pick d2 ks.
Proof.
  unfold pick. induction ks as [|k ks IH]; intros H; simpl; [reflexivity|].
  rewrite (H k) by now left. f_equal. apply IH. intros k' Hk'.
  apply H. now right.
Qed.

Lemma pick_pick (d : pydict) : pick (pick d keys) keys = pick d keys.
Proof.
  apply pick_ext. intros k Hk. rewrite pick_get.
  apply str_in_In in Hk. now rewrite Hk.
Qed.

(** Normalizing options that are already normalized changes nothing. *)
Theorem order_opts_idempotent :
  (forall d : pydict, res_bind (order_opts d) order_opts = order_opts d) /\
  (forall v : pyval,
      res_bind (normalize_options v) normalize_options = normalize_options v).
Proof.
  split.
  - intros d. rewrite order_opts_pick. unfold res_bind.
    rewrite order_opts_pick. now rewrite pick_pick.
  - intros v. rewrite normalize_options_total. unfold res_bind.
    rewrite normalize_options_total. f_equal.
    destruct v; try reflexivity. unfold normalized. now rewrite pick_pick.
Qed.

Lemma res_map_Ok_length {X Y} (f : X -> res Y) (l : list X) (ys : list Y) :
  res_map f l = Ok ys -> List.length ys = List.length l.
Proof.
  revert ys. induction l as [|a l IH]; simpl; intros ys H.
  - now inversion H.
  - destruct (f a); simpl in H; [|discriminate].
    destruct (res_map f l); simpl in H; [|discriminate].
    inversion H; subst; simpl. now rewrite (IH _ eq_refl).
Qed.

Lemma filter_idem {X} (f : X -> bool) (l : list X) :
  filter f (filter f l) = filter f l.
Proof.
  induction l as [|x l IH]; simpl; [reflexivity|].
  destruct (f x) eqn:E; simpl; rewrite ?E, IH; reflexivity.
Qed.

Lemma loaded_frame_length {P : PyLib} (recs : list pydict) :
  List.length (rows (loaded_frame recs)) = List.length recs.
Proof.
  unfold loaded_frame.
  destruct (str_in "options" (columns (pd_DataFrame recs))); cbn [rows];
    rewrite ?length_map; apply pd_DataFrame_length.
Qed.

(** The loaded bank has one row per non-blank line of the file, and the
    file without its blank lines loads to the same bank; a line is blank
    when [str.strip] leaves nothing of it, whatever white space it is made
    of. *)
Theorem load_items_skips_blank_lines {P : PyLib}
    (fs fs' : string -> file_state) (json_loads : string -> res pydict)
    (path : string) (ls : list string) (recs : list pydict) (w : world) :
  fs path = Lines ls ->
  fs' path = Lines (filter nonblank ls) ->
  res_map json_loads (filter nonblank ls) = Ok recs ->
  exists df,
    load_items fs json_loads path w = (Done df, w) /\
    load_items fs' json_loads path w = (Done df, w) /\
    List.length (rows df) = List.length (filter nonblank ls).
Proof.
  intros Hfs Hfs' Hrecs. exists (loaded_frame recs).
  split; [now apply load_items_lines with (ls := ls)|].
  split.
  - apply load_items_lines with (ls := filter nonblank ls); auto.
    now rewrite filter_idem.
  - rewrite loaded_frame_length. now apply res_map_Ok_length in Hrecs.
Qed.

Lemma load_items_skips_blank_lines_witness :
  exists df,
    load_items (P := ascii_py) demo_fs demo_loads ITEMS_PATH
      (mkWorld fresh []) =
      (Done df, mkWorld fresh []) /\
    List.length (rows df) = 5%nat.
Proof.
  destruct (@load_items_skips_blank_lines ascii_py demo_fs
              (fun _ => Lines ["item 1"; "item 2"; "item 3"; "item 4"; "item 5"])
              demo_loads ITEMS_PATH
              ["item 1"; "item 2"; "   "; "item 3"; "item 4"; "item 5"]
              (map (fun l => match demo_loads l with Ok r => r | Err _ => [] end)
                 ["item 1"; "item 2"; "item 3"; "item 4"; "item 5"])
              (mkWorld fresh []) eq_refl eq_refl eq_refl)
    as [df [H1 [_ H3]]].
  exists df. split; [exact H1 | exact H3].
Defined.

Lemma res_map_first_error {X Y} (f : X -> res Y) (good : list X) (bad : X)
    (rest : list X) (e : exn) :
  (forall x, In x good -> exists y, f x = Ok y) ->
  f bad = Err e ->
  res_map f (good ++ bad :: rest) = Err e.
Proof.
  intros Hgood Hbad. induction good as [|x good IH]; simpl.
  - now rewrite Hbad.
  - destruct (Hgood x (or_introl eq_refl)) as [y ->]. simpl.
    rewrite IH; [reflexivity|]. intros x' Hx'. apply Hgood. now right.
Qed.

(** The loader stops at the first non-blank line that does not parse: it
    raises that line's error, returns no partial bank and shows nothing. *)
Theorem load_items_raises_at_first_bad_line {P : PyLib}
    (fs : string -> file_state) (json_loads : string -> res pydict)
    (path : string) (good : list string) (bad : string) (rest : list string)
    (e : exn) (w : world) :
  fs path = Lines (good ++ bad :: rest) ->
  (forall l, In l good -> nonblank l = true -> exists r, json_loads l = Ok r) ->
  nonblank bad = true ->
  json_loads bad = Err e ->
  load_items fs json_loads path w = (Raised e, w).
Proof.
  intros Hfs Hgood Hnb Hbad. unfold load_items. rewrite Hfs.
  fold nonblank. rewrite filter_app. simpl. rewrite Hnb.
  unfold bind, lift.
  rewrite (@res_map_first_error _ _ json_loads (filter nonblank good) bad
             (filter nonblank rest) e); [reflexivity| |exact Hbad].
  intros l Hl. apply filter_In in Hl as [Hin Hl]. now apply Hgood.
Qed.

Lemma load_items_raises_at_first_bad_line_witness :
  load_items (P := ascii_py)
    (fun _ => Lines ["item 1"; ""; "item 9"; "item 2"]) demo_loads
    ITEMS_PATH (mkWorld fresh [])
  = (Raised (JSONDecodeError "item 9"), mkWorld fresh []).
Proof.
  apply (@load_items_raises_at_first_bad_line ascii_py
           (fun _ => Lines ["item 1"; ""; "item 9"; "item 2"]) demo_loads
           ITEMS_PATH ["item 1"; ""] "item 9" ["item 2"]
           (JSONDecodeError "item 9") (mkWorld fresh []) eq_refl).
  - intros l Hl H. destruct (demo_loads l) eqn:E; [eauto|]. exfalso.
    destruct Hl as [<-|[<-|[]]]; vm_compute in E, H; discriminate.
  - reflexivity.
  - reflexivity.
Defined.

(** A file that exists but holds blank lines only loads to a frame with no
    rows and no columns, without the warning an absent file gets; the player
    then reports that there are no items and touches nothing. *)
Theorem load_items_blank_file {P : PyLib}
    (fs : string -> file_state) (json_loads : string -> res pydict)
    (path : string) (ls : list string) (w : world) :
  fs path = Lines ls ->
  forallb (fun l => negb (nonblank l)) ls = true ->
  load_items fs json_loads path w = (Done (mkFrame [] []), w) /\
  forall wd s pg,
    mcq_player (mkFrame [] []) wd (mkWorld s pg)
    = (Done tt,
       mkWorld s
         ((pg ++ [Header [Lit "AKT MCQ Practice"]]) ++
          [Warning [Lit "No items found. Add lines to `data/items.jsonl`."]])).
Proof.
  intros Hfs Hblank. split; [|reflexivity].
  assert (Hnone : filter nonblank ls = []).
  { clear Hfs. induction ls as [|l ls IH]; simpl in *; [reflexivity|].
    apply andb_true_iff in Hblank as [Hl Hls].
    apply negb_true_iff in Hl. rewrite Hl. auto. }
  rewrite (@load_items_lines P fs json_loads path ls [] w Hfs).
  - reflexivity.
  - now rewrite Hnone.
Qed.

Lemma load_items_blank_file_witness :
  load_items (P := ascii_py) blank_fs demo_loads ITEMS_PATH
    (mkWorld fresh [])
  = (Done (mkFrame [] []), mkWorld fresh []).
Proof.
  exact (proj1 (@load_items_blank_file ascii_py blank_fs demo_loads
                  ITEMS_PATH
                  [""; "   "] (mkWorld fresh []) eq_refl eq_refl)).
Defined.

Lemma add_keys_In (ks : list string) : forall cols c,
  In c (add_keys cols ks) <-> In c cols \/ In c ks.
Proof.
  induction ks as [|k ks IH]; simpl; intros cols c; [tauto|].
  rewrite IH. destruct (str_in k cols) eqn:E.
  - apply str_in_In in E. split; [tauto|].
    intros [H|[<-|H]]; auto.
  - rewrite in_app_iff. simpl. tauto.
Qed.

Lemma add_keys_NoDup (ks : list string) : forall cols,
  NoDup cols -> NoDup (add_keys cols ks).
Proof.
  induction ks as [|k ks IH]; simpl; intros cols H; [exact H|].
  apply IH. destruct (str_in k cols) eqn:E; [exact H|].
  apply NoDup_app; [exact H|repeat constructor; auto|].
  intros c Hc [<-|[]].
  apply str_in_In in Hc. congruence.
Qed.

Lemma frame_columns_In (recs : list pydict) : forall cols c,
  In c (fold_left (fun cols r => add_keys cols (dict_keys r)) recs cols)
  <-> In c cols \/ exists rec, In rec recs /\ In c (dict_keys rec).
Proof.
  induction recs as [|r recs IH]; simpl; intros cols c.
  - split; [tauto|]. intros [H|[rec [[] _]]]. exact H.
  - rewrite IH, add_keys_In. split.
    + intros [[H|H]|[rec [H1 H2]]]; eauto.
    + intros [H|[rec [[<-|H1] H2]]]; eauto.
Qed.

Lemma frame_columns_NoDup (recs : list pydict) : forall cols,
  NoDup cols ->
  NoDup (fold_left (fun cols r => add_keys cols (dict_keys r)) recs cols).
Proof.
  induction recs as [|r recs IH]; simpl; intros cols H; [exact H|].
  apply IH. now apply add_keys_NoDup.
Qed.

Lemma dict_keys_set_present (d : pydict) (k : string) (v : pyval) :
  In k (dict_keys d) -> dict_keys (dict_set d k v) = dict_keys d.
Proof.
  induction d as [|[k' v'] d IH]; simpl; [tauto|].
  destruct (String.eqb_spec k' k) as [->|Hne]; simpl; [reflexivity|].
  intros [H|H]; [congruence|]. now rewrite IH.
Qed.

Lemma loaded_frame_columns {P : PyLib} (recs : list pydict) :
  columns (loaded_frame recs) = columns (pd_DataFrame recs).
Proof.
  unfold loaded_frame.
  now destruct (str_in "options" (columns (pd_DataFrame recs))).
Qed.

(** The columns of the loaded bank are exactly the keys that occur in the
    records, each once: no column is invented, none is lost, and every row
    has a cell for every column. *)
Theorem load_items_columns {P : PyLib}
    (fs : string -> file_state) (json_loads : string -> res pydict)
    (path : string) (ls : list string) (recs : list pydict) (w : world) :
  fs path = Lines ls ->
  res_map json_loads (filter nonblank ls) = Ok recs ->
  exists df,
    load_items fs json_loads path w = (Done df, w) /\
    NoDup (columns df) /\
    (forall c, In c (columns df) <->
               exists rec, In rec recs /\ dict_contains rec c = true) /\
    (forall row, In row (rows df) -> dict_keys row = columns df).
Proof.
  intros Hfs Hrecs. exists (loaded_frame recs).
  split; [now apply load_items_lines with (ls := ls)|].
  rewrite loaded_frame_columns. split; [|split].
  - simpl. apply frame_columns_NoDup. constructor.
  - intros c. simpl. rewrite frame_columns_In. split.
    + intros [[]|[rec [H1 H2]]]. exists rec.
      now rewrite dict_contains_keys.
    + intros [rec [H1 H2]]. right. exists rec.
      now rewrite <- dict_contains_keys.
  - intros row Hrow. unfold loaded_frame in Hrow.
    set (cols := columns (pd_DataFrame recs)) in *.
    assert (Hpd : forall r, In r (rows (pd_DataFrame recs)) ->
                            dict_keys r = cols).
    { intros r Hr. simpl in Hr. apply in_map_iff in Hr as [j [<- _]].
      unfold dict_keys. rewrite map_map. simpl. apply map_id. }
    destruct (str_in "options" cols) eqn:E.
    + simpl in Hrow. apply in_map_iff in Hrow as [r [<- Hr]].
      rewrite dict_keys_set_present; [now apply Hpd|].
      rewrite (Hpd r Hr). now apply str_in_In.
    + now apply Hpd.
Qed.

Lemma load_items_columns_witness :
  exists df,
    load_items (P := ascii_py) demo_fs demo_loads ITEMS_PATH
      (mkWorld fresh []) =
      (Done df, mkWorld fresh []) /\
    NoDup (columns df).
Proof.
  destruct (@load_items_columns ascii_py demo_fs demo_loads ITEMS_PATH
              ["item 1"; "item 2"; "   "; "item 3"; "item 4"; "item 5"]
              (map (fun l => match demo_loads l with Ok r => r | Err _ => [] end)
                 ["item 1"; "item 2"; "item 3"; "item 4"; "item 5"])
              (mkWorld fresh []) eq_refl eq_refl)
    as [df [H1 [H2 _]]].
  exists df. split; [exact H1 | exact H2].
Defined.

(** Loading rewrites the [options] column only: the loaded bank has the
    columns and the number of rows of the frame pandas built from the
    records, every cell outside [options] is the cell of that frame, and
    without an [options] column the loaded bank is that frame. *)
Theorem load_items_keeps_other_cells {P : PyLib}
    (fs : string -> file_state) (json_loads : string -> res pydict)
    (path : string) (ls : list string) (recs : list pydict) (w : world) :
  fs path = Lines ls ->
  res_map json_loads (filter nonblank ls) = Ok recs ->
  exists df,
    load_items fs json_loads path w = (Done df, w) /\
    columns df = columns (pd_DataFrame recs) /\
    List.length (rows df) = List.length recs /\
    (forall i c,
        (i < List.length recs)%nat ->
        c <> "options" ->
        exists row row0,
          nth_error (rows df) i = Some row /\
          nth_error (rows (pd_DataFrame recs)) i = Some row0 /\
          dict_get row c = dict_get row0 c) /\
    (str_in "options" (columns (pd_DataFrame recs)) = false ->
     df = pd_DataFrame recs).
Proof.
  intros Hfs Hrecs. exists (loaded_frame recs).
  split; [now apply load_items_lines with (ls := ls)|].
  split; [apply loaded_frame_columns|].
  split; [apply loaded_frame_length|].
  split.
  - intros i c Hi Hc.
    pose proof (pd_DataFrame_row recs Hi) as Hrow.
    unfold loaded_frame.
    destruct (str_in "options" (columns (pd_DataFrame recs))); cbn [rows].
    + erewrite map_nth_error by exact Hrow.
      eexists. eexists. split; [reflexivity|]. split; [exact Hrow|].
      now rewrite dict_get_set_other by congruence.
    + eexists. eexists. split; [exact Hrow|]. split; [exact Hrow|].
      reflexivity.
  - intros Hno. unfold loaded_frame. now rewrite Hno.
Qed.

Lemma load_items_keeps_other_cells_witness :
  exists df,
    load_items (P := ascii_py) demo_fs demo_loads ITEMS_PATH
      (mkWorld fresh []) =
      (Done df, mkWorld fresh []) /\
    exists row, nth_error (rows df) 2 = Some row /\
                dict_get row "domain" = Some (VStr "Resp").
Proof.
  destruct (@load_items_keeps_other_cells ascii_py demo_fs demo_loads
              ITEMS_PATH
              ["item 1"; "item 2"; "   "; "item 3"; "item 4"; "item 5"]
              (map (fun l => match demo_loads l with Ok r => r | Err _ => [] end)
                 ["item 1"; "item 2"; "item 3"; "item 4"; "item 5"])
              (mkWorld fresh []) eq_refl eq_refl)
    as [df [H1 [_ [_ [H2 _]]]]].
  exists df. split; [exact H1|].
  destruct (H2 2%nat "domain") as [row [row0 [Hr [Hr0 Hc]]]];
    [vm_compute; lia | discriminate |].
  exists row. split; [exact Hr|].
  rewrite Hc. vm_compute in Hr0. inversion Hr0; subst. reflexivity.
Defined.

(* ===================================================================== *)
(** ** More on the filters *)
(* ===================================================================== *)

Lemma selects_all (cell : pyval) : selects "All" cell = true.
Proof. reflexivity. Qed.

Lemma view_by_spec_twice (bank : list pydict) (d1 s1 d2 s2 : string) :
  view_by_spec (view_by_spec bank d1 s1) d2 s2
  = filter (fun r => (selects d1 (row_get r "domain" VNaN)
                      && selects s1 (row_get r "sub_specialty" VNaN))
                     && (selects d2 (row_get r "domain" VNaN)
                         && selects s2 (row_get r "sub_specialty" VNaN)))
      bank.
Proof. unfold view_by_spec. apply filter_filter_and. Qed.

(** On a bank that has the two taxonomy columns: no selection gives the
    whole bank; narrowing by domain and then by sub-specialty, or the other
    way round, gives the view of the pair; applying a pair to its own view
    changes nothing; and a view only holds rows of the bank. *)
Theorem filter_view_composes (df : DataFrame) (dom sub : string) :
  str_in "domain" (columns df) = true ->
  str_in "sub_specialty" (columns df) = true ->
  filter_view df "All" "All" = Ok df /\
  res_bind (filter_view df dom "All") (fun v => filter_view v "All" sub)
    = filter_view df dom sub /\
  res_bind (filter_view df "All" sub) (fun v => filter_view v dom "All")
    = filter_view df dom sub /\
  res_bind (filter_view df dom sub) (fun v => filter_view v dom sub)
    = filter_view df dom sub /\
  (forall view, filter_view df dom sub = Ok view ->
                columns view = columns df /\
                incl (rows view) (rows df) /\
                (List.length (rows view) <= List.length (rows df))%nat).
Proof.
  intros Hd Hs.
  assert (Hagain : forall d1 s1 d2 s2,
             res_bind (filter_view df d1 s1) (fun v => filter_view v d2 s2)
             = Ok (mkFrame (columns df)
                     (view_by_spec (view_by_spec (rows df) d1 s1) d2 s2))).
  { intros. rewrite (filter_view_spec df d1 s1 Hd Hs). simpl.
    now rewrite filter_view_spec. }
  split; [reflexivity|].
  rewrite !Hagain, !(filter_view_spec df dom sub Hd Hs), !view_by_spec_twice.
  unfold view_by_spec.
  split; [|split; [|split]].
  - do 2 f_equal. apply filter_ext. intros r. rewrite !selects_all.
    now rewrite andb_true_r.
  - do 2 f_equal. apply filter_ext. intros r. rewrite !selects_all.
    rewrite andb_true_r. simpl. apply andb_comm.
  - do 2 f_equal. apply filter_ext. intros r.
    now destruct (selects dom _ && selects sub _).
  - intros view Hv. inversion Hv; subst; simpl.
    split; [reflexivity|]. split.
    + intros r Hr. now apply filter_In in Hr.
    + apply filter_length_le.
Qed.

Lemma filter_view_composes_witness :
  res_bind (filter_view demo_bank "Resp" "All")
    (fun v => filter_view v "All" "COPD")
  = filter_view demo_bank "Resp" "COPD".
Proof.
  exact (proj1 (proj2 (@filter_view_composes demo_bank "Resp" "COPD"
                         eq_refl eq_refl))).
Defined.

(* ===================================================================== *)
(** ** More on the player: any bank *)
(* ===================================================================== *)

(** Whatever the view and the row, a run of [show_item] leaves the session
    as it found it, or as [after_click] makes it for the row it read, whose
    [case_id] is then hashable. *)
Lemma show_item_states (view : DataFrame) (idx : Z) (w : widgets)
    (s : session) (pg : list ui) :
  state (snd (show_item view idx w (mkWorld s pg))) = s \/
  exists row,
    df_iloc view idx = Ok row /\
    hashable (row_get row "case_id" VNone) = true /\
    state (snd (show_item view idx w (mkWorld s pg)))
    = after_click (df_len view) idx row w s.
Proof.
  destruct (df_iloc view idx) as [row|e] eqn:Hrow.
  2:{ left. unfold show_item. rewrite Hrow. reflexivity. }
  destruct (dict_comp keys (py_contains (row_get row "options" (VDict [])))
              (py_getitem (row_get row "options" (VDict []))) [])
    as [ktl|e] eqn:Hktl.
  2:{ left. unfold show_item.
      cbv [bind show ret lift raise get_state].
      rewrite Hrow. cbv beta iota zeta. rewrite Hktl. reflexivity. }
  destruct (hashable (row_get row "case_id" VNone)) eqn:Hhash.
  2:{ left. unfold show_item, resp_get.
      cbv [bind show ret lift raise get_state].
      rewrite Hrow. cbv beta iota zeta. rewrite Hktl, Hhash. reflexivity. }
  right. exists row. split; [reflexivity|]. split; [exact Hhash|].
  destruct w as [dom sub ch [[| |]|]];
    unfold show_item, resp_get, resp_set, after_click;
    cbv [bind show ret lift raise get_state set_quiz_index set_quiz_score
         set_responses put_state st_rerun];
    rewrite Hrow; cbv beta iota zeta; rewrite Hktl, Hhash;
    cbn [state page fst snd is_clicked clicked choice];
    try (destruct (choice_eq ch (row_get row "correct_answer" VNone));
         cbn [state page fst snd]);
    try reflexivity;
    match goal with
    | |- context [feedback ?r ?c ?W] =>
        pose proof (keeps_feedback r c W) as HF;
        destruct (feedback r c W) as [[[]|e|] W']
    end; cbn [state page fst snd] in *; rewrite HF; reflexivity.
Qed.

(** The same for a whole run of the player: the session is left as it was,
    or entered into the view, or as [after_click] makes the entered
    session for a row with a hashable [case_id], read at a cursor inside a
    non-empty view. *)
Lemma mcq_player_states (df : DataFrame) (w : widgets) (s : session)
    (pg : list ui) :
  let s' := state (snd (mcq_player df w (mkWorld s pg))) in
  s' = s \/
  exists n, 0 <= n /\
    (s' = enter_view n s \/
     exists row,
       1 <= n /\
       hashable (row_get row "case_id" VNone) = true /\
       s' = after_click n (clamp_cursor n (quiz_index s)) row w
              (enter_view n s)).
Proof.
  intros s'. subst s'.
  destruct (mcq_player_cases df w s pg)
    as [[f [pg' ->]]|[view [pg' [_ [_ [[Hz ->]|[Hlen ->]]]]]]].
  - now left.
  - right. exists 0. split; [lia|]. now left.
  - pose proof (df_len_nonneg view) as Hn.
    destruct (show_item_states view (clamp_cursor (df_len view) (quiz_index s))
                w (enter_view (df_len view) s) pg')
      as [->|[row [_ [Hh ->]]]].
    + right. exists (df_len view). split; [lia|]. now left.
    + right. exists (df_len view). split; [lia|]. right.
      exists row. repeat split; auto. lia.
Qed.

Lemma enter_view_parts (n : Z) (s : session) :
  auth_user (enter_view n s) = auth_user s /\
  quiz_score (enter_view n s) = quiz_score s /\
  responses (enter_view n s) = responses s /\
  (0 <= quiz_index s -> 0 <= quiz_index (enter_view n s)) /\
  quiz_index (enter_view n s) = clamp_cursor n (quiz_index s).
Proof.
  unfold enter_view, clamp_cursor.
  destruct (quiz_index s >=? n); simpl; repeat split; auto; lia.
Qed.

Lemma mcq_player_step_facts (df : DataFrame) (w : widgets) (s : session) :
  let s' := session_after (mcq_player df w) s in
  quiz_score s <= quiz_score s' <= quiz_score s + 1 /\
  (is_clicked Submit w = false -> quiz_score s' = quiz_score s) /\
  auth_user s' = auth_user s.
Proof.
  intros s'. subst s'. unfold session_after.
  split; [|split].
  - destruct (mcq_player_states df w s []) as [->|[n [_ [->|[row [_ [_ ->]]]]]]].
    + lia.
    + destruct (enter_view_parts n s) as [_ [-> _]]. lia.
    + unfold after_click.
      destruct (enter_view_parts n s) as [_ [E _]].
      destruct (clicked w) as [[| |]|]; simpl; rewrite ?E;
        try destruct (choice_eq _ _); lia.
  - intros Hc. apply (mcq_player_navigation_frame df w s [] Hc).
  - destruct (mcq_player_states df w s []) as [->|[n [_ [->|[row [_ [_ ->]]]]]]].
    + reflexivity.
    + apply enter_view_parts.
    + unfold after_click.
      destruct (enter_view_parts n s) as [E _].
      destruct (clicked w) as [[| |]|]; simpl; rewrite ?E; reflexivity.
Qed.

(** A run of the player, on any bank and whatever is clicked, never lowers
    the score and raises it by one at most; without a click on Submit the
    score stays; and the signed-in identity is never touched. *)
Theorem mcq_player_score_and_identity (df : DataFrame) (w : widgets)
    (s : session) :
  let s' := session_after (mcq_player df w) s in
  quiz_score s <= quiz_score s' <= quiz_score s + 1 /\
  (is_clicked Submit w = false -> quiz_score s' = quiz_score s) /\
  auth_user s' = auth_user s.
Proof. exact (mcq_player_step_facts df w s). Qed.

Lemma interact_score (df : DataFrame) (w : widgets) (s : session) :
  quiz_score s <= quiz_score (interact df w s)
  <= quiz_score s + (if is_clicked Submit w then 1 else 0).
Proof.
  unfold interact.
  destruct (mcq_player_step_facts df w s) as [H1 [H2 _]].
  unfold session_after in *.
  assert (Hfirst : quiz_score s
                   <= quiz_score (state (snd (mcq_player df w (mkWorld s []))))
                   <= quiz_score s + (if is_clicked Submit w then 1 else 0)).
  { destruct (is_clicked Submit w); [lia|]. rewrite H2 by reflexivity. lia. }
  destruct (mcq_player df w (mkWorld s [])) as [[[]|e|] w1]; simpl in *;
    try exact Hfirst.
  destruct (mcq_player_step_facts df
              (mkWidgets (dom_choice w) (sub_choice w) (choice w) None)
              (state w1)) as [_ [G _]].
  unfold session_after in G. rewrite G by reflexivity. exact Hfirst.
Qed.

Lemma interactions_score (df : DataFrame) (ws : list widgets) : forall s,
  quiz_score s <= quiz_score (interactions df ws s)
  <= quiz_score s + submits ws.
Proof.
  unfold submits.
  induction ws as [|w ws IH]; intros s.
  - simpl. lia.
  - rewrite interactions_cons. specialize (IH (interact df w s)).
    pose proof (interact_score df w s) as H. simpl filter.
    destruct (is_clicked Submit w); simpl List.length; lia.
Qed.

(** Over any series of clicks, on any bank, the score of a session that
    started fresh is at least 0 and at most the number of clicks on
    Submit. *)
Theorem score_bounded_by_submits (df : DataFrame) (ws : list widgets) :
  0 <= quiz_score (interactions df ws fresh) <= submits ws.
Proof. exact (interactions_score df ws fresh). Qed.

(* --------------------------------------------------------------------- *)
(** *** The response record *)

Lemma Qeq_bool_refl (q : Q) : Qeq_bool q q = true.
Proof. apply Qeq_bool_iff. reflexivity. Qed.

Lemma key_eqb_refl (k : pyval) : hashable k = true -> key_eqb k k = true.
Proof.
  destruct k; simpl; intros H; try reflexivity; try discriminate.
  - now destruct b.
  - apply Qeq_bool_refl.
  - apply String.eqb_refl.
Qed.

Lemma resp_lookup_store_same (r : list (pyval * option string)) (k : pyval)
    (v : option string) :
  hashable k = true -> resp_lookup (resp_store r k v) k = v.
Proof.
  intros Hk. induction r as [|[k' v'] r IH]; simpl.
  - now rewrite key_eqb_refl.
  - destruct (key_eqb k' k) eqn:E; simpl; rewrite E; auto.
Qed.

Lemma resp_lookup_store_other (r : list (pyval * option string))
    (a b : string) (v : option string) :
  a <> b ->
  resp_lookup (resp_store r (VStr a) v) (VStr b) = resp_lookup r (VStr b).
Proof.
  intros Hne. induction r as [|[k' v'] r IH]; simpl.
  - destruct (String.eqb_spec a b); congruence.
  - destruct (key_eqb k' (VStr a)) eqn:E; simpl.
    + destruct k'; simpl in E; try discriminate.
      apply String.eqb_eq in E. subst. simpl.
      destruct (String.eqb_spec a b); congruence.
    + now rewrite IH.
Qed.

Lemma resp_store_length (r : list (pyval * option string)) (k : pyval)
    (v : option string) :
  List.length (resp_store r k v)
  = if answered r k then List.length r else S (List.length r).
Proof.
  unfold answered. induction r as [|[k' v'] r IH]; simpl; [reflexivity|].
  destruct (key_eqb k' k); simpl; [reflexivity|].
  rewrite IH. now destruct (existsb _ r).
Qed.

Lemma resp_store_later (r : list (pyval * option string)) (k0 k : pyval)
    (v : option string) :
  key_eqb k0 k = false ->
  existsb (fun e => key_eqb k0 (fst e)) r = false ->
  existsb (fun e => key_eqb k0 (fst e)) (resp_store r k v) = false.
Proof.
  intros Hk. induction r as [|[k' v'] r IH]; simpl.
  - intros _. now rewrite Hk.
  - intros H. apply orb_false_iff in H as [H1 H2].
    destruct (key_eqb k' k); simpl; rewrite H1; auto.
Qed.

Lemma resp_store_distinct (r : list (pyval * option string)) (k : pyval)
    (v : option string) :
  distinct_keys r -> distinct_keys (resp_store r k v).
Proof.
  induction r as [|[k' v'] r IH]; simpl.
  - auto.
  - intros [H1 H2]. destruct (key_eqb k' k) eqn:E; simpl.
    + auto.
    + split; [now apply resp_store_later | auto].
Qed.

Lemma resp_store_hashable (r : list (pyval * option string)) (k : pyval)
    (v : option string) :
  hashable k = true ->
  Forall (fun e => hashable (fst e) = true) r ->
  Forall (fun e => hashable (fst e) = true) (resp_store r k v).
Proof.
  intros Hk. induction 1 as [|[k' v'] r Hk' Hr IH]; simpl.
  - repeat constructor. exact Hk.
  - destruct (key_eqb k' k); constructor; auto.
Qed.

Lemma reachable_invariants (s : session) :
  reachable s ->
  0 <= quiz_index s /\
  0 <= quiz_score s /\
  distinct_keys (responses s) /\
  Forall (fun e => hashable (fst e) = true) (responses s).
Proof.
  induction 1 as [|df w s Hs IH|u s _ IH|r s _ IH].
  - simpl. repeat split; auto; lia.
  - destruct IH as [Hi [Hq [Hd Hh]]].
    unfold session_after.
    destruct (mcq_player_states df w s [])
      as [->|[n [Hn [->|[row [Hn1 [Hrow ->]]]]]]].
    + auto.
    + destruct (enter_view_parts n s) as [_ [-> [-> [H4 _]]]]. auto.
    + destruct (enter_view_parts n s) as [_ [E2 [E3 [H4 E5]]]].
      assert (Hc : 0 <= clamp_cursor n (quiz_index s)).
      { unfold clamp_cursor. destruct (quiz_index s >=? n); lia. }
      unfold after_click.
      destruct (clicked w) as [[| |]|]; simpl; rewrite ?E2, ?E3.
      * repeat split.
        -- now apply H4.
        -- destruct (choice_eq _ _); lia.
        -- now apply resp_store_distinct.
        -- now apply resp_store_hashable.
      * repeat split; auto; lia.
      * repeat split; auto; lia.
      * repeat split; auto.
  - simpl. exact IH.
  - rewrite sign_out_state. simpl. repeat split; auto; lia.
Qed.

(** In every session a user can be in, whatever banks the runs saw: the
    cursor and the score are not negative, and the response record holds
    hashable keys, no two of them equal, so that its length counts distinct
    items. *)
Theorem reachable_session_invariants (s : session) :
  reachable s ->
  0 <= quiz_index s /\
  0 <= quiz_score s /\
  distinct_keys (responses s) /\
  Forall (fun e => hashable (fst e) = true) (responses s).
Proof. exact (@reachable_invariants s). Qed.

Lemma reachable_session_invariants_witness :
  distinct_keys
    (responses
       (interactions demo_bank
          [mkWidgets "All" "All" (Some "B") (Some Submit);
           mkWidgets "All" "All" (Some "A") (Some Next);
           mkWidgets "All" "All" (Some "B") (Some Submit)] fresh)).
Proof.
  apply (@reachable_session_invariants
           (interactions demo_bank
              [mkWidgets "All" "All" (Some "B") (Some Submit);
               mkWidgets "All" "All" (Some "A") (Some Next);
               mkWidgets "All" "All" (Some "B") (Some Submit)] fresh)).
  apply interactions_reachable. apply reach_fresh.
Defined.

(* ===================================================================== *)
(** ** More on the player: well-formed banks *)
(* ===================================================================== *)

(** A click on Submit, on a well-formed bank and from a cursor inside the
    view, records the choice under the item's [case_id]: looking the item up
    gives the choice back, an item with another (string) [case_id] keeps
    its response, the record grows by one entry if the item had none and
    not at all otherwise, and the cursor does not move. *)
Theorem submit_records_choice (df : DataFrame) (dom sub : string)
    (ch : option string) (s : session) :
  bank_ok df = true ->
  let view := view_by_spec (rows df) dom sub in
  0 <= quiz_index s < Z.of_nat (List.length view) ->
  let s' := interact df (mkWidgets dom sub ch (Some Submit)) s in
  exists row,
    nth_error view (Z.to_nat (quiz_index s)) = Some row /\
    let case_id := row_get row "case_id" VNone in
    resp_lookup (responses s') case_id = ch /\
    (forall a b, case_id = VStr a -> a <> b ->
                 resp_lookup (responses s') (VStr b)
                 = resp_lookup (responses s) (VStr b)) /\
    List.length (responses s')
    = (if answered (responses s) case_id
       then List.length (responses s)
       else S (List.length (responses s))) /\
    quiz_index s' = quiz_index s.
Proof.
  intros Hok view Hc s'.
  destruct (@interact_run df (mkWidgets dom sub ch (Some Submit)) s Hok Hc)
    as [row [Hrow [_ E]]].
  exists row. split; [exact Hrow|]. intros case_id.
  assert (Hhash : hashable case_id = true).
  { destruct (bank_ok_parts df Hok) as [_ [_ Hitems]].
    assert (Hitem : item_ok row = true).
    { apply Hitems. apply view_by_spec_incl with (dom := dom) (sub := sub).
      eapply nth_error_In; eauto. }
    unfold item_ok in Hitem.
    apply andb_true_iff in Hitem as [Hitem _].
    now apply andb_true_iff in Hitem as [_ Hitem]. }
  subst s'. rewrite E. unfold after_click. simpl.
  fold case_id. repeat split.
  - now apply resp_lookup_store_same.
  - intros a b Ha Hab. rewrite Ha. now apply resp_lookup_store_other.
  - apply resp_store_length.
Qed.

Lemma submit_records_choice_witness :
  resp_lookup
    (responses
       (interact demo_bank (mkWidgets "All" "All" (Some "B") (Some Submit))
          fresh)) (VStr "C1") = Some "B".
Proof.
  assert (Hc : 0 <= quiz_index fresh
               < Z.of_nat (List.length
                             (view_by_spec (rows demo_bank) "All" "All")))
    by (vm_compute; split; [discriminate | reflexivity]).
  destruct (@submit_records_choice demo_bank "All" "All" (Some "B") fresh
              eq_refl Hc) as [row [Hrow [Hget _]]].
  vm_compute in Hrow. inversion Hrow; subst. exact Hget.
Defined.

(** Changing a correct answer into a wrong one does not take the point
    back: after a Submit of the correct letter and then a Submit of another
    one for the same item, the score is one more than at the start while the
    recorded response is the wrong letter. *)
Theorem wrong_answer_keeps_point (df : DataFrame) (dom sub : string)
    (right wrong : option string) (s : session) :
  bank_ok df = true ->
  let view := view_by_spec (rows df) dom sub in
  0 <= quiz_index s < Z.of_nat (List.length view) ->
  let s1 := interact df (mkWidgets dom sub right (Some Submit)) s in
  let s2 := interact df (mkWidgets dom sub wrong (Some Submit)) s1 in
  exists row,
    nth_error view (Z.to_nat (quiz_index s)) = Some row /\
    (choice_eq right (row_get row "correct_answer" VNone) = true ->
     choice_eq wrong (row_get row "correct_answer" VNone) = false ->
     quiz_score s2 = quiz_score s + 1 /\
     resp_lookup (responses s2) (row_get row "case_id" VNone) = wrong).
Proof.
  intros Hok view Hc s1 s2.
  destruct (@interact_run df (mkWidgets dom sub right (Some Submit)) s Hok Hc)
    as [row [Hrow [_ E1]]].
  fold s1 in E1.
  assert (Hc1 : 0 <= quiz_index s1 < Z.of_nat (List.length view))
    by (rewrite E1; exact Hc).
  destruct (@interact_run df (mkWidgets dom sub wrong (Some Submit)) s1 Hok
              Hc1) as [row' [Hrow' [_ E2]]].
  fold s2 in E2.
  assert (Hq : quiz_index s1 = quiz_index s) by (rewrite E1; reflexivity).
  simpl dom_choice in *. simpl sub_choice in *. fold view in Hrow, Hrow'.
  rewrite Hq in Hrow'. rewrite Hrow in Hrow'. inversion Hrow'; subst row'.
  exists row. split; [exact Hrow|]. intros Hr Hw.
  assert (Hhash : hashable (row_get row "case_id" VNone) = true).
  { destruct (bank_ok_parts df Hok) as [_ [_ Hitems]].
    assert (Hitem : item_ok row = true).
    { apply Hitems. apply view_by_spec_incl with (dom := dom) (sub := sub).
      eapply nth_error_In; eauto. }
    unfold item_ok in Hitem.
    apply andb_true_iff in Hitem as [Hitem _].
    now apply andb_true_iff in Hitem as [_ Hitem]. }
  rewrite E2, E1. unfold after_click. simpl. rewrite Hr, Hw.
  split; [reflexivity|]. now apply resp_lookup_store_same.
Qed.

Lemma wrong_answer_keeps_point_witness :
  let s2 :=
    interact demo_bank (mkWidgets "All" "All" (Some "B") (Some Submit))
      (interact demo_bank (mkWidgets "All" "All" (Some "A") (Some Submit))
         fresh) in
  quiz_score s2 = 1 /\ resp_lookup (responses s2) (VStr "C1") = Some "B".
Proof.
  assert (Hc : 0 <= quiz_index fresh
               < Z.of_nat (List.length
                             (view_by_spec (rows demo_bank) "All" "All")))
    by (vm_compute; split; [discriminate | reflexivity]).
  destruct (@wrong_answer_keeps_point demo_bank "All" "All" (Some "A")
              (Some "B") fresh eq_refl Hc) as [row [Hrow H]].
  vm_compute in Hrow. inversion Hrow; subst.
  exact (H eq_refl eq_refl).
Defined.

(* ===================================================================== *)
(** ** Edge cases of the player *)
(* ===================================================================== *)

Lemma filters_ok_columns (df : DataFrame) :
  filters_ok df = true ->
  str_in "domain" (columns df) = true /\
  str_in "sub_specialty" (columns df) = true /\
  (exists l, res_bind (df_col df "domain") sorted_unique = Ok l) /\
  (exists l, res_bind (df_col df "sub_specialty") sorted_unique = Ok l).
Proof.
  unfold filters_ok. intros H.
  apply andb_true_iff in H as [H Hrows].
  apply andb_true_iff in H as [Hd Hs].
  rewrite forallb_forall in Hrows.
  repeat split; auto; apply column_ok; auto; apply forallb_forall;
    intros r Hr; specialize (Hrows r Hr);
    apply andb_true_iff in Hrows; tauto.
Qed.

(** [mcq_player_enters] needs the taxonomy columns only. *)
Lemma mcq_player_enters_view (df : DataFrame) (w : widgets) (s : session)
    (pg : list ui) :
  filters_ok df = true ->
  rows df <> [] ->
  let view := view_by_spec (rows df) (dom_choice w) (sub_choice w) in
  let n := Z.of_nat (List.length view) in
  mcq_player df w (mkWorld s pg) =
  if n =? 0
  then (Done tt, mkWorld (enter_view n s) (pg ++ page_head n))
  else show_item (mkFrame (columns df) view)
         (clamp_cursor n (quiz_index s)) w
         (mkWorld (enter_view n s) (pg ++ page_head n)).
Proof.
  intros Hok Hrows view n.
  destruct (filters_ok_columns df Hok) as [Hd [Hsub [[l1 H1] [l2 H2]]]].
  assert (Hemp : df_empty df = false).
  { unfold df_empty. destruct (columns df); [discriminate|].
    destruct (rows df); congruence. }
  unfold mcq_player.
  cbv [bind show ret lift raise get_state set_quiz_index put_state].
  rewrite Hemp, H1, H2, filter_view_spec by assumption.
  fold view. change (df_len (mkFrame (columns df) view)) with n.
  cbn [state page fst snd].
  unfold enter_view, clamp_cursor, page_head.
  destruct (quiz_index s >=? n); destruct (n =? 0);
    cbn [state page fst snd]; rewrite <- app_assoc; reflexivity.
Qed.

(** When the selected domain and sub-specialty match no item of a non-empty
    bank, the run shows a count of 0, puts the cursor at 0 and returns
    before the buttons: a click, Submit included, has no effect. *)
Theorem empty_view_ignores_clicks (df : DataFrame) (w : widgets)
    (s : session) (pg : list ui) :
  filters_ok df = true ->
  rows df <> [] ->
  0 <= quiz_index s ->
  view_by_spec (rows df) (dom_choice w) (sub_choice w) = [] ->
  mcq_player df w (mkWorld s pg)
  = (Done tt,
     mkWorld (mkSession (auth_user s) 0 (quiz_score s) (responses s))
       (pg ++ page_head 0)).
Proof.
  intros Hok Hrows Hq Hv.
  rewrite mcq_player_enters_view by assumption. rewrite Hv. simpl.
  unfold enter_view. destruct (Z.geb_spec (quiz_index s) 0); [reflexivity|lia].
Qed.

Lemma empty_view_ignores_clicks_witness :
  mcq_player demo_bank (mkWidgets "Cardio" "COPD" (Some "A") (Some Submit))
    (mkWorld fresh [])
  = (Done tt, mkWorld fresh (page_head 0)).
Proof.
  assert (Hrows : rows demo_bank <> []) by (vm_compute; discriminate).
  assert (Hq : 0 <= quiz_index fresh) by (vm_compute; discriminate).
  exact (@empty_view_ignores_clicks demo_bank
           (mkWidgets "Cardio" "COPD" (Some "A") (Some Submit)) fresh []
           eq_refl Hrows Hq eq_refl).
Defined.

(** When building the radio for the item at the cursor raises (its
    [options] is [NaN] because the record had none, or is otherwise not a
    mapping), the run ends there with that exception: the item's heading has
    been shown, the cursor has only been put back in range, and no button,
    Next and Previous included, takes effect. *)
Theorem broken_options_stop_the_run (df : DataFrame) (w : widgets)
    (s : session) (pg : list ui) (row : pydict) (e : exn) :
  filters_ok df = true ->
  rows df <> [] ->
  0 <= quiz_index s ->
  let view := view_by_spec (rows df) (dom_choice w) (sub_choice w) in
  let n := Z.of_nat (List.length view) in
  let idx := clamp_cursor n (quiz_index s) in
  nth_error view (Z.to_nat idx) = Some row ->
  dict_comp keys (py_contains (row_get row "options" (VDict [])))
    (py_getitem (row_get row "options" (VDict []))) [] = Err e ->
  mcq_player df w (mkWorld s pg)
  = (Raised e,
     mkWorld (enter_view n s) ((pg ++ page_head n) ++ item_lines n idx row)).
Proof.
  intros Hok Hrows Hq view n idx Hrow Hopt.
  rewrite mcq_player_enters_view by assumption. fold view. fold n. fold idx.
  assert (Hn : n <> 0).
  { intros Hn. assert (Hv : view = [])
      by (destruct view; [reflexivity|discriminate]).
    rewrite Hv in Hrow. now destruct (Z.to_nat idx). }
  destruct (Z.eqb_spec n 0) as [|_]; [contradiction|].
  assert (Hrange : 0 <= idx < df_len (mkFrame (columns df) view)).
  { change (df_len (mkFrame (columns df) view)) with n.
    assert (0 < n) by (pose proof (Nat2Z.is_nonneg (List.length view));
                       fold n in H; lia).
    unfold idx, clamp_cursor.
    destruct (Z.geb_spec (quiz_index s) n); lia. }
  destruct (df_iloc_nth (mkFrame (columns df) view) Hrange)
    as [row' [Hnth Hiloc]].
  simpl rows in Hnth. rewrite Hrow in Hnth. inversion Hnth; subst row'.
  unfold show_item.
  cbv [bind show ret lift raise get_state].
  rewrite Hiloc. cbv beta iota zeta. rewrite Hopt.
  cbn [state page fst snd]. unfold item_lines, question_line.
  change (df_len (mkFrame (columns df) view)) with n.
  rewrite <- !app_assoc. reflexivity.
Qed.

Lemma broken_options_stop_the_run_witness :
  let next := mkWidgets "All" "All" None (Some Next) in
  let s := mkSession None 1 0 [] in
  session_after (mcq_player patchy_bank next) s = s /\
  fst (mcq_player patchy_bank next (mkWorld s []))
  = Raised (TypeError "argument is not iterable").
Proof.
  intros next s.
  assert (Hrows : rows patchy_bank <> []) by (vm_compute; discriminate).
  assert (Hq : 0 <= quiz_index s) by (vm_compute; discriminate).
  pose proof (@broken_options_stop_the_run patchy_bank next s []
                [("case_id", VStr "P2"); ("domain", VStr "Cardio");
                 ("sub_specialty", VStr "AF"); ("topic", VNaN);
                 ("question", VNaN); ("options", VNaN);
                 ("correct_answer", VStr "A")]
                (TypeError "argument is not iterable")
                eq_refl Hrows Hq eq_refl eq_refl) as H.
  unfold session_after. rewrite H. split; reflexivity.
Defined.

(** A non-empty bank none of whose records has a [domain] key makes every
    run of the player raise [KeyError] right after the header, the session
    untouched; so does a missing [sub_specialty] once the domains have been
    listed. *)
Theorem missing_taxonomy_column_raises (df : DataFrame) (w : widgets)
    (s : session) (pg : list ui) :
  df_empty df = false ->
  (str_in "domain" (columns df) = false ->
   mcq_player df w (mkWorld s pg)
   = (Raised (KeyError "domain"),
      mkWorld s (pg ++ [Header [Lit "AKT MCQ Practice"]]))) /\
  (str_in "domain" (columns df) = true ->
   forallb (fun r => taxonomy_ok (row_get r "domain" VNaN)) (rows df) = true ->
   str_in "sub_specialty" (columns df) = false ->
   mcq_player df w (mkWorld s pg)
   = (Raised (KeyError "sub_specialty"),
      mkWorld s (pg ++ [Header [Lit "AKT MCQ Practice"]]))).
Proof.
  intros Hemp. split.
  - intros Hd. unfold mcq_player, df_col.
    cbv [bind show ret lift raise]. rewrite Hemp, Hd. reflexivity.
  - intros Hd Hcells Hs.
    destruct (column_ok df "domain" Hd Hcells) as [l Hl].
    unfold mcq_player. cbv [bind show ret lift raise].
    rewrite Hemp, Hl. unfold df_col. rewrite Hs. reflexivity.
Qed.

Lemma missing_taxonomy_column_raises_witness :
  mcq_player (pd_DataFrame (P := ascii_py) [[("case_id", VStr "Z1")]])
    (mkWidgets "All" "All" None None) (mkWorld fresh [])
  = (Raised (KeyError "domain"),
     mkWorld fresh [Header [Lit "AKT MCQ Practice"]]).
Proof.
  exact (proj1 (@missing_taxonomy_column_raises
                  (pd_DataFrame (P := ascii_py) [[("case_id", VStr "Z1")]])
                  (mkWidgets "All" "All" None None) fresh [] eq_refl)
           eq_refl).
Defined.

(* ===================================================================== *)
(** ** Signing in, up and out *)
(* ===================================================================== *)

(** Signing out puts the session back to its initial values whatever it
    held and whether or not the provider's own sign-out raised; the profile
    box then reruns the script, and without a click it leaves the session
    alone. *)
Theorem sign_out_resets_session {P : PyLib} (provider_sign_out : res unit)
    (s : session) (pg : list ui) :
  sign_out provider_sign_out (mkWorld s pg) = (Done tt, mkWorld fresh pg) /\
  profile_box provider_sign_out true (mkWorld s pg)
  = (Rerun,
     mkWorld fresh
       (pg ++ [Caption [Lit "Signed in as **"; FStr (current_user_email s);
                        Lit "**"]])) /\
  profile_box provider_sign_out false (mkWorld s pg)
  = (Done tt,
     mkWorld s
       (pg ++ [Caption [Lit "Signed in as **"; FStr (current_user_email s);
                        Lit "**"]])).
Proof.
  destruct provider_sign_out as [[]|e]; repeat split.
Qed.

Lemma auth_block_accepted
    (sign_in_with_password : string -> string -> res user)
    (provider_sign_up : string -> string -> res unit)
    (w : auth_widgets) (u : user) (s : session) (pg : list ui) :
  do_signin w = true ->
  sign_in_with_password (signin_email w) (signin_pw w) = Ok u ->
  auth_block sign_in_with_password provider_sign_up w (mkWorld s pg)
  = (Rerun,
     mkWorld (mkSession (Some u) (quiz_index s) (quiz_score s) (responses s))
       ((pg ++ [Subheader [Lit "Sign In"]]) ++ [Success [Lit "Signed in."]])).
Proof.
  intros Hdo Hok. unfold auth_block, sign_in, try_except. rewrite Hdo.
  cbv [bind show ret lift raise set_auth_user get_state put_state st_rerun].
  rewrite Hok. destruct u. reflexivity.
Qed.

Lemma auth_block_sign_up_only
    (sign_in_with_password : string -> string -> res user)
    (provider_sign_up : string -> string -> res unit)
    (w : auth_widgets) (s : session) (pg : list ui) :
  do_signin w = false ->
  auth_block sign_in_with_password provider_sign_up w (mkWorld s pg)
  = (Done tt,
     mkWorld s
       ((((pg ++ [Subheader [Lit "Sign In"]]) ++ [Divider]) ++
         [Subheader [Lit "Create a new account"]]) ++
        (if do_signup w
         then match provider_sign_up (signup_email w) (signup_pw w) with
              | Ok _ =>
                  [Success [Lit "Account created. Please sign in above."]]
              | Err e => [Error [Lit "Sign-up failed: "; FExn e]]
              end
         else []))).
Proof.
  intros Hdo. unfold auth_block, sign_up, try_except. rewrite Hdo.
  cbv [bind show ret lift raise].
  destruct (do_signup w); [destruct (provider_sign_up _ _)|];
    cbn [state page fst snd]; rewrite ?app_nil_r; reflexivity.
Qed.

(** When the provider accepts the credentials, the sign-in form stores the
    identity it returned, says so and reruns the script before the sign-up
    form is looked at; the cursor, the score and the responses are as
    before. *)
Theorem accepted_sign_in_sets_identity {P : PyLib}
    (sign_in_with_password : string -> string -> res user)
    (provider_sign_up : string -> string -> res unit)
    (w : auth_widgets) (u : user) (s : session) (pg : list ui) :
  do_signin w = true ->
  sign_in_with_password (signin_email w) (signin_pw w) = Ok u ->
  auth_block sign_in_with_password provider_sign_up w (mkWorld s pg)
  = (Rerun,
     mkWorld (mkSession (Some u) (quiz_index s) (quiz_score s) (responses s))
       ((pg ++ [Subheader [Lit "Sign In"]]) ++ [Success [Lit "Signed in."]])) /\
  is_logged_in
    (session_after (auth_block sign_in_with_password provider_sign_up w) s)
  = true /\
  current_user_email
    (session_after (auth_block sign_in_with_password provider_sign_up w) s)
  = Some (lower (email_of u)).
Proof.
  intros Hdo Hok. split; [now apply auth_block_accepted|].
  unfold session_after.
  rewrite (@auth_block_accepted sign_in_with_password provider_sign_up w u s
             [] Hdo Hok).
  split; reflexivity.
Qed.

Lemma accepted_sign_in_sets_identity_witness :
  current_user_email (P := ascii_py)
    (session_after
       (auth_block accepting_provider (fun _ _ => Ok tt)
          (mkAuthWidgets "Trainee@X.com" "pw" true "" "" false)) fresh)
  = Some "trainee@x.com".
Proof.
  exact (proj2 (proj2 (@accepted_sign_in_sets_identity ascii_py
                         accepting_provider
                         (fun _ _ => Ok tt)
                         (mkAuthWidgets "Trainee@X.com" "pw" true "" "" false)
                         (mkUser (Some "Trainee@X.com") "uid-1") fresh []
                         eq_refl eq_refl))).
Defined.

(** Creating an account never signs anybody in: when only the sign-up form
    is submitted, the session is untouched and the run ends normally, with a
    success message if the provider accepted and its error if it raised. *)
Theorem sign_up_leaves_session
    (sign_in_with_password : string -> string -> res user)
    (provider_sign_up : string -> string -> res unit)
    (w : auth_widgets) (s : session) (pg : list ui) :
  do_signin w = false ->
  auth_block sign_in_with_password provider_sign_up w (mkWorld s pg)
  = (Done tt,
     mkWorld s
       ((((pg ++ [Subheader [Lit "Sign In"]]) ++ [Divider]) ++
         [Subheader [Lit "Create a new account"]]) ++
        (if do_signup w
         then match provider_sign_up (signup_email w) (signup_pw w) with
              | Ok _ =>
                  [Success [Lit "Account created. Please sign in above."]]
              | Err e => [Error [Lit "Sign-up failed: "; FExn e]]
              end
         else []))).
Proof.
  intros Hdo. now apply auth_block_sign_up_only.
Qed.

Lemma sign_up_leaves_session_witness :
  session_after
    (auth_block rejecting_provider (fun _ _ => Ok tt)
       (mkAuthWidgets "" "" false "new@x.com" "pw" true)) fresh
  = fresh.
Proof.
  unfold session_after.
  rewrite (@sign_up_leaves_session rejecting_provider (fun _ _ => Ok tt)
             (mkAuthWidgets "" "" false "new@x.com" "pw" true) fresh []
             eq_refl).
  reflexivity.
Defined.

(** Whatever the provider does and whatever is submitted, the two forms
    never touch the cursor, the score or the responses, and the identity
    changes only to the one an accepted sign-in returned; [sign_in] and
    [sign_up] catch every exception of the provider: they return, [None]
    and [False] exactly when it raised, and leave the session alone. *)
Theorem auth_block_writes_identity_only
    (sign_in_with_password : string -> string -> res user)
    (provider_sign_up : string -> string -> res unit)
    (w : auth_widgets) (s : session) (pg : list ui) :
  let r := auth_block sign_in_with_password provider_sign_up w
             (mkWorld s pg) in
  quiz_index (state (snd r)) = quiz_index s /\
  quiz_score (state (snd r)) = quiz_score s /\
  responses (state (snd r)) = responses s /\
  (auth_user (state (snd r)) = auth_user s \/
   exists u,
     do_signin w = true /\
     sign_in_with_password (signin_email w) (signin_pw w) = Ok u /\
     auth_user (state (snd r)) = Some u) /\
  (forall email pw,
      exists o pg',
        sign_in sign_in_with_password email pw (mkWorld s pg)
        = (Done o, mkWorld s pg') /\
        (o = None <-> exists e, sign_in_with_password email pw = Err e)) /\
  (forall email pw,
      exists b pg',
        sign_up provider_sign_up email pw (mkWorld s pg)
        = (Done b, mkWorld s pg') /\
        (b = false <-> exists e, provider_sign_up email pw = Err e)).
Proof.
  intros r. subst r.
  assert (Hin : forall email pw,
             exists o pg',
               sign_in sign_in_with_password email pw (mkWorld s pg)
               = (Done o, mkWorld s pg') /\
               (o = None <-> exists e, sign_in_with_password email pw = Err e)).
  { intros email pw. unfold sign_in, try_except.
    cbv [bind show ret lift raise].
    destruct (sign_in_with_password email pw) as [u|e];
      cbn [state page fst snd]; eexists; eexists; (split; [reflexivity|]).
    - split; [discriminate | intros [e He]; discriminate].
    - split; [eauto | reflexivity]. }
  assert (Hup : forall email pw,
             exists b pg',
               sign_up provider_sign_up email pw (mkWorld s pg)
               = (Done b, mkWorld s pg') /\
               (b = false <-> exists e, provider_sign_up email pw = Err e)).
  { intros email pw. unfold sign_up, try_except.
    cbv [bind show ret lift raise].
    destruct (provider_sign_up email pw) as [u|e];
      cbn [state page fst snd]; eexists; eexists; (split; [reflexivity|]).
    - split; [discriminate | intros [e He]; discriminate].
    - split; [eauto | reflexivity]. }
  destruct (do_signin w) eqn:Hdo.
  - destruct (sign_in_with_password (signin_email w) (signin_pw w))
      as [u|e] eqn:Hp.
    + rewrite (@auth_block_accepted sign_in_with_password provider_sign_up
                 w u s pg Hdo Hp).
      simpl. repeat split; auto.
      right. exists u. auto.
    + unfold auth_block, sign_in, sign_up, try_except. rewrite Hdo.
      cbv [bind show ret lift raise]. rewrite Hp.
      destruct (do_signup w); [destruct (provider_sign_up _ _)|];
        cbn [state page fst snd]; repeat split; auto.
  - rewrite auth_block_sign_up_only by assumption. simpl.
    repeat split; auto.
Qed.

(* ===================================================================== *)
(** ** The administrator list *)
(* ===================================================================== *)

Lemma ADMIN_EMAILS_nonempty {P : PyLib} (L : StrLaws P) (secret : string) :
  ~ In "" (ADMIN_EMAILS secret).
Proof.
  unfold ADMIN_EMAILS. intros H.
  apply in_map_iff in H as [e [He Hin]].
  apply filter_In in Hin as [_ Hnb].
  apply (@lower_nonempty P L) in He. rewrite He in Hnb. discriminate.
Qed.

(** An identity without an email, or with an empty one, is never an
    administrator, whatever the configuration: blank entries of the
    configured list are dropped, and lower-casing empties no entry. *)
Theorem no_email_is_never_admin {P : PyLib} (L : StrLaws P)
    (secret : string) (id : string) (i n : Z)
    (r : list (pyval * option string)) :
  ~ In "" (ADMIN_EMAILS secret) /\
  is_admin secret (mkSession (Some (mkUser None id)) i n r) = false /\
  is_admin secret (mkSession (Some (mkUser (Some "") id)) i n r) = false.
Proof.
  pose proof (ADMIN_EMAILS_nonempty L secret) as H.
  split; [exact H|].
  assert (E : str_in "" (ADMIN_EMAILS secret) = false).
  { destruct (str_in "" (ADMIN_EMAILS secret)) eqn:E; [|reflexivity].
    apply str_in_In in E. contradiction. }
  unfold is_admin, current_user_email, email_of. cbn [auth_user user_email].
  rewrite (@lower_on_ascii P L "" eq_refl). split; exact E.
Qed.

Lemma no_email_is_never_admin_witness :
  is_admin (P := ascii_py) " ,,admin@x.com"
    (mkSession (Some (mkUser None "uid-1")) 0 0 []) = false.
Proof.
  exact (proj1 (proj2 (@no_email_is_never_admin ascii_py ascii_str_laws
                         " ,,admin@x.com" "uid-1" 0 0 []))).
Defined.

Lemma split_free (sep : ascii) (f : string) :
  free_of sep f = true -> split sep f = [f].
Proof.
  induction f as [|c f IH]; simpl; [reflexivity|].
  intros H. apply andb_true_iff in H as [Hc Hf].
  apply negb_true_iff in Hc. rewrite Hc, IH by assumption. reflexivity.
Qed.

Lemma split_field (sep : ascii) (f rest : string) :
  free_of sep f = true ->
  split sep (f ++ String sep rest)%string = f :: split sep rest.
Proof.
  induction f as [|c f IH]; simpl.
  - intros _. now rewrite Ascii.eqb_refl.
  - intros H. apply andb_true_iff in H as [Hc Hf].
    apply negb_true_iff in Hc. rewrite Hc, IH by assumption. reflexivity.
Qed.

Lemma split_join (sep : ascii) (fields : list string) :
  fields <> [] ->
  Forall (fun f => free_of sep f = true) fields ->
  split sep (join sep fields) = fields.
Proof.
  intros Hne H. induction H as [|f fs Hf Hfs IH]; [congruence|].
  destruct fs as [|f' fs].
  - simpl. now apply split_free.
  - change (join sep (f :: f' :: fs))
      with (f ++ String sep (join sep (f' :: fs)))%string.
    rewrite split_field by assumption. f_equal. apply IH. discriminate.
Qed.

(** The administrator list read from a comma-separated secret is the list
    of its entries, in order, each stripped by [str.strip] and lower-cased
    by [str.lower], the entries that strip to nothing left out. *)
Theorem ADMIN_EMAILS_of_joined_entries {P : PyLib} (L : StrLaws P)
    (entries : list string) :
  Forall (fun e => free_of "," e = true) entries ->
  ADMIN_EMAILS (join "," entries)
  = map (fun e => lower (strip e)) (filter nonblank entries).
Proof.
  intros H. unfold ADMIN_EMAILS. fold nonblank.
  destruct entries as [|e entries].
  - cbn [join split filter map]. unfold nonblank.
    now rewrite (@strip_on_ascii P L "" eq_refl).
  - rewrite split_join; [reflexivity|discriminate|exact H].
Qed.

Lemma ADMIN_EMAILS_of_joined_entries_witness :
  ADMIN_EMAILS (P := ascii_py) " Admin@X.com ,, b@Y.org"
  = ["admin@x.com"; "b@y.org"].
Proof.
  assert (H : Forall (fun e => free_of "," e = true)
                [" Admin@X.com "; ""; " b@Y.org"])
    by (repeat constructor).
  exact (@ADMIN_EMAILS_of_joined_entries ascii_py ascii_str_laws
           [" Admin@X.com "; ""; " b@Y.org"] H).
Defined.

(* ===================================================================== *)
(** ** The administrative calls *)
(* ===================================================================== *)

(** Deleting a user never raises and never touches the session; it returns
    [True] exactly when there is a service-role client and its call
    succeeded, showing nothing then, and shows one error otherwise. *)
Theorem admin_delete_user_result (supabase_admin : option admin_client)
    (user_id : string) (s : session) (pg : list ui) :
  exists (b : bool) (pg' : list ui),
    admin_delete_user supabase_admin user_id (mkWorld s pg)
    = (Done b, mkWorld s pg') /\
    (b = true <->
     exists client, supabase_admin = Some client /\
                    delete_user client user_id = Ok tt) /\
    (b = true -> pg' = pg) /\
    (b = false -> exists t, pg' = pg ++ [Error t]).
Proof.
  destruct supabase_admin as [client|].
  - unfold admin_delete_user, try_except.
    cbv [bind show ret lift raise].
    destruct (delete_user client user_id) as [[]|e] eqn:E.
    + exists true, pg. repeat split; try discriminate; eauto.
    + exists false. eexists. cbn [state page fst snd].
      split; [reflexivity|]. repeat split; try discriminate; eauto.
      intros [c [Hc Hd]]. inversion Hc; subst. congruence.
  - exists false. eexists. split; [reflexivity|].
    repeat split; try discriminate; eauto.
    intros [c [Hc _]]. discriminate.
Qed.

(** Listing the users never raises and never touches the session: it gives
    the [users] entry of the provider's reply (dict or object), the empty
    list when the reply has none, and the empty list with one error message
    when there is no service-role client or the call raised. *)
Theorem admin_list_users_result (supabase_admin : option admin_client)
    (s : session) (pg : list ui) :
  exists (users : pyval) (pg' : list ui),
    admin_list_users supabase_admin (mkWorld s pg)
    = (Done users, mkWorld s pg') /\
    match supabase_admin with
    | None =>
        users = VList [] /\
        pg' = pg ++ [Error [Lit "Admin functions require SUPABASE_SERVICE_ROLE_KEY in secrets."]]
    | Some client =>
        match list_users client with
        | Ok (PageDict d) =>
            users = match dict_get d "users" with
                    | Some v => v
                    | None => VList []
                    end /\ pg' = pg
        | Ok (PageObject (Some v)) => users = v /\ pg' = pg
        | Ok (PageObject None) => users = VList [] /\ pg' = pg
        | Err e =>
            users = VList [] /\
            pg' = pg ++ [Error [Lit "List users failed: "; FExn e]]
        end
    end.
Proof.
  destruct supabase_admin as [client|].
  - unfold admin_list_users, try_except.
    cbv [bind show ret lift raise].
    destruct (list_users client) as [[d|[v|]]|e];
      do 2 eexists; (split; [reflexivity|]); split; reflexivity.
  - do 2 eexists. split; [reflexivity|]. split; reflexivity.
Qed.

(** Without a service-role key, missing or empty, there is no admin client,
    and both calls only show that the key is required. *)
Theorem admin_calls_need_service_key (key : option string)
    (create_client : string -> admin_client) (user_id : string)
    (s : session) (pg : list ui) :
  key = None \/ key = Some "" ->
  get_client_admin key create_client = None /\
  admin_delete_user (get_client_admin key create_client) user_id
    (mkWorld s pg)
  = (Done false,
     mkWorld s (pg ++ [Error [Lit "Admin functions require SUPABASE_SERVICE_ROLE_KEY in secrets."]])) /\
  admin_list_users (get_client_admin key create_client) (mkWorld s pg)
  = (Done (VList []),
     mkWorld s (pg ++ [Error [Lit "Admin functions require SUPABASE_SERVICE_ROLE_KEY in secrets."]])).
Proof.
  intros [->| ->]; repeat split.
Qed.

Lemma admin_calls_need_service_key_witness :
  get_client_admin (Some "")
    (fun _ => mkAdminClient (Ok (PageObject None)) (fun _ => Ok tt)) = None.
Proof.
  exact (proj1 (@admin_calls_need_service_key (Some "")
                  (fun _ => mkAdminClient (Ok (PageObject None))
                              (fun _ => Ok tt))
                  "uid" fresh [] (or_intror eq_refl))).
Defined.

(* ===================================================================== *)
(** ** The signed-in Practice tab *)
(* ===================================================================== *)

(** In the signed-in Practice tab the bank is loaded first, then the profile
    box, then the player.  With no bank file the tab shows the loader's
    warning, the profile caption and the player's own warning, and returns
    with the session untouched; and a click on Sign out resets the session
    and reruns the script before the player is reached, whatever the bank
    and whatever else was clicked. *)
Theorem practice_tab_order {P : PyLib} (fs : string -> file_state)
    (json_loads : string -> res pydict) (provider_sign_out : res unit)
    (w : widgets) (s : session) (pg : list ui) :
  (fs ITEMS_PATH = Absent ->
   practice fs json_loads provider_sign_out false w (mkWorld s pg)
   = (Done tt,
      mkWorld s
        ((((pg ++ [Warning [Lit "Question bank not found at `";
                            Fmt (VStr ITEMS_PATH);
                            Lit "`. Using empty dataset."]]) ++
           [Caption [Lit "Signed in as **"; FStr (current_user_email s);
                     Lit "**"]]) ++
          [Header [Lit "AKT MCQ Practice"]]) ++
         [Warning [Lit "No items found. Add lines to `data/items.jsonl`."]]))) /\
  (forall df pg1,
      load_items fs json_loads ITEMS_PATH (mkWorld s pg) = (Done df, mkWorld s pg1) ->
      practice fs json_loads provider_sign_out true w (mkWorld s pg)
      = (Rerun,
         mkWorld fresh
           (pg1 ++ [Caption [Lit "Signed in as **";
                             FStr (current_user_email s); Lit "**"]]))) /\
  (forall e w1,
      load_items fs json_loads ITEMS_PATH (mkWorld s pg) = (Raised e, w1) ->
      forall clicked_out,
        practice fs json_loads provider_sign_out clicked_out w (mkWorld s pg)
        = (Raised e, w1)).
Proof.
  split; [|split].
  - intros Hfs. unfold practice. unfold bind at 1.
    rewrite load_items_absent by assumption.
    destruct provider_sign_out; reflexivity.
  - intros df pg1 Hload. unfold practice. unfold bind at 1. rewrite Hload.
    destruct provider_sign_out as [[]|e]; reflexivity.
  - intros e w1 Hload clicked_out. unfold practice. unfold bind at 1.
    now rewrite Hload.
Qed.

(* ===================================================================== *)
(** ** The score line *)
(* ===================================================================== *)

Lemma returns_ret {A} (a : A) : returns (ret a).
Proof. intros w. now exists a. Qed.

Lemma returns_show (u : ui) : returns (show u).
Proof. intros w. now exists tt. Qed.

Lemma returns_get_state : returns get_state.
Proof. intros w. now exists (state w). Qed.

Lemma returns_lift_ok {A} (a : A) : returns (lift (Ok a)).
Proof. intros w. now exists a. Qed.

Lemma returns_bind {A B} (c : script A) (k : A -> script B) :
  returns c -> (forall a, returns (k a)) -> returns (bind c k).
Proof.
  intros Hc Hk w. unfold bind. destruct (Hc w) as [a Ha].
  destruct (c w) as [f w']. simpl in Ha. subst f. apply Hk.
Qed.

Lemma returns_shows {X} (f : X -> ui) (l : list X) :
  returns (fold_right (fun x k => show (f x) ;; k) (ret tt) l).
Proof.
  induction l as [|x l IH]; simpl.
  - apply returns_ret.
  - apply returns_bind; auto using returns_show.
Qed.

Ltac returning :=
  repeat first
    [ progress cbv beta iota
    | apply returns_ret | apply returns_show | apply returns_get_state
    | apply returns_lift_ok | apply returns_shows
    | apply returns_bind; [|intro]
    | match goal with
      | |- returns (if ?b then _ else _) => destruct b
      | |- returns (match ?x with _ => _ end) => destruct x
      end ].

Lemma feedback_returns (row : pydict) (case_id : pyval) :
  hashable case_id = true ->
  feedback_ok row = true ->
  returns (feedback row case_id).
Proof.
  intros Hh Hok. unfold feedback_ok, loopable in Hok.
  apply andb_true_iff in Hok as [Hexp Hrefs].
  unfold feedback, resp_get. rewrite Hh.
  destruct (py_truthy (row_get row "guideline_reference" (VList [])));
    [destruct (py_iter (row_get row "guideline_reference" (VList [])));
     [|discriminate]|];
    (destruct (row_get row "explanation" (VDict [])) as [| | | | | |expl];
     [returning ..|]);
    (destruct (py_truthy (row_get expl "why_others_incorrect" (VList [])));
     [destruct (py_iter (row_get expl "why_others_incorrect" (VList [])));
      [|discriminate]|]);
    returning.
Qed.

Lemma show_item_score_line (view : DataFrame) (idx : Z) (w : widgets)
    (row : pydict) (s : session) (pg : list ui) :
  df_iloc view idx = Ok row ->
  item_ok row = true ->
  feedback_ok row = true ->
  is_clicked Previous w || is_clicked Next w = false ->
  exists pg',
    show_item view idx w (mkWorld s pg)
    = (Done tt,
       mkWorld (after_click (df_len view) idx row w s)
         (pg' ++ [score_line (after_click (df_len view) idx row w s)])).
Proof.
  intros Hrow Hok Hfb Hnav. unfold item_ok in Hok.
  apply andb_true_iff in Hok as [Hok Hdict].
  apply andb_true_iff in Hok as [_ Hhash].
  destruct (row_get row "options" (VDict [])) as [| | | | | |d] eqn:Hopt;
    try discriminate.
  pose proof (feedback_returns row (row_get row "case_id" VNone) Hhash Hfb)
    as HR.
  destruct w as [dom sub ch [[| |]|]]; try discriminate Hnav;
    unfold show_item, resp_get, resp_set, after_click, score_line;
    cbv [bind show ret lift raise get_state set_quiz_index set_quiz_score
         set_responses put_state st_rerun];
    rewrite Hrow; cbv beta iota zeta; rewrite Hopt, key_to_label_dict, Hhash;
    cbn [state page fst snd is_clicked clicked choice];
    try (destruct (choice_eq ch (row_get row "correct_answer" VNone));
         cbn [state page fst snd]);
    match goal with
    | |- context [feedback ?r ?c ?W] =>
        pose proof (keeps_feedback r c W) as HF;
        destruct (HR W) as [[] HD];
        destruct (feedback r c W) as [f [sW pW]]
    end; cbn [state page fst snd] in *; subst; eexists; reflexivity.
Qed.

(** A run that gets to the end of the player (nothing clicked, or Submit,
    on a well-formed item whose explanation and references can be rendered)
    ends with the line "Score: score / answered", where the score is the
    session's and the denominator is the number of entries of the response
    record, not the number of items of the view. *)
Theorem score_line_counts_answered_items (df : DataFrame) (w : widgets)
    (s : session) (pg : list ui) :
  bank_ok df = true ->
  let view := view_by_spec (rows df) (dom_choice w) (sub_choice w) in
  let n := Z.of_nat (List.length view) in
  0 <= quiz_index s < n ->
  is_clicked Previous w || is_clicked Next w = false ->
  exists row,
    nth_error view (Z.to_nat (quiz_index s)) = Some row /\
    (feedback_ok row = true ->
     exists pg',
       mcq_player df w (mkWorld s pg)
       = (Done tt,
          mkWorld (after_click n (quiz_index s) row w s)
            (pg' ++ [score_line (after_click n (quiz_index s) row w s)]))).
Proof.
  intros Hok view n Hc Hnav.
  assert (Hrows : rows df <> []).
  { intros E. subst n view. unfold view_by_spec in Hc. rewrite E in Hc.
    simpl in Hc. lia. }
  assert (Hclamp : clamp_cursor n (quiz_index s) = quiz_index s).
  { unfold clamp_cursor. destruct (Z.geb_spec (quiz_index s) n); lia. }
  assert (Henter : enter_view n s = s).
  { unfold enter_view.
    destruct (Z.geb_spec (quiz_index s) n); [lia|reflexivity]. }
  assert (Hrange : 0 <= quiz_index s < df_len (mkFrame (columns df) view))
    by exact Hc.
  destruct (df_iloc_nth (mkFrame (columns df) view) Hrange)
    as [row [Hnth Hiloc]].
  simpl rows in Hnth. exists row. split; [exact Hnth|]. intros Hfb.
  assert (Hitem : item_ok row = true).
  { destruct (bank_ok_parts df Hok) as [_ [_ Hitems]]. apply Hitems.
    apply view_by_spec_incl with (dom := dom_choice w) (sub := sub_choice w).
    eapply nth_error_In; eauto. }
  rewrite mcq_player_enters by assumption. fold view. fold n.
  destruct (Z.eqb_spec n 0) as [Hn|_]; [lia|].
  rewrite Hclamp, Henter.
  exact (@show_item_score_line (mkFrame (columns df) view) (quiz_index s) w
           row s (pg ++ page_head n) Hiloc Hitem Hfb Hnav).
Qed.

Lemma score_line_counts_answered_items_witness :
  exists pg',
    mcq_player demo_bank (mkWidgets "All" "All" (Some "B") (Some Submit))
      (mkWorld fresh [])
    = (Done tt,
       mkWorld (mkSession None 0 0 [(VStr "C1", Some "B")])
         (pg' ++ [Info [Lit "Score: "; FInt 0; Lit " / "; FInt 1]])).
Proof.
  assert (Hc : 0 <= quiz_index fresh
               < Z.of_nat (List.length
                             (view_by_spec (rows demo_bank) "All" "All")))
    by (vm_compute; split; [discriminate | reflexivity]).
  destruct (@score_line_counts_answered_items demo_bank
              (mkWidgets "All" "All" (Some "B") (Some Submit)) fresh []
              eq_refl Hc eq_refl) as [row [Hrow H]].
  vm_compute in Hrow. inversion Hrow; subst.
  exact (H eq_refl).
Defined.

(* ===================================================================== *)
(** ** The radio *)
(* ===================================================================== *)

Lemma show_then {A} (u : ui) (k : script A) (w : world) :
  (show u ;; k) w = k (mkWorld (state w) (page w ++ [u])).
Proof. reflexivity. Qed.

Lemma lift_then {A B} (a : A) (k : A -> script B) (w : world) :
  (x <- lift (Ok a) ;; k x) w = k a w.
Proof. reflexivity. Qed.

Lemma get_state_then {A} (k : session -> script A) (w : world) :
  (s <- get_state ;; k s) w = k (state w) w.
Proof. reflexivity. Qed.

Lemma list_index_nth (p : string) (l : list string) :
  In p l -> nth_error l (list_index p l) = Some p.
Proof.
  induction l as [|x l IH]; simpl; [tauto|].
  destruct (String.eqb_spec x p) as [->|Hne]; [reflexivity|].
  intros [H|H]; [congruence|]. now apply IH.
Qed.

Lemma dict_contains_str_in (d : pydict) (k : string) :
  dict_contains d k = str_in k (dict_keys d).
Proof.
  destruct (dict_contains d k) eqn:E.
  - symmetry. apply str_in_In. now apply dict_contains_keys.
  - destruct (str_in k (dict_keys d)) eqn:F; [|reflexivity].
    apply str_in_In in F. apply dict_contains_keys in F. congruence.
Qed.

(** For a well-formed item, the radio comes right after the question, the
    topic and the text; it offers the letters of the item's options that are
    among A to E, in that order, labelled with the item's own texts, and it
    is preset on the answer recorded for the item when that answer is one of
    the letters, on the first letter otherwise. *)
Theorem radio_offers_letters_in_order (view : DataFrame) (idx : Z)
    (w : widgets) (row : pydict) (d : pydict) (s : session) (pg : list ui) :
  df_iloc view idx = Ok row ->
  row_get row "options" (VDict []) = VDict d ->
  hashable (row_get row "case_id" VNone) = true ->
  let letters := filter (dict_contains d) keys in
  let stored := resp_lookup (responses s) (row_get row "case_id" VNone) in
  (exists rest,
      page (snd (show_item view idx w (mkWorld s pg)))
      = (pg ++ item_lines (df_len view) idx row) ++
        Radio letters (pick d keys) (radio_index letters stored) :: rest) /\
  (forall k, In k letters -> dict_get (pick d keys) k = dict_get d k) /\
  (forall p, stored = Some p -> In p letters ->
             nth_error letters (radio_index letters stored) = Some p).
Proof.
  intros Hrow Hopt Hhash letters stored. split; [|split].
  - unfold show_item. rewrite Hrow, lift_then, !show_then.
    cbv zeta. rewrite Hopt, key_to_label_dict, lift_then, get_state_then.
    unfold resp_get. rewrite Hhash, lift_then.
    cbn [state page].
    match goal with
    | |- context [bind (show ?u) (fun _ => ?k) ?W] =>
        assert (Hk : extends_page k);
        [| destruct (@extends_after_show _ u k Hk W) as [rest Hrest];
           exists rest; rewrite Hrest ]
    end.
    { unfold feedback, set_quiz_index, set_quiz_score, set_responses. pages. }
    cbn [state page]. unfold item_lines, question_line, radio_index.
    fold stored. rewrite <- !app_assoc. cbn [app].
    destruct stored as [p|]; [|rewrite pick_keys; reflexivity].
    rewrite dict_contains_str_in, !pick_keys. reflexivity.
  - intros k Hk. rewrite pick_get.
    apply filter_In in Hk as [Hk _]. apply str_in_In in Hk. now rewrite Hk.
  - intros p Hp Hin. rewrite Hp. unfold radio_index.
    assert (E : str_in p letters = true) by now apply str_in_In.
    rewrite E. now apply list_index_nth.
Qed.

Lemma radio_offers_letters_in_order_witness :
  exists rest,
    page (snd (show_item demo_bank 1 (mkWidgets "All" "All" None None)
                 (mkWorld (mkSession None 1 0 [(VStr "C2", Some "D")]) [])))
    = item_lines 5 1 (item "C2" "Cardio" "AF"
                        [("A", VStr "a"); ("B", VStr "b"); ("D", VStr "d")]
                        "B") ++
      Radio ["A"; "B"; "D"]
        [("A", VStr "a"); ("B", VStr "b"); ("D", VStr "d")] 2 :: rest.
Proof.
  exact (proj1 (@radio_offers_letters_in_order demo_bank 1
                  (mkWidgets "All" "All" None None)
                  (item "C2" "Cardio" "AF"
                     [("A", VStr "a"); ("B", VStr "b"); ("D", VStr "d")] "B")
                  [("A", VStr "a"); ("B", VStr "b"); ("D", VStr "d")]
                  (mkSession None 1 0 [(VStr "C2", Some "D")]) []
                  eq_refl eq_refl eq_refl)).
Defined.
